(** * Account and asset serializers of JumpServer: a shallow embedding

    The development follows
    - [apps/accounts/serializers/account/account.py]
      ([AccountCreateUpdateSerializerMixin], [AssetAccountBulkSerializer]),
    - [apps/assets/serializers/asset/common.py] ([AssetSerializer]),
    - [apps/assets/serializers/platform.py] ([PlatformSerializer]).

    Python dictionaries are finite maps from strings to dynamically typed
    values, exceptions are an explicit result type, and the record store is
    threaded through the calls that read or write it. The calls into
    Django and the REST framework ([filter], [first], [create], [save],
    [get_or_create], [update_or_create], [ModelSerializer.update]) follow
    the behaviour the frameworks document; a translated message is its
    message identifier. What the sources use but do not contain (the
    uniqueness constraints of the [Account] model, the policy constants,
    [Asset.get_secret_type_assets]) is taken from the specification and
    marked as such. *)

From Stdlib Require Import ZArith Ascii.
From stdpp Require Import gmap strings list fin_maps pretty sorting.

Local Open Scope Z_scope.
Set Warnings "-clear-no-such-hyp".

(** ** Python values *)

(** Dynamically typed values. A model instance held in a dictionary (an
    [Asset]) is its primary key: Django compares instances of one model by
    primary key, and every attribute of the row is read through it. *)
Inductive pyval :=
| VNone
| VBool (b : bool)
| VInt (z : Z)
| VStr (s : string)
| VAsset (pk : string).

#[global] Instance pyval_eq_dec : EqDecision pyval.
Proof. solve_decision. Defined.

(** A Python [dict] with string keys. *)
Abbreviation dict := (gmap string pyval).

(** [bool(v)] *)
Definition truthy (v : pyval) : bool :=
  match v with
  | VNone => false
  | VBool b => b
  | VInt z => negb (z =? 0)
  | VStr s => negb (bool_decide (s = ""))
  | VAsset _ => true
  end.

(** [d.get(k)] and [d.get(k, dflt)] *)
Definition dict_get (d : dict) (k : string) : pyval := default VNone (d !! k).
Definition dict_get_default (d : dict) (k : string) (dflt : pyval) : pyval :=
  default dflt (d !! k).

(** ** Exceptions *)

Inductive exn :=
| IntegrityError (msg : string)
| ValidationError (detail : list string)
| ValidationErrorDict (field msg : string)
| KeyError (key : string)
| TypeError (msg : string)
| IndexError (msg : string)
| AttributeError (msg : string)
| MultipleObjectsReturned (msg : string).

Inductive result (A : Type) :=
| Ok (a : A)
| Raise (e : exn).
Arguments Ok {A} a.
Arguments Raise {A} e.

#[global] Instance result_ret : MRet result := @Ok.
#[global] Instance result_bind : MBind result :=
  λ A B f m, match m with Ok a => f a | Raise e => Raise e end.

(** [str(e)] *)
Definition exn_str (e : exn) : string :=
  match e with
  | IntegrityError m | TypeError m | IndexError m
  | AttributeError m | MultipleObjectsReturned m => m
  | KeyError k => "'" +:+ k +:+ "'"
  | ValidationError d => "[" +:+ String.concat ", " d +:+ "]"
  | ValidationErrorDict f m => "{'" +:+ f +:+ "': '" +:+ m +:+ "'}"
  end.

(** [d[k]] *)
Definition dict_getitem (d : dict) (k : string) : result pyval :=
  match d !! k with
  | Some v => Ok v
  | None => Raise (KeyError k)
  end.

(** [v < n] and [v > n] against an integer literal; [bool] is a subtype of
    [int], the other types do not order against integers. *)
Definition py_lt (v : pyval) (n : Z) : result bool :=
  match v with
  | VInt z => Ok (z <? n)
  | VBool b => Ok (Z.b2z b <? n)
  | _ => Raise (TypeError "'<' not supported")
  end.

Definition py_gt (v : pyval) (n : Z) : result bool :=
  match v with
  | VInt z => Ok (z >? n)
  | VBool b => Ok (Z.b2z b >? n)
  | _ => Raise (TypeError "'>' not supported")
  end.

(** [v + s] for a string literal [s] *)
Definition py_add_str (v : pyval) (s : string) : result string :=
  match v with
  | VStr t => Ok (t +:+ s)
  | _ => Raise (TypeError "unsupported operand type(s) for +")
  end.

(** [s.split(sep)] for a separator of one character: the pieces between
    the occurrences of [sep], of which there is always at least one. *)
Fixpoint split (sep : Ascii.ascii) (s : string) : list string :=
  match s with
  | EmptyString => [""]
  | String c s' =>
      if decide (c = sep) then "" :: split sep s'
      else
        match split sep s' with
        | piece :: pieces => String c piece :: pieces
        | [] => [String c ""]
        end
  end.

(** ** Insertion-ordered dictionaries

    A Python [dict] whose iteration order matters: a key keeps the position
    of its first insertion, a later assignment replaces the value only. *)

Abbreviation odict V := (list (pyval * V)).

Fixpoint od_set {V} (k : pyval) (v : V) (d : odict V) : odict V :=
  match d with
  | [] => [(k, v)]
  | (k', v') :: d' =>
      if decide (k' = k) then (k', v) :: d' else (k', v') :: od_set k v d'
  end.

Fixpoint od_get {V} (k : pyval) (d : odict V) : option V :=
  match d with
  | [] => None
  | (k', v') :: d' => if decide (k' = k) then Some v' else od_get k d'
  end.

Definition od_mem {V} (k : pyval) (d : odict V) : bool :=
  bool_decide (is_Some (od_get k d)).

Definition od_keys {V} (d : odict V) : list pyval := d.*1.
Definition od_values {V} (d : odict V) : list V := d.*2.

(** ** Platform protocols (rows of [platform.protocols]) *)

Record PlatformProtocol := {
  pp_name : string;
  pp_port : Z;
  pp_primary : bool;
  pp_required : bool;
  pp_default : bool;
}.

(** ** [AssetSerializer] *)

Module AssetSerializer.

(** [{p['name']: p for p in protocols_data}], from the dictionary [m] on. *)
Fixpoint protocols_data_map (protocols_data : list dict) (m : odict dict)
  : result (odict dict) :=
  match protocols_data with
  | [] => Ok m
  | p :: rest =>
      name ← dict_getitem p "name";
      protocols_data_map rest (od_set name p m)
  end.

Definition port_out_of_range : string := "port out of range (1-65535)".

(** The loop over [protocols_data] that checks every port. *)
Fixpoint check_ports (protocols_data : list dict) : result unit :=
  match protocols_data with
  | [] => Ok ()
  | p :: rest =>
      let port := dict_get_default p "port" (VInt 0) in
      low ← py_lt port 1;
      bad ← (if low : bool then Ok true else py_gt port 65535);
      if bad : bool then
        prefix ← py_add_str (dict_get p "name") ": ";
        Raise (ValidationError [prefix +:+ port_out_of_range])
      else check_ports rest
  end.

Definition _get_protocols_required_default
    (platform_protocols : list PlatformProtocol)
  : list PlatformProtocol * list PlatformProtocol :=
  let protocols_default := filter (λ p, pp_default p = true) platform_protocols in
  let protocols_required :=
    filter (λ p, (pp_required p || pp_primary p) = true) platform_protocols in
  (protocols_required, protocols_default).

(** [validate_protocols]; [asset_platform] is what the [_asset_platform]
    property yields: the protocols of the asset's platform, or nothing
    when no platform is found. *)
Definition validate_protocols
    (asset_platform : option (list PlatformProtocol))
    (protocols_data : list dict) : result (list dict) :=
  m ← protocols_data_map protocols_data [];
  _ ← check_ports protocols_data;
  platform_protocols ←
    match asset_platform with
    | Some ps => Ok ps
    | None => Raise (ValidationErrorDict "platform" "Platform not exist")
    end;
  let '(protocols_required, protocols_default) :=
    _get_protocols_required_default platform_protocols in
  let protocols_not_found :=
    pp_name <$>
      filter (λ p, od_mem (VStr (pp_name p)) m = false) protocols_required in
  match protocols_not_found with
  | [] => Ok (od_values m)
  | _ :: _ =>
      Raise (ValidationErrorDict "protocols"
               ("Protocol is required: " +:+ String.concat ", " protocols_not_found))
  end.

(** [_set_protocols_default], for a serializer that has [initial_data]:
    [initial_protocols] is [self.initial_data.get('protocols')], the value
    returned is [self.initial_data['protocols']] after the call (the key is
    left as it is when it holds a list). *)
Definition _set_protocols_default
    (asset_platform : option (list PlatformProtocol))
    (initial_protocols : option (list dict)) : result (option (list dict)) :=
  match initial_protocols with
  | Some protocols => Ok (Some protocols)
  | None =>
      platform_protocols ←
        match asset_platform with
        | Some ps => Ok ps
        | None => Raise (ValidationErrorDict "platform" "Platform not exist")
        end;
      let '(protocols_required, protocols_default) :=
        _get_protocols_required_default platform_protocols in
      let protocols_data :=
        (λ p, ({[ "name" := VStr (pp_name p); "port" := VInt (pp_port p) ]} : dict))
          <$> (protocols_required ++ protocols_default) in
      Ok (Some protocols_data)
  end.

End AssetSerializer.

(** ** [PlatformSerializer] *)

Module PlatformSerializer.

(** [validate_protocols]: the entries are dictionaries mutated in place,
    the first one receives [primary = True] when none has it. The list
    returned is also the one stored in [self.initial_data['protocols']]. *)
Definition validate_protocols (protocols : list dict) : result (list dict) :=
  match protocols with
  | [] => Raise (ValidationError ["Protocols is required"])
  | first :: rest =>
      let primary := filter (λ p, truthy (dict_get p "primary") = true) protocols in
      match primary with
      | [] => Ok (<["primary" := VBool true]> first :: rest)
      | _ :: _ => Ok protocols
      end
  end.

(** A dictionary that holds a dictionary under [automation]: the validated
    attributes [attrs] and the constraints of a platform type. [fields] are
    the other keys. *)
Record Attrs := {
  fields : dict;
  automation : option dict;
}.

(** [validate]; [constraints] is what reading the lazy property
    [self.constraints] yields, the constraints of the platform type or the
    exception raised on the way. The right operand of Python's [and] is
    evaluated only when the left one is truthy, so the property is read
    only for a flag that is requested. The value returned is [attrs] after
    the update; its [automation] is also stored in [self.initial_data]. *)
Definition validate (constraints : result Attrs) (attrs : Attrs)
  : result Attrs :=
  let requested := dict_get_default (fields attrs) "domain_enabled" (VBool false) in
  domain_enabled ←
    (if truthy requested then
       c ← constraints;
       Ok (dict_get_default (fields c) "domain_enabled" (VBool false))
     else Ok requested);
  let requested := dict_get_default (fields attrs) "su_enabled" (VBool false) in
  su_enabled ←
    (if truthy requested then
       c ← constraints;
       Ok (dict_get_default (fields c) "su_enabled" (VBool false))
     else Ok requested);
  let automation_ := default ∅ (automation attrs) in
  let requested := dict_get_default automation_ "ansible_enabled" (VBool false) in
  ansible_enabled ←
    (if truthy requested then
       c ← constraints;
       match automation c with
       | Some a => Ok (dict_get_default a "ansible_enabled" (VBool false))
       | None => Raise (KeyError "automation")
       end
     else Ok requested);
  let automation_ := <["ansible_enabled" := ansible_enabled]> automation_ in
  Ok {| fields := <["su_enabled" := su_enabled]>
                    (<["domain_enabled" := domain_enabled]> (fields attrs));
        automation := Some automation_ |}.

End PlatformSerializer.

(** ** The record store and the other collaborators *)

(** A row of the [Asset] table as far as the serializers read it. *)
Record AssetRow := {
  asset_str : string;            (* str(asset) *)
  asset_secret_types : list pyval; (* secret types the asset supports *)
}.

(** An [AccountTemplate] instance: the names of [template._meta.fields] and
    the attribute values. *)
Record AccountTemplate := {
  tpl_meta_fields : list string;
  tpl_attrs : dict;
}.

(** The state the serializers work on: the [Account] rows in query order,
    the [Asset] and [AccountTemplate] tables, the values the successive
    calls of [uuid.uuid4().hex] return, and the queue of the push task. *)
Record world := {
  accounts : list dict;
  assets : gmap string AssetRow;
  account_templates : list AccountTemplate;
  entropy : nat → string;
  drawn : nat;
  push_queue : list (list pyval * pyval);
}.

Definition set_accounts (rows : list dict) (w : world) : world :=
  {| accounts := rows; assets := assets w;
     account_templates := account_templates w;
     entropy := entropy w; drawn := drawn w; push_queue := push_queue w |}.

Definition set_drawn (n : nat) (w : world) : world :=
  {| accounts := accounts w; assets := assets w;
     account_templates := account_templates w;
     entropy := entropy w; drawn := n; push_queue := push_queue w |}.

Definition set_push_queue (q : list (list pyval * pyval)) (w : world) : world :=
  {| accounts := accounts w; assets := assets w;
     account_templates := account_templates w;
     entropy := entropy w; drawn := drawn w; push_queue := q |}.

(** Computations that read and write the world and may raise; an exception
    leaves the world as it is at that point (nothing is rolled back). *)
Definition M (A : Type) : Type := world → result A * world.

Definition ret {A} (a : A) : M A := λ w, (Ok a, w).
Definition bind {A B} (m : M A) (f : A → M B) : M B := λ w,
  match m w with
  | (Ok a, w') => f a w'
  | (Raise e, w') => (Raise e, w')
  end.

Notation "'let*' x ':=' m 'in' k" := (bind m (λ x, k))
  (at level 10, x pattern, m at level 100, k at level 200, only parsing).

Definition lift {A} (r : result A) : M A := λ w, (r, w).
Definition raise {A} (e : exn) : M A := λ w, (Raise e, w).

(** [uuid.uuid4().hex] *)
Definition uuid4_hex : M string := λ w,
  (Ok (entropy w (drawn w)), set_drawn (S (drawn w)) w).

(** [s[:4]] *)
Definition first4 (s : string) : string := String.substring 0 4 s.

(** ** The [Account] manager ([Account.objects]) *)

Module Account.

(** A row satisfies the keyword arguments [lookup] of a [filter] call. *)
Definition row_matches (lookup row : dict) : bool :=
  bool_decide (map_Forall (λ k v, dict_get row k = v) lookup).

(** A [Q] object built with [|=] from keyword lookups: the disjunction of
    its parts; the empty [Q()] restricts nothing. *)
Definition q_matches (q : list dict) (row : dict) : bool :=
  match q with
  | [] => true
  | _ :: _ => existsb (λ lookup, row_matches lookup row) q
  end.

(** The value a lookup on a foreign key compares with: the related
    instance, given as such or by its primary key. *)
Definition fk (v : pyval) : pyval :=
  match v with
  | VStr pk => VAsset pk
  | _ => v
  end.

Definition same_on (keys : list string) (r1 r2 : dict) : bool :=
  forallb (λ k, bool_decide (dict_get r1 k = dict_get r2 k)) keys.

(** Modelled from the spec: the uniqueness constraints of the [Account]
    model (the model is not part of the sources): the name is unique within
    the asset, and so is the pair of username and secret type. *)
Definition conflicts (r1 r2 : dict) : bool :=
  same_on ["name"; "asset"] r1 r2
  || same_on ["username"; "secret_type"; "asset"] r1 r2.

Definition violates (row : dict) (others : list dict) : bool :=
  existsb (conflicts row) others.

Definition unique_violation : exn :=
  IntegrityError "duplicate key value violates unique constraint".

(** [Account.objects.filter] with the keyword arguments [lookup] *)
Definition objects_filter (lookup : dict) : M (list dict) := λ w,
  (Ok (filter (λ row, row_matches lookup row = true) (accounts w)), w).

(** The insertion of a row, refused when it breaks a uniqueness
    constraint. *)
Definition insert_row (row : dict) : M dict := λ w,
  if violates row (accounts w) then (Raise unique_violation, w)
  else (Ok row, set_accounts (accounts w ++ [row]) w).

(** [Account.objects.create] with the keyword arguments [params]: the
    primary key defaults to a fresh uuid. *)
Definition create (params : dict) : M dict :=
  let* row := match params !! "id" with
              | Some _ => ret params
              | None => let* hex := uuid4_hex in ret (<["id" := VStr hex]> params)
              end in
  insert_row row.

(** [instance.save()] of a loaded row: the row of that primary key is
    replaced. *)
Definition save (row : dict) : M unit := λ w,
  let same_pk r := bool_decide (dict_get r "id" = dict_get row "id") in
  let others := filter (λ r, same_pk r = false) (accounts w) in
  if violates row others then (Raise unique_violation, w)
  else if existsb same_pk (accounts w)
  then (Ok (), set_accounts ((λ r, if same_pk r then row else r) <$> accounts w) w)
  else (Ok (), set_accounts (accounts w ++ [row]) w).

(** [Account.objects.get_or_create] with [defaults] and the keyword
    arguments [lookup] *)
Definition get_or_create (defaults lookup : dict) : M (dict * bool) :=
  let* rows := objects_filter lookup in
  match rows with
  | [row] => ret (row, false)
  | _ :: _ :: _ =>
      raise (MultipleObjectsReturned "get() returned more than one Account")
  | [] => let* row := create (defaults ∪ lookup) in ret (row, true)
  end.

(** [Account.objects.update_or_create] with [defaults] and the keyword
    arguments [lookup] *)
Definition update_or_create (defaults lookup : dict) : M (dict * bool) :=
  let* rows := objects_filter lookup in
  match rows with
  | [row] =>
      let row' := defaults ∪ row in
      let* _ := save row' in ret (row', false)
  | _ :: _ :: _ =>
      raise (MultipleObjectsReturned "get() returned more than one Account")
  | [] => let* row := create (defaults ∪ lookup) in ret (row, true)
  end.

End Account.

(** [push_accounts_to_assets_task.delay(ids, params)] *)
Definition push_accounts_to_assets_task_delay
    (ids : list pyval) (params : pyval) : M unit := λ w,
  (Ok (), set_push_queue (push_queue w ++ [(ids, params)]) w).

(** [str(v)] *)
Definition py_str (v : pyval) : string :=
  match v with
  | VNone => "None"
  | VBool true => "True"
  | VBool false => "False"
  | VInt z => pretty z
  | VStr s => s
  | VAsset pk => pk
  end.

(** Modelled from the spec: the values of [AccountInvalidPolicy] (the
    constants module is not part of the sources): [error], [skip] and
    [update]. *)
Module AccountInvalidPolicy.
Definition SKIP : pyval := VStr "skip".
Definition UPDATE : pyval := VStr "update".
Definition ERROR : pyval := VStr "error".
End AccountInvalidPolicy.

(** Modelled from the spec: [Source.TEMPLATE] (the constants module is not
    part of the sources). *)
Module Source.
Definition TEMPLATE : pyval := VStr "template".
End Source.

(** ** [AccountCreateUpdateSerializerMixin] *)

Module AccountCreateUpdateSerializerMixin.

(** The value under the [template] key of the request data: a plain value
    (an identifier) or a template instance already loaded. *)
Inductive template_ref :=
| TplValue (v : pyval)
| TplObject (t : AccountTemplate).

(** The request data [initial_data] when it is a dictionary: the [template]
    key, and [fields] for every other key. *)
Record InitialData := {
  template : option template_ref;
  fields : dict;
}.

Inductive payload :=
| PStr (s : string)
| PDict (d : InitialData).

Definition ignore_fields : list string :=
  ["id"; "date_created"; "date_updated"; "org_id"].

Definition field_names (t : AccountTemplate) : list string :=
  filter (λ name, name ∉ ignore_fields) (tpl_meta_fields t).

(** The loop that fills [attrs] from the template. *)
Definition template_attrs (t : AccountTemplate) : dict :=
  foldl (λ attrs name,
           let value := dict_get (tpl_attrs t) name in
           if decide (value = VNone) then attrs
           else <[name := value]> attrs) ∅ (field_names t).

(** [AccountTemplate.objects.filter(id=template_id).first()] *)
Definition template_by_id (w : world) (template_id : pyval)
  : option AccountTemplate :=
  head (filter (λ t, dict_get (tpl_attrs t) "id" = template_id)
          (account_templates w)).

(** [bool(template_id)] for the value popped from the request data. *)
Definition ref_truthy (template_id : option template_ref) : bool :=
  match template_id with
  | None => false
  | Some (TplValue v) => truthy v
  | Some (TplObject _) => true
  end.

(** [from_template_if_need]: returns the request data after the call and
    the value of [self._template]. *)
Definition from_template_if_need (w : world)
    (self_template : option AccountTemplate) (initial_data : payload)
  : result (payload * option AccountTemplate) :=
  match initial_data with
  | PStr _ => Ok (initial_data, self_template)
  | PDict d =>
      let template_id := template d in
      let d := {| template := None; fields := fields d |} in
      if negb (ref_truthy template_id) then Ok (PDict d, self_template)
      else
        t ← match template_id with
            | Some (TplValue (VStr id)) =>
                match template_by_id w (VStr id) with
                | Some t => Ok t
                | None =>
                    Raise (ValidationErrorDict "template" "Template not found")
                end
            | Some (TplObject t) => Ok t
            | _ => Raise (AttributeError "object has no attribute '_meta'")
            end;
        let attrs := template_attrs t in
        Ok (PDict {| template := TplValue <$> attrs !! "template";
                     fields := delete "template" attrs ∪ fields d |},
            Some t)
  end.

(** [set_uniq_name_if_need]; [instance] is [self.instance], [asset] the
    asset of the request data (its primary key) or of the instance. *)
Definition set_uniq_name_if_need (instance : option dict)
    (initial_data : InitialData) (asset : pyval) : M InitialData :=
  let name := dict_get (fields initial_data) "name" in
  match name with
  | VNone =>
      let name := dict_get (fields initial_data) "username" in
      let same_name :=
        match instance with
        | Some inst => bool_decide (dict_get inst "name" = name)
        | None => false
        end in
      if same_name then ret initial_data
      else
        let* rows :=
          Account.objects_filter
            {[ "name" := name; "asset" := Account.fk asset ]} in
        let* name :=
          match rows with
          | [] => ret name
          | _ :: _ =>
              let* prefix := lift (py_add_str name "_") in
              let* hex := uuid4_hex in
              ret (VStr (prefix +:+ first4 hex))
          end in
        ret {| template := template initial_data;
               fields := <["name" := name]> (fields initial_data) |}
  | _ => ret initial_data
  end.

(** [push_account_if_need] *)
Definition push_account_if_need
    (instance : dict) (push_now params : pyval) (stat : string) : M unit :=
  if negb (truthy push_now) || negb (bool_decide (stat ∈ ["created"; "updated"]))
  then ret ()
  else push_accounts_to_assets_task_delay [VStr (py_str (dict_get instance "id"))] params.

(** The [Q] object of [do_create]. *)
Definition do_create_q (vd : dict) : list dict :=
  let q := [] in
  let q := if truthy (dict_get vd "name")
           then q ++ [ {[ "name" := dict_get vd "name" ]} ] else q in
  let q := if truthy (dict_get vd "username")
           then q ++ [ {[ "username" := dict_get vd "username";
                          "secret_type" := dict_get vd "secret_type" ]} ]
           else q in
  q.

(** [do_create] *)
Definition do_create (vd : dict) : M (dict * string) :=
  let on_invalid := dict_get vd "on_invalid" in
  let vd := delete "on_invalid" vd in
  let q := do_create_q vd in
  let* asset := lift (dict_getitem vd "asset") in
  let* rows := Account.objects_filter {[ "asset" := asset ]} in
  match head (filter (λ row, Account.q_matches q row = true) rows) with
  | None =>
      let* instance := Account.create vd in
      ret (instance, "created")
  | Some instance =>
      if bool_decide (on_invalid = AccountInvalidPolicy.SKIP) then
        ret (instance, "skipped")
      else if bool_decide (on_invalid = AccountInvalidPolicy.UPDATE) then
        let instance := vd ∪ instance in
        let* _ := Account.save instance in
        ret (instance, "updated")
      else raise (ValidationError ["Account already exists"])
  end.

(** [generate_source_data] *)
Definition generate_source_data
    (self_template : option AccountTemplate) (validated_data : dict) : dict :=
  match self_template with
  | None => validated_data
  | Some t =>
      <["source_id" := VStr (py_str (dict_get (tpl_attrs t) "id"))]>
        (<["source" := Source.TEMPLATE]> validated_data)
  end.

(** [create] *)
Definition create (self_template : option AccountTemplate)
    (validated_data : dict) : M dict :=
  let push_now := dict_get validated_data "push_now" in
  let validated_data := delete "push_now" validated_data in
  let params := dict_get validated_data "params" in
  let validated_data := delete "params" validated_data in
  let validated_data := generate_source_data self_template validated_data in
  let* (instance, stat) := do_create validated_data in
  let* _ := push_account_if_need instance push_now params stat in
  ret instance.

(** [super().update(instance, validated_data)], the update of
    [rest_framework]'s [ModelSerializer]: every validated attribute is
    assigned to the instance, which is then saved. *)
Definition ModelSerializer_update (instance validated_data : dict) : M dict :=
  let instance := validated_data ∪ instance in
  let* _ := Account.save instance in
  ret instance.

(** [update] *)
Definition update (instance validated_data : dict) : M dict :=
  let validated_data := delete "username" validated_data in
  let validated_data := delete "on_invalid" validated_data in
  let push_now := dict_get validated_data "push_now" in
  let validated_data := delete "push_now" validated_data in
  let params := dict_get validated_data "params" in
  let validated_data := delete "params" validated_data in
  let validated_data := <["source_id" := VNone]> validated_data in
  let* instance := ModelSerializer_update instance validated_data in
  let* _ := push_account_if_need instance push_now params "updated" in
  ret instance.

(** [UniqueTogetherValidator.missing_message] of [rest_framework] *)
Definition missing_message : string := "This field is required.".

(** The loop of [set_initial_value] over the entries of the request data;
    [self_template] is [self._template]. The data are mutated in place:
    the list returned holds the entries as the loop leaves them. *)
Fixpoint set_initial_value_loop (instance : option dict)
    (self_template : option AccountTemplate) (initial_data : list payload)
  : M (list payload * option AccountTemplate) :=
  match initial_data with
  | [] => ret ([], self_template)
  | data :: rest =>
      match data with
      | PStr _ => raise (AttributeError "'str' object has no attribute 'get'")
      | PDict d =>
          let asset := dict_get (fields d) "asset" in
          if negb (truthy asset) && negb (bool_decide (is_Some instance)) then
            raise (ValidationErrorDict "asset" missing_message)
          else
            let asset :=
              if truthy asset then asset
              else match instance with
                   | Some inst => dict_get inst "asset"
                   | None => asset
                   end in
            let* (data, self_template) :=
              (λ w, (from_template_if_need w self_template data, w)) in
            match data with
            | PStr _ =>
                raise (AttributeError "'str' object has no attribute 'get'")
            | PDict d =>
                let* d := set_uniq_name_if_need instance d asset in
                let* (rest, self_template) :=
                  set_initial_value_loop instance self_template rest in
                ret (PDict d :: rest, self_template)
            end
      end
  end.

(** [set_initial_value]; [initial_data] is [getattr(self, 'initial_data',
    None)], a dictionary being taken as the list of that one entry. *)
Definition set_initial_value (instance : option dict)
    (self_template : option AccountTemplate)
    (initial_data : option (list payload))
  : M (list payload * option AccountTemplate) :=
  match initial_data with
  | None | Some [] => ret ([], self_template)
  | Some initial_data =>
      set_initial_value_loop instance self_template initial_data
  end.

(** The validators of a serializer: [rest_framework]'s
    [UniqueTogetherValidator] over some fields, or any other one. *)
Inductive validator :=
| UniqueTogetherValidator (unique_fields : list string)
| OtherValidator (name : string).

Definition is_unique_together (v : validator) : bool :=
  match v with
  | UniqueTogetherValidator _ => true
  | OtherValidator _ => false
  end.

(** [get_validators]; [_validators] is what [super().get_validators()]
    returns, [initial_data] is [getattr(self, 'initial_data', None)] and
    [parent] tells whether [self.parent] is set. *)
Definition get_validators (_validators : list validator)
    (initial_data : option dict) (parent : bool) : list validator :=
  match initial_data with
  | None => _validators
  | Some initial_data =>
      let on_invalid := dict_get initial_data "on_invalid" in
      if bool_decide (on_invalid = AccountInvalidPolicy.ERROR) && negb parent
      then _validators
      else filter (λ v, is_unique_together v = false) _validators
  end.

End AccountCreateUpdateSerializerMixin.

(** ** [AssetAccountBulkSerializer] *)

Module AssetAccountBulkSerializer.

(** Modelled from the spec: [Asset.get_secret_type_assets] (the [Asset]
    model is not part of the sources): of the given assets, those whose
    declared capability set includes the secret type. *)
Definition supports_secret_type
    (w : world) (secret_type : pyval) (pk : string) : bool :=
  match assets w !! pk with
  | Some row => bool_decide (secret_type ∈ asset_secret_types row)
  | None => false
  end.

Definition get_secret_type_assets
    (w : world) (asset_ids : list string) (secret_type : pyval) : list string :=
  filter (λ pk, supports_secret_type w secret_type pk = true) asset_ids.

(** [str(asset)] for a value that holds an asset. *)
Definition str_of (w : world) (v : pyval) : string :=
  match v with
  | VAsset pk =>
      match assets w !! pk with
      | Some row => asset_str row
      | None => pk
      end
  | _ => py_str v
  end.

(** [get_filter_lookup] *)
Definition get_filter_lookup (vd : dict) : result dict :=
  username ← dict_getitem vd "username";
  secret_type ← dict_getitem vd "secret_type";
  asset ← dict_getitem vd "asset";
  Ok ({[ "username" := username; "secret_type" := secret_type;
         "asset" := asset ]} : dict).

(** [get_uniq_name] *)
Definition get_uniq_name (vd : dict) : M pyval :=
  let* name := lift (dict_getitem vd "name") in
  let* prefix := lift (py_add_str name "-") in
  let* hex := uuid4_hex in
  ret (VStr (prefix +:+ first4 hex)).

(** What a create handler returns: [(instance, changed, state)]. *)
Abbreviation handled := (dict * bool * string)%type.
Abbreviation handler := (dict → dict → M handled).

(** [_handle_update_create] *)
Definition _handle_update_create (vd lookup : dict) : M handled :=
  let* rows := Account.objects_filter lookup in
  let ori := head rows in
  let unchanged :=
    match ori with
    | Some ori =>
        if bool_decide (dict_get ori "secret" = dict_get vd "secret")
        then Some ori else None
    | None => None
    end in
  match unchanged with
  | Some ori => ret (ori, false, "skipped")
  | None =>
      let* (instance, value) := Account.update_or_create vd lookup in
      let state := if value : bool then "created" else "updated" in
      ret (instance, true, state)
  end.

(** [_handle_skip_create] *)
Definition _handle_skip_create (vd lookup : dict) : M handled :=
  let* (instance, value) := Account.get_or_create vd lookup in
  let state := if value : bool then "created" else "skipped" in
  ret (instance, value, state).

(** [_handle_err_create] *)
Definition _handle_err_create (vd lookup : dict) : M handled :=
  let* (instance, value) := Account.get_or_create vd lookup in
  if negb value then raise (ValidationError ["Account already exists"])
  else ret (instance, true, "created").

(** [perform_create]: besides the outcome, the dictionary [vd] as the call
    leaves it (the retry assigns [vd['name']] in place). *)
Definition perform_create (vd : dict) (handle : handler)
  : world → (result handled * dict) * world := λ w,
  match get_filter_lookup vd with
  | Raise e => ((Raise e, vd), w)
  | Ok lookup =>
      match handle vd lookup w with
      | (Raise (IntegrityError _), w1) =>
          match get_uniq_name vd w1 with
          | (Raise e, w2) => ((Raise e, vd), w2)
          | (Ok name, w2) =>
              let vd := <["name" := name]> vd in
              let '(r, w3) := handle vd lookup w2 in
              ((r, vd), w3)
          end
      | (r, w1) => ((r, vd), w1)
      end
  end.

(** [get_create_handler] *)
Definition get_create_handler (on_invalid : pyval) : handler :=
  if bool_decide (on_invalid = VStr "update") then _handle_update_create
  else if bool_decide (on_invalid = VStr "skip") then _handle_skip_create
  else _handle_err_create.

Definition unsupported_secret_type (secret_type : pyval) : string :=
  "Asset does not support this secret type: " +:+ py_str secret_type.

(** The entry that the [try] statement of the loop stores for an asset,
    given the outcome of [perform_create]; taking [e.detail[0]] in the
    first [except] clause can raise in turn. *)
Definition result_entry (outcome : result handled) : result dict :=
  match outcome with
  | Ok (instance, changed, state) =>
      Ok ({[ "changed" := VBool changed;
             "instance" := dict_get instance "id";
             "state" := VStr state ]} : dict)
  | Raise (ValidationError (msg :: _)) =>
      Ok ({[ "error" := VStr msg; "state" := VStr "error" ]} : dict)
  | Raise (ValidationError []) => Raise (IndexError "list index out of range")
  | Raise (ValidationErrorDict _ _) => Raise (KeyError "0")
  | Raise e =>
      Ok ({[ "error" := VStr (exn_str e); "state" := VStr "error" ]} : dict)
  end.

(** The loop of [perform_bulk_create] over the assets, from the dictionary
    [_results] and the current [vd] on. An exception raised while an
    [except] clause runs leaves the loop. *)
Fixpoint bulk_loop (handle : handler) (secret_type : pyval)
    (secret_type_supports : list string) (assets : list string) (vd : dict)
    (_results : odict dict) : M (odict dict) :=
  match assets with
  | [] => ret _results
  | asset :: rest =>
      if bool_decide (asset ∉ secret_type_supports) then
        bulk_loop handle secret_type secret_type_supports rest vd
          (od_set (VAsset asset)
             ({[ "error" := VStr (unsupported_secret_type secret_type);
                 "state" := VStr "error" ]} : dict) _results)
      else
        let vd := <["asset" := VAsset asset]> vd in
        λ w,
          let '((outcome, vd), w') := perform_create vd handle w in
          match result_entry outcome with
          | Ok entry =>
              bulk_loop handle secret_type secret_type_supports rest vd
                (od_set (VAsset asset) entry _results) w'
          | Raise e => (Raise e, w')
          end
  end.

Definition state_score : gmap string Z :=
  {[ "created" := 3; "updated" := 2; "skipped" := 1; "error" := 0 ]}.

(** The sort key [state_score.get(x['state'], 4)]. *)
Definition score (x : dict) : Z :=
  match dict_get x "state" with
  | VStr s => default 4 (state_score !! s)
  | _ => 4
  end.

(** [sorted(l, key=key)]: Python's sort is stable, so its result is the one
    of any stable sort; here insertion from the right end. *)
Fixpoint insert_sorted {A} (key : A → Z) (x : A) (l : list A) : list A :=
  match l with
  | [] => [x]
  | y :: l' =>
      if key x <=? key y then x :: y :: l' else y :: insert_sorted key x l'
  end.

Fixpoint sorted {A} (key : A → Z) (l : list A) : list A :=
  match l with
  | [] => []
  | x :: l' => insert_sorted key x (sorted key l')
  end.

(** The list [errors] that the strict policy raises. *)
Definition strict_errors (w : world) (results : list dict) : list dict :=
  let errors := filter (λ result, dict_get result "state" = VStr "error") results in
  foldl (λ errors result,
           if bool_decide (dict_get result "state" ≠ VStr "skipped") then errors
           else errors ++
                  [ ({[ "error" := VStr "Account has exist";
                        "state" := VStr "error";
                        "asset" := VStr (str_of w (dict_get result "asset")) ]} : dict) ])
        errors results.

(** How [perform_bulk_create] ends: the result list, the
    [ValidationError(errors)] of the strict policy, or an exception that
    left the loop. *)
Inductive bulk_outcome :=
| BulkResults (results : list dict)
| BulkValidationError (errors : list dict)
| BulkRaise (e : exn).

(** The list [results] before it is sorted:
    [[{'asset': asset, **result} for asset, result in _results.items()]]. *)
Definition results_of (_results : odict dict) : list dict :=
  (λ '(asset, result), result ∪ {[ "asset" := asset ]}) <$> _results.

(** [perform_bulk_create]; [assets] is [vd.pop('assets')]. *)
Definition perform_bulk_create (assets : list string) (vd : dict)
  : world → bulk_outcome * world := λ w,
  let on_invalid := dict_get_default vd "on_invalid" (VStr "skip") in
  let vd := delete "on_invalid" vd in
  let secret_type := dict_get_default vd "secret_type" (VStr "password") in
  let vd := if negb (truthy (dict_get vd "name"))
            then <["name" := dict_get vd "username"]> vd else vd in
  let create_handler := get_create_handler on_invalid in
  let asset_ids := assets in
  let secret_type_supports := get_secret_type_assets w asset_ids secret_type in
  match bulk_loop create_handler secret_type secret_type_supports assets vd [] w with
  | (Raise e, w') => (BulkRaise e, w')
  | (Ok _results, w') =>
      let results := results_of _results in
      let results := sorted score results in
      if bool_decide (on_invalid ≠ VStr "error") then (BulkResults results, w')
      else
        match strict_errors w' results with
        | [] => (BulkResults results, w')
        | errors => (BulkValidationError errors, w')
        end
  end.

(** [push_accounts_if_need]: the task is queued with the account ids
    alone. *)
Definition push_accounts_if_need (results : list dict) (push_now : pyval)
  : M unit :=
  if negb (truthy push_now) then ret ()
  else
    let accounts :=
      (λ v, VStr (py_str (dict_get v "instance")))
        <$> filter (λ v, truthy (dict_get v "instance") = true) results in
    push_accounts_to_assets_task_delay accounts VNone.

(** The loop at the end of [create]: [res['asset'] = str(res['asset'])]. *)
Fixpoint assets_to_str (w : world) (results : list dict) : result (list dict) :=
  match results with
  | [] => Ok []
  | res :: rest =>
      asset ← dict_getitem res "asset";
      rest ← assets_to_str w rest;
      Ok (<["asset" := VStr (str_of w asset)]> res :: rest)
  end.

(** [create]; [self_template] is [self._template] and [assets] the list
    under [validated_data['assets']]. *)
Definition create (self_template : option AccountTemplate)
    (assets : list string) (validated_data : dict)
  : world → bulk_outcome * world := λ w,
  let push_now := dict_get_default validated_data "push_now" (VBool false) in
  let validated_data := delete "push_now" validated_data in
  let validated_data :=
    AccountCreateUpdateSerializerMixin.generate_source_data
      self_template validated_data in
  match perform_bulk_create assets validated_data w with
  | (BulkResults results, w') =>
      match push_accounts_if_need results push_now w' with
      | (Raise e, w'') => (BulkRaise e, w'')
      | (Ok _, w'') =>
          match assets_to_str w'' results with
          | Ok results => (BulkResults results, w'')
          | Raise e => (BulkRaise e, w'')
          end
      end
  | outcome => outcome
  end.

End AssetAccountBulkSerializer.

(** ** [AssetProtocolsSerializer] *)

Module AssetProtocolsSerializer.

(** The [ValueError] of an unpacking into two names. *)
Inductive ValueError :=
| not_enough_values
| too_many_values.

(** [to_file_representation]: [format] renders the two values as [str]
    does. *)
Definition to_file_representation (data : dict) : result string :=
  name ← dict_getitem data "name";
  port ← dict_getitem data "port";
  Ok (py_str name +:+ "/" +:+ py_str port).

(** [to_file_internal_value] *)
Definition to_file_internal_value (data : string) : dict + ValueError :=
  match split "/"%char data with
  | [name; port] => inl ({[ "name" := VStr name; "port" := VStr port ]} : dict)
  | [] | [_] => inr not_enough_values
  | _ :: _ :: _ :: _ => inr too_many_values
  end.

End AssetProtocolsSerializer.

(** ** [AccountTemplateFilterSet] *)

Module AccountTemplateFilterSet.

(** [filter_protocols]; [protocol_secret_type_map] gives for every protocol
    of [Protocol.settings()] its [secret_types] (the empty list when the
    setting has none), [queryset] are the templates in query order. The
    set [secret_types] is used for the membership test and for its
    emptiness only, so it is kept as the list of the values added. *)
Definition filter_protocols
    (protocol_secret_type_map : gmap string (list pyval))
    (queryset : list AccountTemplate) (value : string)
  : list AccountTemplate :=
  let protocols := split ","%char value in
  let secret_types :=
    foldl (λ secret_types p,
             match protocol_secret_type_map !! p with
             | None => secret_types
             | Some _st => secret_types ++ _st
             end) [] protocols in
  let secret_types :=
    match secret_types with
    | [] => [VStr "password"]
    | _ :: _ => secret_types
    end in
  filter (λ t, dict_get (tpl_attrs t) "secret_type" ∈ secret_types) queryset.

End AccountTemplateFilterSet.

(** ** Reference notions used in the statements *)

(** *** Protocol entries *)

(** The keys of a list in the order of their first occurrence. *)
Fixpoint first_seen (ks : list pyval) : list pyval :=
  match ks with
  | [] => []
  | k :: rest => k :: filter (λ k', k' ≠ k) (first_seen rest)
  end.

(** [p['name']] of every entry, [None] standing for a missing key. *)
Definition entry_names (ps : list dict) : list pyval :=
  (λ p, dict_get p "name") <$> ps.

(** Every value of the dictionary is filed under its own name. *)
Definition names_tagged (m : odict dict) : Prop :=
  ∀ k p, od_get k m = Some p → p !! "name" = Some k.

(** An entry whose [primary] flag is set. *)
Definition marked_primary (p : dict) : Prop :=
  truthy (dict_get p "primary") = true.

#[global] Instance marked_primary_dec p : Decision (marked_primary p).
Proof. unfold marked_primary. apply _. Defined.

(** *** Result entries of the bulk creation *)

(** The order of the sort keys. *)
Definition key_le {A} (key : A → Z) (x y : A) : Prop := key x ≤ key y.

(** [x['state']] *)
Definition state_of (r : dict) : pyval := dict_get r "state".

(** The four outcomes of a target. *)
Definition known_state (entry : dict) : Prop :=
  dict_get entry "state" ∈
    [VStr "error"; VStr "skipped"; VStr "updated"; VStr "created"].

(** The ranks of the four outcomes. *)
Definition ranked (r : dict) : Prop :=
  (state_of r, AssetAccountBulkSerializer.score r) ∈
    [(VStr "error", 0); (VStr "skipped", 1); (VStr "updated", 2);
     (VStr "created", 3)].

(** The result list a finished call returned. *)
Definition returned_results
    (outcome : AssetAccountBulkSerializer.bulk_outcome) : list dict :=
  match outcome with
  | AssetAccountBulkSerializer.BulkResults results => results
  | _ => []
  end.

(** The message the loop records for an exception: [e.detail[0]] for a
    [ValidationError], [str(e)] otherwise. *)
Definition error_message (e : exn) : string :=
  match e with
  | ValidationError (msg :: _) => msg
  | _ => exn_str e
  end.

(** The error entry [{'error': msg, 'state': 'error'}]. *)
Definition error_entry (msg : string) : dict :=
  {[ "error" := VStr msg; "state" := VStr "error" ]}.

(** An exception that the [except] clauses of the loop turn into an error
    entry. *)
Definition recordable (e : exn) : Prop :=
  ∃ msg, AssetAccountBulkSerializer.result_entry (Raise e)
         = Ok (error_entry msg).

(** A handler returns one of the three states and raises recordable
    exceptions only. *)
Definition handler_sound (handle : AssetAccountBulkSerializer.handler) : Prop :=
  ∀ vd lookup w,
    match handle vd lookup w with
    | (Ok (_, _, state), _) => state ∈ ["created"; "updated"; "skipped"]
    | (Raise e, _) => recordable e
    end.

(** The error entry that replaces a skipped entry under the strict
    policy. *)
Definition relabel (w : world) (result : dict) : dict :=
  {[ "error" := VStr "Account has exist"; "state" := VStr "error";
     "asset" := VStr (AssetAccountBulkSerializer.str_of w (dict_get result "asset")) ]}.

(** *** Stored accounts *)

(** An account of that primary key is stored. *)
Definition stored (w : world) (pk : pyval) : Prop :=
  pk ∈ (λ row, dict_get row "id") <$> accounts w.




(** The rows [do_create] looks its instance up in: the filter by asset,
    then the filter by the [Q] object. *)
Definition do_create_matches (candidate : dict) (w : world) : list dict :=
  filter (λ row, Account.q_matches
                   (AccountCreateUpdateSerializerMixin.do_create_q candidate) row = true)
    (filter (λ row, Account.row_matches
                      ({[ "asset" := dict_get candidate "asset" ]} : dict) row = true)
       (accounts w)).

(** The accounts of the asset that bear the name. *)
Definition accounts_named (w : world) (name asset : pyval) : list dict :=
  filter (λ row, Account.row_matches
                   ({[ "name" := name; "asset" := Account.fk asset ]} : dict)
                   row = true)
    (accounts w).

(** [initial_data['name'] = name] *)
Definition with_name (name : pyval)
    (d : AccountCreateUpdateSerializerMixin.InitialData)
  : AccountCreateUpdateSerializerMixin.InitialData :=
  {| AccountCreateUpdateSerializerMixin.template :=
       AccountCreateUpdateSerializerMixin.template d;
     AccountCreateUpdateSerializerMixin.fields :=
       <["name" := name]> (AccountCreateUpdateSerializerMixin.fields d) |}.

(** ** Sample data *)

(** *** Protocols *)

Definition rdp_3389 : dict := {[ "name" := VStr "rdp"; "port" := VInt 3389 ]}.
Definition rdp_3390 : dict := {[ "name" := VStr "rdp"; "port" := VInt 3390 ]}.
Definition ssh_22 : dict := {[ "name" := VStr "ssh"; "port" := VInt 22 ]}.
Definition ssh_required : PlatformProtocol :=
  {| pp_name := "ssh"; pp_port := 22; pp_primary := true;
     pp_required := true; pp_default := true |}.
Definition rdp_3389_primary : dict := <["primary" := VBool true]> rdp_3389.

(** *** Assets and accounts *)

(** The values of the successive uuids. *)
Definition uuid_pool : list string :=
  ["c0ffee0a1b2c4d5e8f90a1b2c3d4e5f6"; "decade1f2a3b4c5d9e8f7a6b5c4d3e2f";
   "0ddba11a9b8c4d7e6f5a4b3c2d1e0f9a"; "ba5eba11c3d24e5f8a7b6c5d4e3f2a1b"].

Definition sample_entropy (n : nat) : string :=
  nth n uuid_pool "00000000000000000000000000000000".

Definition linux (name : string) : AssetRow :=
  {| asset_str := name;
     asset_secret_types := [VStr "password"; VStr "ssh_key"] |}.

(** An account with a password on the asset. *)
Definition account_on (asset name username secret : string) : dict :=
  {[ "id" := VStr ("acc-" +:+ asset +:+ "-" +:+ name);
     "name" := VStr name; "username" := VStr username;
     "secret" := VStr secret; "secret_type" := VStr "password";
     "asset" := VAsset asset ]}.

(** Three assets A, B and C and the given accounts. *)
Definition sample_world (rows : list dict) : world :=
  {| accounts := rows;
     assets := {[ "A" := linux "web-1"; "B" := linux "web-2";
                  "C" := linux "db-1" ]};
     account_templates := [];
     entropy := sample_entropy;
     drawn := 0;
     push_queue := [] |}.

Definition w_root_on_A : world :=
  sample_world [account_on "A" "root" "root" "old"].


(** The bulk candidate [root] with a new secret, under the given policy. *)
Definition candidate (policy : string) : dict :=
  {[ "username" := VStr "root"; "secret" := VStr "new";
     "secret_type" := VStr "password"; "on_invalid" := VStr policy ]}.

(** A single-account payload for asset A. *)
Definition payload_on_A (name username : option string) (policy : string) : dict :=
  let add k (v : option string) (d : dict) : dict :=
    match v with Some s => <[k := VStr s]> d | None => d end in
  add "name" name (add "username" username
    ({[ "asset" := VAsset "A"; "secret" := VStr "new";
        "secret_type" := VStr "password"; "on_invalid" := VStr policy ]})).

(** The account [root] of asset A, created from a template. *)
Definition root_from_template : dict :=
  <["source_id" := VStr "tpl-1"]> (<["source" := VStr "template"]>
    (account_on "A" "root" "root" "old")).

(** *** Templates and requests *)

(** A template that names the user [root], and the request of a caller who
    asks for the user [alice] from that template. *)
Definition root_template : AccountTemplate :=
  {| tpl_meta_fields :=
       ["id"; "org_id"; "name"; "username"; "secret_type"; "privileged";
        "comment"; "date_created"; "date_updated"];
     tpl_attrs :=
       {[ "id" := VStr "tpl-1"; "org_id" := VStr "org-1";
          "name" := VStr "ops"; "username" := VStr "root";
          "secret_type" := VStr "password"; "privileged" := VBool true;
          "date_created" := VStr "2023-04-01" ]} |}.

Definition w_with_template : world :=
  {| accounts := []; assets := {[ "A" := linux "web-1" ]};
     account_templates := [root_template];
     entropy := sample_entropy; drawn := 0; push_queue := [] |}.

Definition alice_request : AccountCreateUpdateSerializerMixin.InitialData :=
  {| AccountCreateUpdateSerializerMixin.template :=
       Some (AccountCreateUpdateSerializerMixin.TplValue (VStr "tpl-1"));
     AccountCreateUpdateSerializerMixin.fields :=
       {[ "username" := VStr "alice"; "asset" := VStr "A";
          "id" := VStr "acc-9" ]} |}.

Definition alice_merged : AccountCreateUpdateSerializerMixin.InitialData :=
  {| AccountCreateUpdateSerializerMixin.template := None;
     AccountCreateUpdateSerializerMixin.fields :=
       {[ "username" := VStr "root"; "asset" := VStr "A";
          "id" := VStr "acc-9"; "name" := VStr "ops";
          "secret_type" := VStr "password"; "privileged" := VBool true ]} |}.

(** A request for the user [root] without a name. *)
Definition root_request : AccountCreateUpdateSerializerMixin.InitialData :=
  {| AccountCreateUpdateSerializerMixin.template := None;
     AccountCreateUpdateSerializerMixin.fields :=
       {[ "username" := VStr "root"; "asset" := VStr "A" ]} |}.

(** *** Ports of protocol entries *)

(** The integer that the comparisons of the port check read from an entry:
    the value under [port] when it is an integer or a boolean, 0 when the
    key is missing. *)
Definition port_value (p : dict) : option Z :=
  match p !! "port" with
  | None => Some 0
  | Some (VInt z) => Some z
  | Some (VBool b) => Some (Z.b2z b)
  | Some _ => None
  end.

(** The port of the entry lies between 1 and 65535. *)
Definition port_in_range (p : dict) : Prop :=
  ∃ z, port_value p = Some z ∧ 1 ≤ z ≤ 65535.

(** The names of the platform protocols that an asset must carry: those
    marked required or primary, in the order of the platform. *)
Definition required_names (platform_protocols : list PlatformProtocol)
  : list string :=
  pp_name <$> filter (λ p, pp_required p = true ∨ pp_primary p = true)
                platform_protocols.

(** The entry [{'name': p.name, 'port': p.port}] of a platform protocol. *)
Definition default_entry (p : PlatformProtocol) : dict :=
  {[ "name" := VStr (pp_name p); "port" := VInt (pp_port p) ]}.

(** *** Platform flags *)

(** The flag is set in the dictionary. *)
Definition flag_on (d : dict) (flag : string) : Prop :=
  truthy (dict_get d flag) = true.

(** The dictionary under [automation], empty when there is none. *)
Definition automation_of (a : PlatformSerializer.Attrs) : dict :=
  default ∅ (PlatformSerializer.automation a).

(** A platform type that allows the domain and the switch of user, and
    whose automation does not allow Ansible. *)
Definition sample_constraints : PlatformSerializer.Attrs :=
  {| PlatformSerializer.fields :=
       {[ "domain_enabled" := VBool true; "su_enabled" := VBool true ]};
     PlatformSerializer.automation :=
       Some {[ "ansible_enabled" := VBool false ]} |}.

(** A request that asks for the domain and for Ansible. *)
Definition sample_attrs : PlatformSerializer.Attrs :=
  {| PlatformSerializer.fields :=
       {[ "name" := VStr "Linux"; "domain_enabled" := VBool true ]};
     PlatformSerializer.automation :=
       Some {[ "ansible_enabled" := VBool true;
               "ping_enabled" := VBool true ]} |}.

(** A request that asks for no flag. *)
Definition plain_attrs : PlatformSerializer.Attrs :=
  {| PlatformSerializer.fields :=
       {[ "name" := VStr "Linux"; "su_enabled" := VBool false ]};
     PlatformSerializer.automation := None |}.

(** *** Strings *)

(** [c in s] for a character [c] *)
Fixpoint str_contains (c : Ascii.ascii) (s : string) : bool :=
  match s with
  | EmptyString => false
  | String c' s' => bool_decide (c' = c) || str_contains c s'
  end.

(** [t.secret_type] of a template *)
Definition secret_type_of (t : AccountTemplate) : pyval :=
  dict_get (tpl_attrs t) "secret_type".

(** The secret types of the protocols, as [Protocol.settings()] has them
    in the examples. *)
Definition sample_settings : gmap string (list pyval) :=
  {[ "ssh" := [VStr "password"; VStr "ssh_key"];
     "rdp" := [VStr "password"];
     "http" := [] ]}.

(** *** What a call leaves of the world *)

(** Between the two worlds nothing happened but the drawing of uuids. *)
Definition only_uuids_drawn (w w' : world) : Prop :=
  accounts w' = accounts w ∧ assets w' = assets w
  ∧ account_templates w' = account_templates w
  ∧ entropy w' = entropy w ∧ push_queue w' = push_queue w
  ∧ (drawn w ≤ drawn w')%nat.

(** The request data of an entry that is a dictionary. *)
Definition payload_fields (p : AccountCreateUpdateSerializerMixin.payload)
  : option dict :=
  match p with
  | AccountCreateUpdateSerializerMixin.PDict d =>
      Some (AccountCreateUpdateSerializerMixin.fields d)
  | AccountCreateUpdateSerializerMixin.PStr _ => None
  end.

(** Between the two worlds nothing changed but the accounts and the count
    of the uuids drawn: the assets, the templates and the queue of the push
    task are the same. *)
Definition only_accounts_changed (w w' : world) : Prop :=
  assets w' = assets w ∧ account_templates w' = account_templates w
  ∧ entropy w' = entropy w ∧ push_queue w' = push_queue w.

(** The task that pushes the account. *)
Definition push_of (instance : dict) (params : pyval) : list pyval * pyval :=
  ([VStr (py_str (dict_get instance "id"))], params).

(** The entries that a bulk creation ends with: the results it returns or
    the errors it raises. *)
Definition outcome_entries
    (outcome : AssetAccountBulkSerializer.bulk_outcome) : list dict :=
  match outcome with
  | AssetAccountBulkSerializer.BulkResults results => results
  | AssetAccountBulkSerializer.BulkValidationError errors => errors
  | AssetAccountBulkSerializer.BulkRaise _ => []
  end.

(** The secret type that the capability check of the bulk creation reads. *)
Definition bulk_secret_type (vd : dict) : pyval :=
  dict_get_default vd "secret_type" (VStr "password").

(** The entry of a target whose asset does not support the secret type. *)
Definition unsupported_entry (secret_type : pyval) (asset : string) : dict :=
  error_entry (AssetAccountBulkSerializer.unsupported_secret_type secret_type)
  ∪ {[ "asset" := VAsset asset ]}.

(** A bulk candidate without secret type. *)
Definition candidate_without_secret_type : dict :=
  {[ "username" := VStr "root"; "secret" := VStr "new" ]}.

(** A handler only appends accounts to the store, each of them made of the
    data and the lookup it was called with. *)
Definition handler_appends (handle : AssetAccountBulkSerializer.handler) : Prop :=
  ∀ vd lookup w r w',
    handle vd lookup w = (r, w') →
    ∃ new, accounts w' = accounts w ++ new
           ∧ Forall (λ row, ∀ k, k ≠ "id" → row !! k = (vd ∪ lookup) !! k) new.

(** A handler leaves the assets, the templates and the push queue alone. *)
Definition handler_frame (handle : AssetAccountBulkSerializer.handler) : Prop :=
  ∀ vd lookup w r w', handle vd lookup w = (r, w') → only_accounts_changed w w'.

(** The account ids that a bulk creation pushes for its results. *)
Definition pushed_ids (results : list dict) : list pyval :=
  (λ r, VStr (py_str (dict_get r "instance")))
    <$> filter (λ r, truthy (dict_get r "instance") = true) results.

(** * Properties *)

(** ** Insertion-ordered dictionaries *)

Section odict_facts.
Context {V : Type}.
Implicit Types (d : odict V) (k : pyval) (v : V).

Lemma od_get_set k k' v d :
  od_get k' (od_set k v d) = if decide (k = k') then Some v else od_get k' d.
Proof.
  induction d as [|[k0 v0] d IH]; simpl.
  - repeat case_decide; congruence.
  - repeat (case_decide; simpl); try congruence.
Qed.

Lemma od_get_None k d : od_get k d = None ↔ k ∉ od_keys d.
Proof.
  unfold od_keys. induction d as [|[k0 v0] d IH]; cbn [od_get].
  - split; [intros _; apply not_elem_of_nil | done].
  - rewrite fmap_cons, not_elem_of_cons. cbn [fst]. case_decide; subst.
    + split; [done | intros [? _]; done].
    + rewrite IH. split; [intros ?; split; congruence | intros [_ ?]; done].
Qed.

Lemma od_mem_true k d : od_mem k d = true ↔ k ∈ od_keys d.
Proof.
  unfold od_mem. rewrite bool_decide_eq_true.
  destruct (od_get k d) eqn:E.
  - split; [intros _ | eauto].
    destruct (decide (k ∈ od_keys d)) as [|Hn]; [done|].
    apply od_get_None in Hn. congruence.
  - split; [intros [? ?]; done|].
    intros Hin. apply od_get_None in E. done.
Qed.

Lemma od_mem_false k d : od_mem k d = false ↔ k ∉ od_keys d.
Proof. rewrite <- od_mem_true. destruct (od_mem k d); naive_solver. Qed.

Lemma od_set_fresh k v d : k ∉ od_keys d → od_set k v d = d ++ [(k, v)].
Proof.
  unfold od_keys. induction d as [|[k0 v0] d IH]; cbn [od_set]; [done|].
  rewrite fmap_cons, not_elem_of_cons. cbn [fst]. intros [Hne Hni].
  case_decide; [congruence|]. by rewrite IH.
Qed.

Lemma od_keys_set_mem k v d : k ∈ od_keys d → od_keys (od_set k v d) = od_keys d.
Proof.
  unfold od_keys. induction d as [|[k0 v0] d IH]; cbn [od_set].
  - intros H. by apply elem_of_nil in H.
  - rewrite fmap_cons. cbn [fst]. intros H. case_decide; subst; [done|].
    apply elem_of_cons in H as [->|H]; [done|].
    rewrite !fmap_cons. f_equal. by apply IH.
Qed.

Lemma od_keys_set k v d :
  od_keys (od_set k v d) =
  if decide (k ∈ od_keys d) then od_keys d else od_keys d ++ [k].
Proof.
  case_decide.
  - by apply od_keys_set_mem.
  - rewrite od_set_fresh by done. unfold od_keys. by rewrite fmap_app.
Qed.

Lemma od_set_NoDup k v d : NoDup (od_keys d) → NoDup (od_keys (od_set k v d)).
Proof.
  intros Hd. rewrite od_keys_set. case_decide; [done|].
  apply NoDup_app. split_and!; [done| |apply NoDup_singleton].
  intros x Hx Hx'. apply list_elem_of_singleton in Hx'. by subst.
Qed.

Lemma od_get_elem_of k v d : od_get k d = Some v → (k, v) ∈ d.
Proof.
  induction d as [|[k0 v0] d IH]; cbn [od_get]; [done|].
  case_decide; subst.
  - intros [= ->]. apply elem_of_cons; by left.
  - intros Hg. apply elem_of_cons; right; auto.
Qed.

Lemma od_elem_of_get k v d : NoDup (od_keys d) → (k, v) ∈ d → od_get k d = Some v.
Proof.
  unfold od_keys. induction d as [|[k0 v0] d IH]; cbn [od_get].
  - intros _ H. by apply elem_of_nil in H.
  - rewrite fmap_cons, NoDup_cons. cbn [fst]. intros [Hni Hnd] Hin.
    apply elem_of_cons in Hin as [[= -> ->]|Hin].
    + by rewrite decide_True.
    + case_decide; subst; [|by apply IH].
      exfalso. apply Hni. apply list_elem_of_fmap. by exists (k, v).
Qed.
End odict_facts.

(** ** Deduplication of protocol entries *)

Lemma first_seen_elem_of k ks : k ∈ first_seen ks ↔ k ∈ ks.
Proof.
  induction ks as [|k0 ks IH]; cbn [first_seen]; [done|].
  rewrite !elem_of_cons, list_elem_of_filter, IH.
  destruct (decide (k = k0)); naive_solver.
Qed.

Lemma first_seen_NoDup ks : NoDup (first_seen ks).
Proof.
  induction ks as [|k0 ks IH]; cbn [first_seen]; [apply NoDup_nil_2|].
  apply NoDup_cons. split; [|by apply NoDup_filter].
  rewrite list_elem_of_filter. naive_solver.
Qed.

Lemma filter_id {A} (P : A → Prop) `{!∀ x, Decision (P x)} (l : list A) :
  (∀ x, x ∈ l → P x) → filter P l = l.
Proof.
  induction l as [|x l IH]; intros HP; [done|].
  rewrite filter_cons_True by (apply HP, elem_of_cons; by left).
  f_equal. apply IH. intros y Hy. apply HP, elem_of_cons. by right.
Qed.

Lemma last_cons_match {A} (x : A) l :
  last (x :: l) = match last l with Some y => Some y | None => Some x end.
Proof. rewrite last_cons. by destruct (last l). Qed.

Section asset_protocols.
Import AssetSerializer.

Lemma protocols_data_map_spec X : ∀ m m',
  NoDup (od_keys m) → names_tagged m →
  protocols_data_map X m = Ok m' →
  NoDup (od_keys m') ∧ names_tagged m'
  ∧ Forall (λ p, is_Some (p !! "name")) X
  ∧ od_keys m' =
      od_keys m ++ filter (λ k, k ∉ od_keys m) (first_seen (entry_names X))
  ∧ ∀ k, od_get k m' =
      match last (filter (λ p, dict_get p "name" = k) X) with
      | Some p => Some p
      | None => od_get k m
      end.
Proof.
  induction X as [|p X IH]; intros m m' Hnd Htag; cbn [protocols_data_map].
  - intros [= <-]. split_and!; try done.
    cbn. by rewrite app_nil_r.
  - unfold dict_getitem. destruct (p !! "name") as [n|] eqn:Hn; [|done].
    cbn [mbind result_bind]. intros Hm'.
    apply IH in Hm' as (Hnd' & Htag' & Hall & Hkeys & Hget).
    2: by apply od_set_NoDup.
    2: { intros k q. rewrite od_get_set. case_decide; subst.
         - by intros [= <-].
         - apply Htag. }
    assert (Hpn : dict_get p "name" = n) by (unfold dict_get; by rewrite Hn).
    split_and!; [done|done| | |].
    + constructor; [by rewrite Hn|done].
    + rewrite Hkeys, od_keys_set. unfold entry_names. rewrite fmap_cons.
      cbn [first_seen]. rewrite Hpn. fold (entry_names X).
      set (L := first_seen (entry_names X)).
      case_decide as Hin.
      * rewrite filter_cons_False by (intros Hc; by apply Hc).
        f_equal. rewrite list_filter_filter. apply list_filter_iff.
        intros k. split; [|naive_solver].
        intros Hk. split; [done|]. intros ->. done.
      * rewrite filter_cons_True by done.
        rewrite <- app_assoc. f_equal. cbn [app]. f_equal.
        rewrite list_filter_filter. apply list_filter_iff.
        intros k. rewrite elem_of_app, list_elem_of_singleton. naive_solver.
    + intros k. rewrite Hget, od_get_set, filter_cons, Hpn.
      case_decide; subst; [|done].
      rewrite last_cons_match. by destruct (last _).
Qed.

Lemma protocols_data_map_values d2 : ∀ d1,
  NoDup (od_keys (d1 ++ d2)) →
  (∀ k p, (k, p) ∈ d2 → p !! "name" = Some k) →
  protocols_data_map (od_values d2) d1 = Ok (d1 ++ d2).
Proof.
  induction d2 as [|[k p] d2 IH]; intros d1 Hnd Htag.
  - cbn. by rewrite app_nil_r.
  - unfold od_values. rewrite fmap_cons. cbn [snd protocols_data_map].
    unfold dict_getitem. rewrite (Htag k p) by (apply elem_of_cons; by left).
    cbn [mbind result_bind].
    assert (Hk : k ∉ od_keys d1).
    { unfold od_keys in *. rewrite fmap_app, fmap_cons in Hnd.
      apply NoDup_app in Hnd as (_ & Hd & _). intros Hin.
      apply (Hd k Hin). apply elem_of_cons. by left. }
    rewrite od_set_fresh by done.
    rewrite (cons_middle (k, p) d1 d2), app_assoc.
    apply IH.
    + by rewrite <- app_assoc.
    + intros k' p' Hin. apply Htag. apply elem_of_cons. by right.
Qed.

Lemma check_ports_cons p rest :
  check_ports (p :: rest) = (check_ports [p] ≫= λ _, check_ports rest).
Proof.
  cbn [check_ports].
  destruct (py_lt _ 1) as [[]|]; cbn [mbind result_bind]; try done.
  - by destruct (py_add_str _ _).
  - destruct (py_gt _ 65535) as [[]|]; cbn [mbind result_bind]; try done.
    by destruct (py_add_str _ _).
Qed.

Lemma check_ports_Forall X :
  check_ports X = Ok () ↔ Forall (λ p, check_ports [p] = Ok ()) X.
Proof.
  induction X as [|p X IH]; [split; [constructor|done]|].
  rewrite check_ports_cons, Forall_cons, <- IH.
  destruct (check_ports [p]) as [[]|]; cbn [mbind result_bind]; naive_solver.
Qed.
End asset_protocols.

Lemma tagged_values_keys (f : dict → option pyval) (m : odict dict) :
  (∀ k p, (k, p) ∈ m → f p = Some k) → f <$> od_values m = Some <$> od_keys m.
Proof.
  unfold od_values, od_keys.
  induction m as [|[k p] m IH]; intros H; [done|].
  rewrite !fmap_cons. cbn [fst snd]. f_equal.
  - apply H. apply elem_of_cons. by left.
  - apply IH. intros k' p' Hin. apply H. apply elem_of_cons. by right.
Qed.

Lemma od_values_elem_of {V} (v : V) (m : odict V) :
  v ∈ od_values m → ∃ k, (k, v) ∈ m.
Proof.
  unfold od_values. intros ([k v'] & -> & Hin)%list_elem_of_fmap. by exists k.
Qed.

Lemma validate_protocols_Ok C X Y :
  AssetSerializer.validate_protocols C X = Ok Y →
  ∃ m, AssetSerializer.protocols_data_map X [] = Ok m
       ∧ AssetSerializer.check_ports X = Ok ()
       ∧ Y = od_values m
       ∧ ∀ X', AssetSerializer.protocols_data_map X' [] = Ok m →
               AssetSerializer.check_ports X' = Ok () →
               AssetSerializer.validate_protocols C X' = Ok (od_values m).
Proof.
  unfold AssetSerializer.validate_protocols.
  destruct (AssetSerializer.protocols_data_map X []) as [m|] eqn:Hm; [|done].
  cbn [mbind result_bind].
  destruct (AssetSerializer.check_ports X) as [[]|] eqn:Hports; [|done].
  cbn [mbind result_bind].
  destruct C as [ps|]; [|done]. cbn [mbind result_bind].
  destruct (AssetSerializer._get_protocols_required_default ps) as [req dflt].
  destruct (pp_name <$> _) as [|] eqn:Hreq; [|done].
  intros [= <-]. exists m. split_and!; try done.
  intros X' -> ->. cbn [mbind result_bind]. by rewrite Hreq.
Qed.

Lemma protocols_data_map_dedup X m :
  AssetSerializer.protocols_data_map X [] = Ok m →
  NoDup (od_keys m)
  ∧ (∀ k p, (k, p) ∈ m → p !! "name" = Some k)
  ∧ od_keys m = first_seen (entry_names X)
  ∧ ∀ y, y ∈ od_values m →
      last (filter (λ p, dict_get p "name" = dict_get y "name") X) = Some y.
Proof.
  intros Hm.
  apply protocols_data_map_spec in Hm as (Hnd & Htag & Hall & Hkeys & Hget);
    [|apply NoDup_nil_2|intros ? ?; done].
  cbn [od_keys fmap list_fmap app] in Hkeys.
  rewrite filter_id in Hkeys by (intros; apply not_elem_of_nil).
  assert (Htag' : ∀ k p, (k, p) ∈ m → p !! "name" = Some k).
  { intros k p Hin. apply Htag. by apply od_elem_of_get. }
  split_and!; try done.
  intros y [k Hk]%od_values_elem_of.
  assert (Hy : dict_get y "name" = k).
  { unfold dict_get. by rewrite (Htag' _ _ Hk). }
  rewrite Hy. apply od_elem_of_get in Hk; [|done].
  rewrite Hget in Hk. destruct (last _); [done|]. done.
Qed.

Lemma validate_protocols_entries_unchanged C X Y :
  AssetSerializer.validate_protocols C X = Ok Y → ∀ y, y ∈ Y → y ∈ X.
Proof.
  intros (m & Hm & _ & -> & _)%validate_protocols_Ok y Hy.
  apply protocols_data_map_dedup in Hm as (_ & _ & _ & Hlast).
  apply Hlast, last_Some_elem_of, list_elem_of_filter in Hy. apply Hy.
Qed.

(** C7: when validation succeeds the output holds one entry per name, in
    the order in which the names first occur in the input, each entry being
    the last input entry of that name; validating the output again returns
    it unchanged. *)
Theorem validate_protocols_dedup_idempotent
    (C : option (list PlatformProtocol)) (X Y : list dict) :
  AssetSerializer.validate_protocols C X = Ok Y →
  (λ y : dict, y !! "name") <$> Y = Some <$> first_seen (entry_names X)
  ∧ NoDup (entry_names Y)
  ∧ (∀ y, y ∈ Y →
       last (filter (λ p, dict_get p "name" = dict_get y "name") X) = Some y)
  ∧ AssetSerializer.validate_protocols C Y = Ok Y.
Proof.
  intros Hvalid.
  pose proof (validate_protocols_entries_unchanged C X Y Hvalid) as Hsub.
  apply validate_protocols_Ok in Hvalid as (m & Hm & Hports & -> & Hagain).
  apply protocols_data_map_dedup in Hm as (Hnd & Htag & Hkeys & Hlast).
  assert (Hnames : entry_names (od_values m) = od_keys m).
  { unfold entry_names. apply (inj (fmap Some)).
    rewrite <- list_fmap_compose.
    rewrite <- (tagged_values_keys (λ p, p !! "name") m Htag).
    apply list_fmap_ext. intros i p Hp. cbn.
    apply list_elem_of_lookup_2, od_values_elem_of in Hp as [k Hk].
    unfold dict_get. by rewrite (Htag _ _ Hk). }
  split_and!.
  - rewrite <- Hkeys. by apply tagged_values_keys.
  - rewrite Hnames, Hkeys. apply first_seen_NoDup.
  - done.
  - apply Hagain.
    + by apply (protocols_data_map_values m []).
    + apply check_ports_Forall, Forall_forall. intros y Hy.
      apply check_ports_Forall in Hports.
      rewrite Forall_forall in Hports. by apply Hports, Hsub.
Qed.

Lemma validate_protocols_dedup_idempotent_witness :
  let X := [rdp_3389; ssh_22; rdp_3390] in
  let Y := [rdp_3390; ssh_22] in
  (λ y : dict, y !! "name") <$> Y = Some <$> first_seen (entry_names X)
  ∧ NoDup (entry_names Y)
  ∧ (∀ y, y ∈ Y →
       last (filter (λ p, dict_get p "name" = dict_get y "name") X) = Some y)
  ∧ AssetSerializer.validate_protocols (Some [ssh_required]) Y = Ok Y.
Proof.
  apply (validate_protocols_dedup_idempotent (Some [ssh_required])).
  vm_compute. reflexivity.
Defined.

(** A port outside the range fails the validation with the name of the
    protocol. *)
Example port_out_of_range_names_protocol :
  AssetSerializer.validate_protocols (Some [])
    [ssh_22; {[ "name" := VStr "rdp"; "port" := VInt 70000 ]}]
  = Raise (ValidationError ["rdp: port out of range (1-65535)"]).
Proof. vm_compute. reflexivity. Qed.

(** ** Promotion to primary *)

(** C8, as the code has it: the platform validator promotes the first entry
    of a list without a primary entry, so its output always holds a primary
    entry, and it keeps every entry (no deduplication); the asset validator
    returns input entries as they are, without promoting any. *)
Theorem platform_validate_protocols_promotes_first (protocols out : list dict) :
  PlatformSerializer.validate_protocols protocols = Ok out →
  Exists marked_primary out
  ∧ length out = length protocols
  ∧ (Forall (λ p, ¬ marked_primary p) protocols →
       head out = <["primary" := VBool true]> <$> head protocols
       ∧ tail out = tail protocols)
  ∧ (Exists marked_primary protocols → out = protocols)
  ∧ (∀ C Y, AssetSerializer.validate_protocols C protocols = Ok Y →
       ∀ y, y ∈ Y → y ∈ protocols).
Proof.
  unfold PlatformSerializer.validate_protocols.
  destruct protocols as [|first rest]; [done|].
  fold marked_primary.
  change (λ p : dict, truthy (dict_get p "primary") = true) with marked_primary.
  destruct (filter marked_primary (first :: rest)) as [|q qs] eqn:Hf;
    intros [= <-].
  - assert (Hnone : Forall (λ p, ¬ marked_primary p) (first :: rest)).
    { apply Forall_forall. intros p Hp Hm.
      by apply (filter_nil_not_elem_of marked_primary _ p Hf). }
    split_and!.
    + apply Exists_cons_hd. unfold marked_primary, dict_get.
      by rewrite lookup_insert_eq.
    + done.
    + done.
    + intros Hex. apply Exists_exists in Hex as (p & Hp & Hm).
      rewrite Forall_forall in Hnone. by destruct (Hnone p Hp).
    + intros C Y. apply validate_protocols_entries_unchanged.
  - assert (Hq : q ∈ q :: qs) by (apply elem_of_cons; by left).
    rewrite <- Hf in Hq. apply list_elem_of_filter in Hq as [Hm Hq].
    split_and!.
    + apply Exists_exists. eauto.
    + done.
    + intros Hnone. rewrite Forall_forall in Hnone. by destruct (Hnone q Hq).
    + done.
    + intros C Y. apply validate_protocols_entries_unchanged.
Qed.

Lemma platform_validate_protocols_promotes_first_witness :
  let protocols := [rdp_3389; rdp_3390] in
  let out := [rdp_3389_primary; rdp_3390] in
  Exists marked_primary out
  ∧ length out = length protocols
  ∧ (Forall (λ p, ¬ marked_primary p) protocols →
       head out = <["primary" := VBool true]> <$> head protocols
       ∧ tail out = tail protocols)
  ∧ (Exists marked_primary protocols → out = protocols)
  ∧ (∀ C Y, AssetSerializer.validate_protocols C protocols = Ok Y →
       ∀ y, y ∈ Y → y ∈ protocols).
Proof.
  apply (platform_validate_protocols_promotes_first [rdp_3389; rdp_3390]).
  vm_compute. reflexivity.
Defined.

(** C8, as stated, fails on the rdp scenario: the asset validator yields the
    single entry rdp/3390 without a primary flag, the platform validator
    yields both entries, the first of them (port 3389) promoted. *)
Lemma rdp_scenario_not_promoted_and_deduplicated :
  let protocols := [rdp_3389; rdp_3390] in
  let expected := [<["primary" := VBool true]> rdp_3390] in
  AssetSerializer.validate_protocols (Some []) protocols = Ok [rdp_3390]
  ∧ rdp_3390 !! "primary" = None
  ∧ AssetSerializer.validate_protocols (Some []) protocols ≠ Ok expected
  ∧ PlatformSerializer.validate_protocols protocols
      = Ok [rdp_3389_primary; rdp_3390]
  ∧ PlatformSerializer.validate_protocols protocols ≠ Ok expected.
Proof.
  split_and!; try (vm_compute; reflexivity); vm_compute; discriminate.
Qed.

(** ** The stable sort *)

Section sorted_facts.
Import AssetAccountBulkSerializer.
Context {A : Type} (key : A → Z).
Implicit Types (x : A) (l : list A).

Lemma insert_sorted_Permutation x l : insert_sorted key x l ≡ₚ x :: l.
Proof.
  induction l as [|y l IH]; cbn [insert_sorted]; [done|].
  destruct (key x <=? key y); [done|].
  rewrite IH. apply Permutation_swap.
Qed.

Lemma sorted_Permutation l : sorted key l ≡ₚ l.
Proof.
  induction l as [|x l IH]; cbn [sorted]; [done|].
  by rewrite insert_sorted_Permutation, IH.
Qed.

Lemma insert_sorted_StronglySorted x l :
  StronglySorted (key_le key) l → StronglySorted (key_le key) (insert_sorted key x l).
Proof.
  induction 1 as [|y l Hl IH Hy]; cbn [insert_sorted].
  - repeat constructor.
  - destruct (key x <=? key y) eqn:Hxy.
    + apply Z.leb_le in Hxy. constructor; [by constructor|].
      constructor; [done|].
      eapply Forall_impl; [exact Hy|]. unfold key_le. intros z Hz. lia.
    + apply Z.leb_gt in Hxy. constructor; [done|].
      rewrite insert_sorted_Permutation. constructor; [|done].
      unfold key_le. lia.
Qed.

Lemma sorted_StronglySorted l : StronglySorted (key_le key) (sorted key l).
Proof.
  induction l as [|x l IH]; cbn [sorted]; [constructor|].
  by apply insert_sorted_StronglySorted.
Qed.

(** Stability: a selection that never separates two elements of one key
    keeps the order of the input. *)
Lemma insert_sorted_filter (P : A → Prop) `{!∀ x, Decision (P x)} x l :
  (∀ y, P x → P y → key y = key x) →
  filter P (insert_sorted key x l) = filter P (x :: l).
Proof.
  intros HP. induction l as [|y l IH]; cbn [insert_sorted]; [done|].
  destruct (key x <=? key y) eqn:Hxy; [done|].
  apply Z.leb_gt in Hxy.
  rewrite filter_cons, IH, !filter_cons.
  destruct (decide (P y)) as [Hy|]; [|done].
  destruct (decide (P x)) as [Hx|]; [|done].
  specialize (HP y Hx Hy). lia.
Qed.

Lemma sorted_filter (P : A → Prop) `{!∀ x, Decision (P x)} l :
  (∀ x y, P x → P y → key y = key x) →
  filter P (sorted key l) = filter P l.
Proof.
  intros HP. induction l as [|x l IH]; cbn [sorted]; [done|].
  rewrite insert_sorted_filter by (intros y; apply HP).
  by rewrite !filter_cons, IH.
Qed.
End sorted_facts.

(** ** The loop of the bulk creation *)

Lemma od_keys_set_first_seen {V} k (v : V) (d : odict V) (L : list pyval) :
  od_keys (od_set k v d) ++ filter (λ k', k' ∉ od_keys (od_set k v d)) L
  = od_keys d ++ filter (λ k', k' ∉ od_keys d) (k :: filter (λ k', k' ≠ k) L).
Proof.
  rewrite od_keys_set. case_decide as Hin.
  - rewrite filter_cons_False by (intros Hc; by apply Hc).
    f_equal. rewrite list_filter_filter. apply list_filter_iff.
    intros k'. split; [|naive_solver].
    intros Hk. split; [done|]. by intros ->.
  - rewrite filter_cons_True by done.
    rewrite <- app_assoc. f_equal. cbn [app]. f_equal.
    rewrite list_filter_filter. apply list_filter_iff.
    intros k'. rewrite elem_of_app, list_elem_of_singleton. naive_solver.
Qed.

Lemma od_values_set_Forall {V} (P : V → Prop) k v (d : odict V) :
  P v → Forall P (od_values d) → Forall P (od_values (od_set k v d)).
Proof.
  unfold od_values. intros Hv.
  induction d as [|[k0 v0] d IH]; cbn [od_set].
  - intros _. by constructor.
  - rewrite fmap_cons. cbn [snd]. intros [H0 Hd]%Forall_cons.
    case_decide; rewrite fmap_cons; cbn [snd]; constructor; auto.
Qed.

Section bulk_loop_facts.
Import AssetAccountBulkSerializer.

Lemma bind_unfold {A B} (m : M A) (f : A → M B) w :
  bind m f w =
  match m w with (Ok a, w') => f a w' | (Raise e, w') => (Raise e, w') end.
Proof. done. Qed.

Lemma create_exn params w e w' :
  Account.create params w = (Raise e, w') → e = Account.unique_violation.
Proof.
  unfold Account.create, Account.insert_row, uuid4_hex. rewrite bind_unfold.
  intros H. repeat (case_match; cbn [ret] in *; rewrite ?bind_unfold in *; simplify_eq); done.
Qed.

Lemma save_exn row w e w' :
  Account.save row w = (Raise e, w') → e = Account.unique_violation.
Proof. unfold Account.save. intros H. by repeat (case_match; simplify_eq). Qed.

Lemma get_or_create_exn defaults lookup w e w' :
  Account.get_or_create defaults lookup w = (Raise e, w') →
  e = Account.unique_violation ∨ ∃ msg, e = MultipleObjectsReturned msg.
Proof.
  unfold Account.get_or_create, Account.objects_filter, raise, ret.
  rewrite bind_unfold. intros H.
  repeat (case_match; rewrite ?bind_unfold in *; simplify_eq); eauto.
  left. by eapply create_exn.
Qed.

Lemma update_or_create_exn defaults lookup w e w' :
  Account.update_or_create defaults lookup w = (Raise e, w') →
  e = Account.unique_violation ∨ ∃ msg, e = MultipleObjectsReturned msg.
Proof.
  unfold Account.update_or_create, Account.objects_filter, raise, ret.
  rewrite bind_unfold. intros H.
  repeat (case_match; rewrite ?bind_unfold in *; simplify_eq); eauto.
  - left. by eapply create_exn.
  - left. by eapply save_exn.
Qed.

Lemma recordable_unique_violation : recordable Account.unique_violation.
Proof. eexists. reflexivity. Qed.

Lemma recordable_MultipleObjectsReturned msg :
  recordable (MultipleObjectsReturned msg).
Proof. eexists. reflexivity. Qed.

Lemma recordable_KeyError k : recordable (KeyError k).
Proof. eexists. reflexivity. Qed.

Lemma recordable_TypeError msg : recordable (TypeError msg).
Proof. eexists. reflexivity. Qed.

Lemma recordable_already_exists :
  recordable (ValidationError ["Account already exists"]).
Proof. eexists. reflexivity. Qed.

Lemma get_or_create_recordable defaults lookup w e w' :
  Account.get_or_create defaults lookup w = (Raise e, w') → recordable e.
Proof.
  intros [->|[msg ->]]%get_or_create_exn;
    [apply recordable_unique_violation|apply recordable_MultipleObjectsReturned].
Qed.

Lemma update_or_create_recordable defaults lookup w e w' :
  Account.update_or_create defaults lookup w = (Raise e, w') → recordable e.
Proof.
  intros [->|[msg ->]]%update_or_create_exn;
    [apply recordable_unique_violation|apply recordable_MultipleObjectsReturned].
Qed.

Lemma _handle_update_create_sound : handler_sound _handle_update_create.
Proof.
  intros vd lookup w. unfold _handle_update_create, Account.objects_filter.
  rewrite bind_unfold.
  destruct (head _) as [ori|]; [case_bool_decide|]; cbn [ret];
    rewrite ?bind_unfold; try set_solver.
  all: destruct (Account.update_or_create vd lookup w) as [[[inst []]|e] w1] eqn:E;
    cbn [ret]; try set_solver; by eapply update_or_create_recordable.
Qed.

Lemma _handle_skip_create_sound : handler_sound _handle_skip_create.
Proof.
  intros vd lookup w. unfold _handle_skip_create. rewrite bind_unfold.
  destruct (Account.get_or_create vd lookup w) as [[[inst []]|e] w1] eqn:E;
    cbn [ret]; try set_solver; by eapply get_or_create_recordable.
Qed.

Lemma _handle_err_create_sound : handler_sound _handle_err_create.
Proof.
  intros vd lookup w. unfold _handle_err_create. rewrite bind_unfold.
  destruct (Account.get_or_create vd lookup w) as [[[inst []]|e] w1] eqn:E;
    cbn [ret raise negb]; try set_solver.
  - apply recordable_already_exists.
  - by eapply get_or_create_recordable.
Qed.

Lemma get_create_handler_sound on_invalid :
  handler_sound (get_create_handler on_invalid).
Proof.
  unfold get_create_handler. repeat case_bool_decide;
    auto using _handle_update_create_sound, _handle_skip_create_sound,
      _handle_err_create_sound.
Qed.

Lemma get_uniq_name_exn vd w e w' :
  get_uniq_name vd w = (Raise e, w') → recordable e.
Proof.
  unfold get_uniq_name, lift, dict_getitem, py_add_str, uuid4_hex, ret.
  rewrite !bind_unfold. intros H.
  repeat (case_match; rewrite ?bind_unfold in *; simplify_eq);
    auto using recordable_KeyError, recordable_TypeError.
Qed.

Lemma get_filter_lookup_exn vd e :
  get_filter_lookup vd = Raise e → recordable e.
Proof.
  unfold get_filter_lookup, dict_getitem. intros H.
  repeat (case_match; cbn [mbind result_bind] in *; simplify_eq);
    auto using recordable_KeyError.
Qed.

(** Whatever [perform_create] does, the loop stores an entry for it. *)
Lemma perform_create_entry handle vd w :
  handler_sound handle →
  ∃ entry, result_entry (perform_create vd handle w).1.1 = Ok entry
           ∧ known_state entry.
Proof.
  intros Hh. unfold perform_create.
  assert (Hrec : ∀ e, recordable e →
    ∃ entry, result_entry (Raise e) = Ok entry ∧ known_state entry).
  { intros e [msg ->]. eexists; split; [done|]. unfold known_state. set_solver. }
  assert (Hcall : ∀ vd lookup w,
    ∃ entry, result_entry (handle vd lookup w).1 = Ok entry ∧ known_state entry).
  { intros vd0 lookup0 w0. specialize (Hh vd0 lookup0 w0).
    destruct (handle vd0 lookup0 w0) as [[[[inst ch] st]|e] w1]; cbn [fst].
    - eexists; split; [done|]. unfold known_state, dict_get.
      rewrite !lookup_insert_ne, lookup_singleton_eq by done.
      cbn. set_solver.
    - by apply Hrec. }
  destruct (get_filter_lookup vd) as [lookup|e] eqn:Hl; cbn [fst].
  2: { by apply Hrec, (get_filter_lookup_exn vd). }
  pose proof (Hcall vd lookup w) as H1.
  destruct (handle vd lookup w) as [[r|e] w1] eqn:E1; cbn [fst] in *; [done|].
  destruct e; try done.
  destruct (get_uniq_name vd w1) as [[name|e] w2] eqn:E2; cbn [fst].
  - pose proof (Hcall (<["name" := name]> vd) lookup w2) as H2.
    by destruct (handle _ lookup w2) as [r w3].
  - by apply Hrec, (get_uniq_name_exn vd w1 e w2).
Qed.

(** The loop ends normally for every list of assets; it files one entry per
    distinct asset, in the order in which the assets first occur. *)
Lemma bulk_loop_spec handle secret_type supports assets :
  handler_sound handle →
  ∀ vd _results w,
    Forall known_state (od_values _results) →
    ∃ _results' w',
      bulk_loop handle secret_type supports assets vd _results w
        = (Ok _results', w')
      ∧ od_keys _results' =
          od_keys _results
          ++ filter (λ k, k ∉ od_keys _results) (first_seen (VAsset <$> assets))
      ∧ Forall known_state (od_values _results').
Proof.
  intros Hh. induction assets as [|asset rest IH]; intros vd rs w Hrs.
  - exists rs, w. cbn. by rewrite app_nil_r.
  - cbn [bulk_loop]. rewrite fmap_cons. cbn [first_seen].
    case_bool_decide.
    + edestruct (IH vd) as (rs' & w' & Hloop & Hkeys & Hall);
        [|exists rs', w'; split_and!; [exact Hloop| |exact Hall]].
      * apply od_values_set_Forall; [|exact Hrs].
        unfold known_state. set_solver.
      * rewrite Hkeys. apply od_keys_set_first_seen.
    + destruct (perform_create_entry handle (<["asset" := VAsset asset]> vd) w Hh)
        as (entry & Hentry & Hknown).
      destruct (perform_create _ handle w) as [[outcome vd'] w1].
      cbn [fst] in Hentry. rewrite Hentry.
      edestruct (IH vd') as (rs' & w' & Hloop & Hkeys & Hall);
        [|exists rs', w'; split_and!; [exact Hloop| |exact Hall]].
      * by apply od_values_set_Forall.
      * rewrite Hkeys. apply od_keys_set_first_seen.
Qed.
Lemma bulk_loop_Forall (P : dict → Prop) handle secret_type supports assets :
  P ({[ "error" := VStr (unsupported_secret_type secret_type);
        "state" := VStr "error" ]} : dict) →
  (∀ vd w entry,
     result_entry (perform_create vd handle w).1.1 = Ok entry → P entry) →
  ∀ vd _results w _results' w',
    bulk_loop handle secret_type supports assets vd _results w
      = (Ok _results', w') →
    Forall P (od_values _results) → Forall P (od_values _results').
Proof.
  intros Hunsupported Hentry.
  induction assets as [|asset rest IH]; intros vd rs w rs' w'.
  - by intros [= <- <-].
  - cbn [bulk_loop]. case_bool_decide.
    + intros Hloop Hrs. eapply IH; [exact Hloop|].
      by apply od_values_set_Forall.
    + pose proof (Hentry (<["asset" := VAsset asset]> vd) w) as He.
      destruct (perform_create _ handle w) as [[outcome vd'] w1].
      cbn [fst] in He.
      destruct (result_entry outcome) as [entry|e]; [|done].
      intros Hloop Hrs. eapply IH; [exact Hloop|].
      apply od_values_set_Forall; [by apply He|done].
Qed.


Lemma result_entry_no_asset outcome entry :
  result_entry outcome = Ok entry → entry !! "asset" = None.
Proof.
  destruct outcome as [[[inst ch] st]|e]; cbn [result_entry].
  - by intros [= <-].
  - destruct e as [| [|m d] | | | | | |]; intros [= <-]; reflexivity.
Qed.

(** No entry of the loop has a key [asset] of its own. *)
Lemma bulk_loop_no_asset handle secret_type supports assets vd w _results w' :
  bulk_loop handle secret_type supports assets vd [] w = (Ok _results, w') →
  Forall (λ entry, entry !! "asset" = None) (od_values _results).
Proof.
  intros Hloop.
  eapply (bulk_loop_Forall _ handle); [| |exact Hloop|constructor].
  - reflexivity.
  - intros vd0 w0 entry. apply result_entry_no_asset.
Qed.
End bulk_loop_facts.

(** ** Order of the result list *)

Lemma known_state_ranked r : known_state r → ranked r.
Proof.
  unfold known_state, ranked, state_of, AssetAccountBulkSerializer.score.
  intros H. repeat (apply elem_of_cons in H as [->|H]); [| | | |by apply elem_of_nil in H];
    vm_compute (default _ _); set_solver.
Qed.

Lemma results_of_assets (rs : odict dict) :
  Forall (λ entry, entry !! "asset" = None) (od_values rs) →
  (λ r, dict_get r "asset") <$> AssetAccountBulkSerializer.results_of rs
  = od_keys rs.
Proof.
  unfold AssetAccountBulkSerializer.results_of, od_keys, od_values.
  rewrite Forall_fmap, Forall_forall. intros Hno.
  rewrite <- list_fmap_compose. apply list_fmap_ext.
  intros i [k r] Hin. cbn. unfold dict_get.
  rewrite lookup_union_r; [by rewrite lookup_singleton_eq|].
  by apply (Hno (k, r)), list_elem_of_lookup_2 with i.
Qed.

Lemma results_of_known (rs : odict dict) :
  Forall known_state (od_values rs) →
  Forall known_state (AssetAccountBulkSerializer.results_of rs).
Proof.
  unfold AssetAccountBulkSerializer.results_of, od_values.
  rewrite !Forall_fmap. intros H. eapply Forall_impl; [exact H|].
  intros [k r]. cbn.
  unfold known_state, dict_get. by rewrite lookup_union_l.
Qed.

(** C1, as the code has it: the returned list is the stable sort of the
    per-target entries by ascending rank, that is error (0) first, then
    skipped (1), updated (2) and created (3) last; entries of equal
    outcome keep the order in which their targets were supplied. *)
Theorem perform_bulk_create_sorted_ascending
    (assets : list string) (vd : dict) (w w' : world) (results : list dict) :
  AssetAccountBulkSerializer.perform_bulk_create assets vd w
    = (AssetAccountBulkSerializer.BulkResults results, w') →
  ∃ unsorted,
    (λ r, dict_get r "asset") <$> unsorted = first_seen (VAsset <$> assets)
    ∧ results ≡ₚ unsorted
    ∧ Forall ranked results
    ∧ StronglySorted
        (λ a b, AssetAccountBulkSerializer.score a
                ≤ AssetAccountBulkSerializer.score b) results
    ∧ ∀ s, filter (λ r, state_of r = s) results
           = filter (λ r, state_of r = s) unsorted.
Proof.
  unfold AssetAccountBulkSerializer.perform_bulk_create.
  set (on_invalid := dict_get_default vd "on_invalid" _).
  set (secret_type := dict_get_default _ "secret_type" _).
  set (vd1 := if negb _ then _ else _).
  set (supports := AssetAccountBulkSerializer.get_secret_type_assets _ _ _).
  destruct (bulk_loop_spec (AssetAccountBulkSerializer.get_create_handler on_invalid)
              secret_type supports assets
              (get_create_handler_sound on_invalid) vd1 [] w)
    as (rs & w1 & Hloop & Hkeys & Hknown); [constructor|].
  rewrite Hloop. apply bulk_loop_no_asset in Hloop.
  cbn [od_keys fmap list_fmap app] in Hkeys.
  rewrite filter_id in Hkeys by (intros; apply not_elem_of_nil).
  set (unsorted := AssetAccountBulkSerializer.results_of rs).
  intros Hres.
  assert (results = AssetAccountBulkSerializer.sorted
                      AssetAccountBulkSerializer.score unsorted) as ->.
  { repeat case_match; by simplify_eq. }
  clear Hres. exists unsorted. split_and!.
  - unfold unsorted. by rewrite results_of_assets.
  - apply sorted_Permutation.
  - rewrite sorted_Permutation. unfold unsorted.
    eapply Forall_impl; [by apply results_of_known|]. apply known_state_ranked.
  - apply sorted_StronglySorted.
  - intros s. apply sorted_filter.
    unfold state_of, AssetAccountBulkSerializer.score. by intros x y -> ->.
Qed.

Lemma perform_bulk_create_sorted_ascending_witness :
  let run := AssetAccountBulkSerializer.perform_bulk_create
               ["A"; "B"; "C"] (candidate "update") w_root_on_A in
  ∃ unsorted,
    (λ r, dict_get r "asset") <$> unsorted
      = first_seen (VAsset <$> ["A"; "B"; "C"])
    ∧ returned_results run.1 ≡ₚ unsorted
    ∧ Forall ranked (returned_results run.1)
    ∧ StronglySorted
        (λ a b, AssetAccountBulkSerializer.score a
                ≤ AssetAccountBulkSerializer.score b) (returned_results run.1)
    ∧ ∀ s, filter (λ r, state_of r = s) (returned_results run.1)
           = filter (λ r, state_of r = s) unsorted.
Proof.
  intros run.
  apply (perform_bulk_create_sorted_ascending
           ["A"; "B"; "C"] (candidate "update") w_root_on_A run.2).
  vm_compute. reflexivity.
Defined.

(** C1, as stated, fails: with [root] present on asset A and the policy
    [update], the entry of A (updated) is returned before the entries of B
    and C (created). *)
Lemma updated_entry_precedes_created_entries :
  let run := AssetAccountBulkSerializer.perform_bulk_create
               ["A"; "B"; "C"] (candidate "update") w_root_on_A in
  ∃ results,
    run.1 = AssetAccountBulkSerializer.BulkResults results
    ∧ (λ r, dict_get r "asset") <$> results = [VAsset "A"; VAsset "B"; VAsset "C"]
    ∧ state_of <$> results = [VStr "updated"; VStr "created"; VStr "created"]
    ∧ ¬ StronglySorted
          (λ a b, AssetAccountBulkSerializer.score b
                  ≤ AssetAccountBulkSerializer.score a) results.
Proof.
  eexists. split; [vm_compute; reflexivity|].
  split; [vm_compute; reflexivity|]. split; [vm_compute; reflexivity|].
  intros Hs. apply StronglySorted_inv in Hs as [_ Hall].
  apply Forall_inv in Hall. vm_compute in Hall. by apply Hall.
Qed.

(** ** Retry and recording of errors *)

Section retry_facts.
Import AssetAccountBulkSerializer.

Lemma perform_create_retry handle vd lookup w msg w1 :
  get_filter_lookup vd = Ok lookup →
  handle vd lookup w = (Raise (IntegrityError msg), w1) →
  perform_create vd handle w =
    match get_uniq_name vd w1 with
    | (Ok name, w2) =>
        let vd' := <["name" := name]> vd in
        (((handle vd' lookup w2).1, vd'), (handle vd' lookup w2).2)
    | (Raise e, w2) => ((Raise e, vd), w2)
    end.
Proof.
  intros Hl Hh. unfold perform_create. rewrite Hl, Hh.
  destruct (get_uniq_name vd w1) as [[name|e] w2]; [|done].
  cbn zeta. by destruct (handle _ lookup w2).
Qed.

Lemma perform_create_no_retry handle vd lookup w r w1 :
  get_filter_lookup vd = Ok lookup →
  handle vd lookup w = (r, w1) →
  (∀ msg, r ≠ Raise (IntegrityError msg)) →
  perform_create vd handle w = ((r, vd), w1).
Proof.
  intros Hl Hh Hr. unfold perform_create. rewrite Hl, Hh.
  destruct r as [|[]]; try done. by destruct (Hr msg).
Qed.

Lemma get_uniq_name_str vd w name :
  vd !! "name" = Some (VStr name) →
  get_uniq_name vd w
  = (Ok (VStr ((name +:+ "-") +:+ first4 (entropy w (drawn w)))),
     set_drawn (S (drawn w)) w).
Proof.
  intros Hn. unfold get_uniq_name, lift, dict_getitem. by rewrite Hn.
Qed.

Lemma recordable_entry e :
  recordable e → result_entry (Raise e) = Ok (error_entry (error_message e)).
Proof.
  intros [msg H]. destruct e as [| [|m d] | | | | | |]; try done.
Qed.

Lemma perform_create_recordable on_invalid vd w e :
  (perform_create vd (get_create_handler on_invalid) w).1.1 = Raise e →
  recordable e.
Proof.
  pose proof (get_create_handler_sound on_invalid) as Hh.
  set (handle := get_create_handler on_invalid) in *.
  unfold perform_create.
  destruct (get_filter_lookup vd) as [lookup|e0] eqn:Hl; cbn [fst].
  2: { intros [= ->]. by apply (get_filter_lookup_exn vd). }
  pose proof (Hh vd lookup w) as H1.
  destruct (handle vd lookup w) as [[r|e1] w1] eqn:E1; cbn [fst]; [done|].
  assert (Hretry : ∀ m, e1 = IntegrityError m →
    (match get_uniq_name vd w1 with
     | (Ok name, w2) =>
         let vd0 := <["name" := name]> vd in
         let '(r, w3) := handle vd0 lookup w2 in (r, vd0, w3)
     | (Raise e2, w2) => (Raise e2, vd, w2)
     end).1.1 = Raise e → recordable e).
  { intros m _. destruct (get_uniq_name vd w1) as [[name|e2] w2] eqn:E2; cbn [fst].
    - pose proof (Hh (<["name" := name]> vd) lookup w2) as H2. cbn zeta.
      destruct (handle _ lookup w2) as [[r|e3] w3]; cbn [fst]; [done|].
      by intros [= <-].
    - intros [= <-]. by apply (get_uniq_name_exn vd w1 e2 w2). }
  destruct e1; cbn [fst]; try (by intros [= <-]). by eapply Hretry.
Qed.

Lemma bulk_loop_step handle secret_type supports asset rest vd _results w :
  asset ∈ supports →
  ∀ entry,
    result_entry (perform_create (<["asset" := VAsset asset]> vd) handle w).1.1
      = Ok entry →
    bulk_loop handle secret_type supports (asset :: rest) vd _results w
    = bulk_loop handle secret_type supports rest
        (perform_create (<["asset" := VAsset asset]> vd) handle w).1.2
        (od_set (VAsset asset) entry _results)
        (perform_create (<["asset" := VAsset asset]> vd) handle w).2.
Proof.
  intros Hin entry Hentry. cbn [bulk_loop].
  rewrite bool_decide_eq_false_2 by (intros Hn; by apply Hn).
  destruct (perform_create _ handle w) as [[outcome vd'] w1].
  cbn [fst snd] in *. by rewrite Hentry.
Qed.

Lemma perform_bulk_create_never_raises assets vd w e w' :
  perform_bulk_create assets vd w ≠ (BulkRaise e, w').
Proof.
  unfold perform_bulk_create.
  set (on_invalid := dict_get_default vd "on_invalid" _).
  set (secret_type := dict_get_default _ "secret_type" _).
  set (vd1 := if negb _ then _ else _).
  set (supports := get_secret_type_assets _ _ _).
  destruct (bulk_loop_spec (get_create_handler on_invalid)
              secret_type supports assets
              (get_create_handler_sound on_invalid) vd1 [] w)
    as (rs & w1 & -> & _ & _); [constructor|].
  repeat case_match; congruence.
Qed.
End retry_facts.

(** C6: an [IntegrityError] of the handler is answered by one further call
    of the handler, under the name extended by [-] and four characters of a
    fresh uuid, and whatever that call gives is the outcome; no other
    outcome is retried. Every exception a target can raise is stored as the
    error entry of that target and the loop goes on with the remaining
    targets; the call never ends in an exception of a target. *)
Theorem perform_create_retries_once_and_errors_are_recorded :
  (∀ handle vd lookup w msg w1,
     AssetAccountBulkSerializer.get_filter_lookup vd = Ok lookup →
     handle vd lookup w = (Raise (IntegrityError msg), w1) →
     AssetAccountBulkSerializer.perform_create vd handle w =
       match AssetAccountBulkSerializer.get_uniq_name vd w1 with
       | (Ok name, w2) =>
           let vd' := <["name" := name]> vd in
           (((handle vd' lookup w2).1, vd'), (handle vd' lookup w2).2)
       | (Raise e, w2) => ((Raise e, vd), w2)
       end)
  ∧ (∀ vd w name,
       vd !! "name" = Some (VStr name) →
       AssetAccountBulkSerializer.get_uniq_name vd w
       = (Ok (VStr ((name +:+ "-") +:+ first4 (entropy w (drawn w)))),
          set_drawn (S (drawn w)) w))
  ∧ (∀ handle vd lookup w r w1,
       AssetAccountBulkSerializer.get_filter_lookup vd = Ok lookup →
       handle vd lookup w = (r, w1) →
       (∀ msg, r ≠ Raise (IntegrityError msg)) →
       AssetAccountBulkSerializer.perform_create vd handle w = ((r, vd), w1))
  ∧ (∀ on_invalid vd w e,
       (AssetAccountBulkSerializer.perform_create vd
          (AssetAccountBulkSerializer.get_create_handler on_invalid) w).1.1
         = Raise e →
       AssetAccountBulkSerializer.result_entry (Raise e)
         = Ok (error_entry (error_message e)))
  ∧ (∀ handle secret_type supports asset rest vd _results w entry,
       asset ∈ supports →
       AssetAccountBulkSerializer.result_entry
         (AssetAccountBulkSerializer.perform_create
            (<["asset" := VAsset asset]> vd) handle w).1.1 = Ok entry →
       AssetAccountBulkSerializer.bulk_loop handle secret_type supports
         (asset :: rest) vd _results w
       = AssetAccountBulkSerializer.bulk_loop handle secret_type supports rest
           (AssetAccountBulkSerializer.perform_create
              (<["asset" := VAsset asset]> vd) handle w).1.2
           (od_set (VAsset asset) entry _results)
           (AssetAccountBulkSerializer.perform_create
              (<["asset" := VAsset asset]> vd) handle w).2)
  ∧ (∀ assets vd w e w',
       AssetAccountBulkSerializer.perform_bulk_create assets vd w
       ≠ (AssetAccountBulkSerializer.BulkRaise e, w')).
Proof.
  split_and!.
  - apply perform_create_retry.
  - apply get_uniq_name_str.
  - apply perform_create_no_retry.
  - intros on_invalid vd w e He.
    by apply recordable_entry, (perform_create_recordable on_invalid vd w).
  - intros. by apply bulk_loop_step.
  - apply perform_bulk_create_never_raises.
Qed.

Lemma perform_create_retries_once_witness :
  let w := sample_world [account_on "A" "root" "admin" "old"] in
  let vd : dict :=
    <["asset" := VAsset "A"]> (<["name" := VStr "root"]>
      (delete "on_invalid" (candidate "skip"))) in
  let lookup : dict :=
    {[ "username" := VStr "root"; "secret_type" := VStr "password";
       "asset" := VAsset "A" ]} in
  let handle := AssetAccountBulkSerializer._handle_skip_create in
  AssetAccountBulkSerializer.perform_create vd handle w =
    match AssetAccountBulkSerializer.get_uniq_name vd (set_drawn 1 w) with
    | (Ok name, w2) =>
        let vd' := <["name" := name]> vd in
        (((handle vd' lookup w2).1, vd'), (handle vd' lookup w2).2)
    | (Raise e, w2) => ((Raise e, vd), w2)
    end.
Proof.
  intros w vd lookup handle.
  apply (proj1 perform_create_retries_once_and_errors_are_recorded
           handle vd lookup w "duplicate key value violates unique constraint").
  - vm_compute. reflexivity.
  - vm_compute. reflexivity.
Defined.

(** ** The strict policy *)

Section persist_facts.
Import AssetAccountBulkSerializer.

Lemma relabel_loop w results : ∀ errors,
  foldl (λ errors result,
           if bool_decide (dict_get result "state" ≠ VStr "skipped") then errors
           else errors ++ [relabel w result]) errors results
  = errors ++ (relabel w <$> filter (λ r, state_of r = VStr "skipped") results).
Proof.
  induction results as [|r results IH]; intros errors; cbn [foldl].
  - by rewrite app_nil_r.
  - rewrite IH, filter_cons. unfold state_of at 2.
    case_bool_decide as Hs; case_decide; try done.
    by rewrite <- app_assoc.
Qed.

Lemma strict_errors_eq w results :
  strict_errors w results =
    filter (λ r, state_of r = VStr "error") results
    ++ (relabel w <$> filter (λ r, state_of r = VStr "skipped") results).
Proof. unfold strict_errors. by rewrite <- relabel_loop. Qed.

Lemma insert_row_accounts row w r w' :
  Account.insert_row row w = (r, w') →
  (r = Ok row ∧ accounts w' = accounts w ++ [row])
  ∨ ((∃ e, r = Raise e) ∧ accounts w' = accounts w).
Proof.
  unfold Account.insert_row. case_match; intros [= <- <-]; [right|left]; eauto.
Qed.

Lemma create_accounts params w r w' :
  Account.create params w = (r, w') →
  (∃ row, r = Ok row ∧ accounts w' = accounts w ++ [row])
  ∨ ((∃ e, r = Raise e) ∧ accounts w' = accounts w).
Proof.
  unfold Account.create, uuid4_hex, ret. rewrite bind_unfold.
  destruct (params !! "id"); [|rewrite bind_unfold];
    intros [[-> Ha]|[He Ha]]%insert_row_accounts; eauto.
Qed.



Lemma save_accounts row w r w' :
  Account.save row w = (r, w') →
  (r = Ok ()
   ∧ stored w' (dict_get row "id")
   ∧ ∀ pk, stored w pk → stored w' pk)
  ∨ ((∃ e, r = Raise e) ∧ w' = w).
Proof.
  unfold Account.save. case_match; [intros [= <- <-]; right; eauto|].
  case_match eqn:Hex; intros [= <- <-]; left; (split; [done|]).
  - assert (Hids : (λ r, dict_get r "id") <$>
        ((λ r, if bool_decide (dict_get r "id" = dict_get row "id")
               then row else r) <$> accounts w)
      = (λ r, dict_get r "id") <$> accounts w).
    { rewrite <- list_fmap_compose. apply list_fmap_ext.
      intros i r _. cbn. by case_bool_decide. }
    unfold stored. cbn [accounts set_accounts]. rewrite Hids. split; [|done].
    apply existsb_exists in Hex as (r & Hr & Heq).
    apply bool_decide_eq_true in Heq. rewrite <- Heq.
    apply (list_elem_of_fmap_2 (λ r, dict_get r "id")). by apply list_elem_of_In.
  - unfold stored. cbn [accounts set_accounts]. rewrite fmap_app. set_solver.
Qed.




Lemma get_uniq_name_accounts vd w r w' :
  get_uniq_name vd w = (r, w') → accounts w' = accounts w.
Proof.
  unfold get_uniq_name, lift, uuid4_hex, ret. rewrite !bind_unfold.
  intros H. repeat (case_match; rewrite ?bind_unfold in *; simplify_eq); done.
Qed.



End persist_facts.


Section strict_states.
Import AssetAccountBulkSerializer.

(** An outcome of [perform_create] that is not an exception is the outcome
    of a call of the handler. *)
Lemma perform_create_Ok handle vd w x :
  (perform_create vd handle w).1.1 = Ok x →
  ∃ vd0 lookup w0, (handle vd0 lookup w0).1 = Ok x.
Proof.
  unfold perform_create.
  destruct (get_filter_lookup vd) as [lookup|e]; [|done].
  destruct (handle vd lookup w) as [[x1|e1] w1] eqn:E1; cbn [fst].
  - intros [= <-]. exists vd, lookup, w. by rewrite E1.
  - assert (Hretry :
      (match get_uniq_name vd w1 with
       | (Ok name, w2) =>
           let vd0 := <["name" := name]> vd in
           let '(r, w3) := handle vd0 lookup w2 in (r, vd0, w3)
       | (Raise e2, w2) => (Raise e2, vd, w2)
       end).1.1 = Ok x → ∃ vd0 lookup w0, (handle vd0 lookup w0).1 = Ok x).
    { destruct (get_uniq_name vd w1) as [[name|e2] w2]; [|done]. cbn zeta.
      destruct (handle _ lookup w2) as [r3 w3] eqn:E3. cbn [fst].
      intros ->. eexists _, lookup, w2. by rewrite E3. }
    destruct e1; try done.
Qed.


End strict_states.




(** The scenario of the strict policy: the account on A exists, the call
    fails with the entry of A, and the accounts created for B and C stay
    stored. *)
Example strict_policy_keeps_earlier_creations :
  let run := AssetAccountBulkSerializer.perform_bulk_create
               ["B"; "A"; "C"] (candidate "error") w_root_on_A in
  run.1 = AssetAccountBulkSerializer.BulkValidationError
            [ <["asset" := VAsset "A"]> (error_entry "Account already exists") ]
  ∧ (λ row, (dict_get row "asset", dict_get row "username")) <$> accounts run.2
    = [ (VAsset "A", VStr "root"); (VAsset "B", VStr "root");
        (VAsset "C", VStr "root") ].
Proof. split; vm_compute; reflexivity. Qed.

(** A skipped entry handed to the strict post-processing is re-labelled. *)
Example strict_errors_relabels_skipped :
  AssetAccountBulkSerializer.strict_errors w_root_on_A
    [ {[ "asset" := VAsset "A"; "changed" := VBool false;
         "instance" := VStr "acc-A-root"; "state" := VStr "skipped" ]} ]
  = [ {[ "error" := VStr "Account has exist"; "state" := VStr "error";
         "asset" := VStr "web-1" ]} ].
Proof. vm_compute. reflexivity. Qed.

(** ** The update policy and unchanged secrets *)

Section update_policy_facts.
Import AssetAccountBulkSerializer.

Lemma get_create_handler_update :
  get_create_handler (VStr "update") = _handle_update_create.
Proof. done. Qed.

Lemma _handle_update_create_skipped vd lookup w ori :
  head (filter (λ row, Account.row_matches lookup row = true) (accounts w))
    = Some ori →
  dict_get ori "secret" = dict_get vd "secret" →
  _handle_update_create vd lookup w = (Ok (ori, false, "skipped"), w).
Proof.
  intros Hori Hsecret. unfold _handle_update_create, Account.objects_filter.
  rewrite bind_unfold, Hori. by rewrite bool_decide_eq_true_2.
Qed.

Lemma create_raise_world params w e w' :
  Account.create params w = (Raise e, w') → accounts w' = accounts w.
Proof.
  intros [(row & ? & _)|[_ ?]]%create_accounts; [done|done].
Qed.

Lemma _handle_update_create_updated vd lookup w instance changed w' :
  _handle_update_create vd lookup w = (Ok (instance, changed, "updated"), w') →
  ∃ ori,
    head (filter (λ row, Account.row_matches lookup row = true) (accounts w))
      = Some ori
    ∧ dict_get ori "secret" ≠ dict_get vd "secret"
    ∧ instance = vd ∪ ori.
Proof.
  unfold _handle_update_create, Account.objects_filter. rewrite bind_unfold.
  unfold Account.update_or_create, Account.objects_filter, raise, ret.
  destruct (filter _ (accounts w)) as [|ori [|row2 rows]] eqn:Hf; cbn [head].
  - rewrite !bind_unfold. intros H.
    repeat (case_match; rewrite ?bind_unfold in *; simplify_eq).
  - case_bool_decide as Hs; [done|].
    rewrite !bind_unfold. rewrite Hf. rewrite bind_unfold.
    intros H. repeat (case_match; simplify_eq). eauto.
  - case_bool_decide as Hs; [done|].
    rewrite !bind_unfold. rewrite Hf. done.
Qed.

Lemma _handle_update_create_raise_accounts vd lookup w e w' :
  _handle_update_create vd lookup w = (Raise e, w') → accounts w' = accounts w.
Proof.
  unfold _handle_update_create, Account.objects_filter. rewrite bind_unfold.
  destruct (match head _ with Some _ => _ | None => _ end); [done|].
  rewrite bind_unfold.
  unfold Account.update_or_create, Account.objects_filter, raise, ret.
  rewrite bind_unfold.
  destruct (filter _ (accounts w)) as [|ori [|row2 rows]] eqn:Hf.
  - rewrite bind_unfold.
    destruct (Account.create _ w) as [[row|e1] w1] eqn:Hc; [done|].
    intros [= <- <-]. by eapply create_raise_world.
  - rewrite bind_unfold.
    destruct (Account.save _ w) as [r1 w1] eqn:Hs.
    apply save_accounts in Hs as [(-> & _)|[[e1 ->] ->]]; [done|].
    by intros [= <- <-].
  - by intros [= <- <-].
Qed.
End update_policy_facts.

(** C10: under the policy [update], when the lookup by username, secret
    type and asset finds an account whose secret equals the candidate's,
    the target is skipped with [changed = False], the entry names the
    existing account and the world is unchanged; an outcome [updated]
    means that the account found has another secret than the candidate. *)
Theorem update_policy_skips_unchanged_secret
    (vd lookup : dict) (w : world) :
  AssetAccountBulkSerializer.get_filter_lookup vd = Ok lookup →
  let handle := AssetAccountBulkSerializer.get_create_handler (VStr "update") in
  let found :=
    head (filter (λ row, Account.row_matches lookup row = true) (accounts w)) in
  lookup = {[ "username" := dict_get vd "username";
              "secret_type" := dict_get vd "secret_type";
              "asset" := dict_get vd "asset" ]}
  ∧ (∀ ori,
       found = Some ori →
       dict_get ori "secret" = dict_get vd "secret" →
       AssetAccountBulkSerializer.perform_create vd handle w
         = ((Ok (ori, false, "skipped"), vd), w)
       ∧ AssetAccountBulkSerializer.result_entry (Ok (ori, false, "skipped"))
         = Ok {[ "changed" := VBool false; "instance" := dict_get ori "id";
                 "state" := VStr "skipped" ]})
  ∧ (∀ instance changed vd' w',
       AssetAccountBulkSerializer.perform_create vd handle w
         = ((Ok (instance, changed, "updated"), vd'), w') →
       ∃ ori, found = Some ori
              ∧ dict_get ori "secret" ≠ dict_get vd "secret").
Proof.
  intros Hl handle found. split_and!.
  - revert Hl. unfold AssetAccountBulkSerializer.get_filter_lookup, dict_getitem,
      dict_get.
    destruct (vd !! "username"); [|done].
    destruct (vd !! "secret_type"); [|done].
    destruct (vd !! "asset"); [|done]. by intros [= <-].
  - intros ori Hori Hsecret. split; [|done].
    apply (perform_create_no_retry handle vd lookup w); [done| |done].
    by apply _handle_update_create_skipped.
  - intros instance changed vd' w'.
    unfold AssetAccountBulkSerializer.perform_create. rewrite Hl.
    destruct (handle vd lookup w) as [[r|e] w1] eqn:E1.
    + intros [= -> <- <-].
      apply _handle_update_create_updated in E1 as (ori & ? & ? & _). eauto.
    + assert (Ha : accounts w1 = accounts w)
        by (by eapply _handle_update_create_raise_accounts).
      destruct e; try done.
      destruct (AssetAccountBulkSerializer.get_uniq_name vd w1)
        as [[name|e] w2] eqn:E2; [|done].
      apply get_uniq_name_accounts in E2.
      destruct (handle _ lookup w2) as [r3 w3] eqn:E3.
      intros [= -> <- <-].
      apply _handle_update_create_updated in E3 as (ori & Hori & Hs & _).
      exists ori. unfold found. rewrite <- Ha, <- E2. split; [done|].
      unfold dict_get in *. by rewrite lookup_insert_ne in Hs.
Qed.

Lemma update_policy_skips_unchanged_secret_witness :
  let vd : dict :=
    <["asset" := VAsset "A"]> (<["secret" := VStr "old"]>
      (<["name" := VStr "root"]> (delete "on_invalid" (candidate "update")))) in
  let lookup : dict :=
    {[ "username" := VStr "root"; "secret_type" := VStr "password";
       "asset" := VAsset "A" ]} in
  let w := w_root_on_A in
  let handle := AssetAccountBulkSerializer.get_create_handler (VStr "update") in
  let found :=
    head (filter (λ row, Account.row_matches lookup row = true) (accounts w)) in
  lookup = {[ "username" := dict_get vd "username";
              "secret_type" := dict_get vd "secret_type";
              "asset" := dict_get vd "asset" ]}
  ∧ (∀ ori,
       found = Some ori →
       dict_get ori "secret" = dict_get vd "secret" →
       AssetAccountBulkSerializer.perform_create vd handle w
         = ((Ok (ori, false, "skipped"), vd), w)
       ∧ AssetAccountBulkSerializer.result_entry (Ok (ori, false, "skipped"))
         = Ok {[ "changed" := VBool false; "instance" := dict_get ori "id";
                 "state" := VStr "skipped" ]})
  ∧ (∀ instance changed vd' w',
       AssetAccountBulkSerializer.perform_create vd handle w
         = ((Ok (instance, changed, "updated"), vd'), w') →
       ∃ ori, found = Some ori
              ∧ dict_get ori "secret" ≠ dict_get vd "secret").
Proof.
  intros vd lookup w.
  apply (update_policy_skips_unchanged_secret vd lookup w).
  vm_compute. reflexivity.
Defined.

(** Under [update] an equal secret gives [skipped], another secret
    [updated]. *)
Example update_policy_on_existing_account :
  let run secret :=
    AssetAccountBulkSerializer.perform_bulk_create ["A"]
      (<["secret" := VStr secret]> (candidate "update")) w_root_on_A in
  (λ r, (state_of r, dict_get r "changed")) <$> returned_results (run "old").1
    = [(VStr "skipped", VBool false)]
  ∧ accounts (run "old").2 = accounts w_root_on_A
  ∧ (λ r, (state_of r, dict_get r "changed")) <$> returned_results (run "new").1
    = [(VStr "updated", VBool true)].
Proof. split_and!; vm_compute; reflexivity. Qed.

(** ** Reconciliation of a single account *)

Section do_create_facts.
Import AccountCreateUpdateSerializerMixin.

Lemma row_matches_singleton k v row :
  Account.row_matches ({[ k := v ]} : dict) row = true ↔ dict_get row k = v.
Proof.
  unfold Account.row_matches. rewrite bool_decide_eq_true.
  rewrite map_Forall_singleton. done.
Qed.

Lemma row_matches_pair k1 v1 k2 v2 row :
  k1 ≠ k2 →
  Account.row_matches ({[ k1 := v1; k2 := v2 ]} : dict) row = true
  ↔ dict_get row k1 = v1 ∧ dict_get row k2 = v2.
Proof.
  intros Hne. unfold Account.row_matches. rewrite bool_decide_eq_true.
  rewrite map_Forall_insert by (by rewrite lookup_singleton_ne).
  by rewrite map_Forall_singleton.
Qed.





Lemma save_Ok_elem_of row w w' :
  Account.save row w = (Ok (), w') → row ∈ accounts w'.
Proof.
  unfold Account.save. case_match; [done|].
  case_match eqn:Hex; intros [= <-]; cbn [accounts set_accounts].
  - apply existsb_exists in Hex as (r & Hr & Heq).
    apply list_elem_of_fmap. exists r. rewrite Heq.
    split; [done|]. by apply list_elem_of_In.
  - set_solver.
Qed.


End do_create_facts.



(** The four outcomes on the account [root] of asset A. *)
Example do_create_outcomes :
  let outcome vd w :=
    match (AccountCreateUpdateSerializerMixin.do_create vd w).1 with
    | Ok (instance, stat) => inl (dict_get instance "name", dict_get instance "secret", stat)
    | Raise e => inr e
    end in
  outcome (payload_on_A (Some "web") (Some "www") "error") w_root_on_A
    = inl (VStr "web", VStr "new", "created")
  ∧ outcome (payload_on_A (Some "root") (Some "www") "skip") w_root_on_A
    = inl (VStr "root", VStr "old", "skipped")
  ∧ outcome (payload_on_A (Some "web") (Some "root") "update") w_root_on_A
    = inl (VStr "web", VStr "new", "updated")
  ∧ outcome (payload_on_A (Some "root") (Some "root") "error") w_root_on_A
    = inr (ValidationError ["Account already exists"]).
Proof. split_and!; vm_compute; reflexivity. Qed.


(** ** Update of a single account *)

Section update_facts.
Import AccountCreateUpdateSerializerMixin.

Lemma push_account_if_need_accounts instance push_now params stat w r w' :
  push_account_if_need instance push_now params stat w = (r, w') →
  r = Ok () ∧ accounts w' = accounts w.
Proof.
  unfold push_account_if_need, push_accounts_to_assets_task_delay, ret.
  case_match; by intros [= <- <-].
Qed.
End update_facts.

(** C9: an update that returns leaves the username of the account as it
    was, whatever username the payload carries, and sets [source_id] to
    [None]; the account returned is the one stored. *)
Theorem update_keeps_username_resets_source_id
    (instance validated_data : dict) (w w' : world) (instance' : dict) :
  AccountCreateUpdateSerializerMixin.update instance validated_data w
    = (Ok instance', w') →
  dict_get instance' "username" = dict_get instance "username"
  ∧ dict_get instance' "source_id" = VNone
  ∧ instance' !! "source_id" = Some VNone
  ∧ instance' ∈ accounts w'.
Proof.
  unfold AccountCreateUpdateSerializerMixin.update,
    AccountCreateUpdateSerializerMixin.ModelSerializer_update.
  rewrite !bind_unfold.
  set (vd := <["source_id" := VNone]> _).
  destruct (Account.save (vd ∪ instance) w) as [[[]|e] w1] eqn:Hs; [|done].
  cbn [ret]. rewrite bind_unfold.
  match goal with
  | |- context [AccountCreateUpdateSerializerMixin.push_account_if_need
                  ?a ?b ?c ?d ?w0] =>
      destruct (AccountCreateUpdateSerializerMixin.push_account_if_need a b c d w0)
        as [r2 w2] eqn:Hp
  end.
  apply push_account_if_need_accounts in Hp as [-> Ha].
  intros [= <- <-].
  assert (Hsrc : (vd ∪ instance) !! "source_id" = Some VNone).
  { apply lookup_union_Some_l. unfold vd. by rewrite lookup_insert_eq. }
  split_and!.
  - unfold dict_get. rewrite lookup_union_r; [done|].
    unfold vd. rewrite lookup_insert_ne by done.
    rewrite !lookup_delete_ne by done. by rewrite lookup_delete_eq.
  - unfold dict_get. by rewrite Hsrc.
  - done.
  - rewrite Ha. by eapply save_Ok_elem_of.
Qed.

Lemma update_keeps_username_resets_source_id_witness :
  let instance := root_from_template in
  let validated_data : dict :=
    {[ "username" := VStr "admin"; "secret" := VStr "new";
       "source_id" := VStr "tpl-2"; "push_now" := VBool true ]} in
  let instance' : dict :=
    <["source_id" := VNone]> (<["secret" := VStr "new"]> instance) in
  dict_get instance' "username" = dict_get instance "username"
  ∧ dict_get instance' "source_id" = VNone
  ∧ instance' !! "source_id" = Some VNone
  ∧ instance' ∈ accounts
      (AccountCreateUpdateSerializerMixin.update instance validated_data
         (sample_world [instance])).2.
Proof.
  intros instance validated_data instance'.
  apply (update_keeps_username_resets_source_id instance validated_data
           (sample_world [instance])).
  vm_compute. reflexivity.
Defined.

(** ** Template values *)

Section template_facts.
Import AccountCreateUpdateSerializerMixin.

Lemma template_attrs_loop (attrs0 : dict) (t : dict) (names : list string) name :
  foldl (λ attrs name,
           let value := dict_get t name in
           if decide (value = VNone) then attrs
           else <[name := value]> attrs) attrs0 names !! name
  = if decide (name ∈ names ∧ dict_get t name ≠ VNone)
    then Some (dict_get t name) else attrs0 !! name.
Proof.
  revert attrs0. induction names as [|n names IH]; intros attrs0; cbn [foldl].
  - rewrite decide_False; [done|]. intros [H _]. by apply elem_of_nil in H.
  - rewrite IH. cbn zeta.
    destruct (decide (dict_get t n = VNone)) as [Hnone|Hsome].
    + apply decide_ext. rewrite elem_of_cons.
      split; [naive_solver|]. intros [[->|Hin] Hv]; [done|by split].
    + destruct (decide (name ∈ names ∧ dict_get t name ≠ VNone)) as [[Hin Hv]|Hn].
      * rewrite decide_True; [done|]. split; [by apply elem_of_cons; right|done].
      * destruct (decide (name = n)) as [Heq|Hne].
        -- subst name. rewrite lookup_insert_eq. rewrite decide_True; [done|].
           split; [by apply elem_of_cons; left|done].
        -- rewrite lookup_insert_ne by done. rewrite decide_False; [done|].
           rewrite elem_of_cons. naive_solver.
Qed.

Lemma template_attrs_lookup t name :
  template_attrs t !! name
  = if decide (name ∈ field_names t ∧ dict_get (tpl_attrs t) name ≠ VNone)
    then Some (dict_get (tpl_attrs t) name) else None.
Proof. unfold template_attrs. by rewrite template_attrs_loop, lookup_empty. Qed.
End template_facts.

(** C2, as the code has it: the values of the template are written over
    the request data. Every field of the template that is copied (a model
    field outside the ignored ones whose value is not [None]) has the
    template's value in the merged data, whatever the request held under
    that name; the other keys of the request are kept. *)
Theorem from_template_overrides_request
    (w : world) (d d' : AccountCreateUpdateSerializerMixin.InitialData)
    (t : AccountTemplate) :
  AccountCreateUpdateSerializerMixin.from_template_if_need w None
    (AccountCreateUpdateSerializerMixin.PDict d)
    = Ok (AccountCreateUpdateSerializerMixin.PDict d', Some t) →
  ∀ name, name ≠ "template" →
    (name ∈ tpl_meta_fields t →
     name ∉ AccountCreateUpdateSerializerMixin.ignore_fields →
     dict_get (tpl_attrs t) name ≠ VNone →
     AccountCreateUpdateSerializerMixin.fields d' !! name
       = Some (dict_get (tpl_attrs t) name))
    ∧ (name ∉ tpl_meta_fields t
       ∨ name ∈ AccountCreateUpdateSerializerMixin.ignore_fields
       ∨ dict_get (tpl_attrs t) name = VNone →
       AccountCreateUpdateSerializerMixin.fields d' !! name
         = AccountCreateUpdateSerializerMixin.fields d !! name).
Proof.
  unfold AccountCreateUpdateSerializerMixin.from_template_if_need.
  destruct (negb _); [done|].
  destruct (match AccountCreateUpdateSerializerMixin.template d with
            | Some _ => _ | None => _ end) as [t0|e]; [|done].
  cbn [mbind result_bind]. intros [= <- <-] name Hname.
  cbn [AccountCreateUpdateSerializerMixin.fields].
  assert (Hin : name ∈ AccountCreateUpdateSerializerMixin.field_names t0
                ↔ name ∈ tpl_meta_fields t0
                  ∧ name ∉ AccountCreateUpdateSerializerMixin.ignore_fields).
  { unfold AccountCreateUpdateSerializerMixin.field_names.
    rewrite list_elem_of_filter. naive_solver. }
  split.
  - intros H1 H2 H3. apply lookup_union_Some_l.
    rewrite lookup_delete_ne by done. rewrite template_attrs_lookup.
    rewrite decide_True; [done|]. by rewrite Hin.
  - intros H. apply lookup_union_r.
    rewrite lookup_delete_ne by done. rewrite template_attrs_lookup.
    rewrite decide_False; [done|]. rewrite Hin. naive_solver.
Qed.

Lemma from_template_overrides_request_witness :
  AccountCreateUpdateSerializerMixin.fields alice_merged !! "username"
    = Some (dict_get (tpl_attrs root_template) "username")
  ∧ AccountCreateUpdateSerializerMixin.fields alice_merged !! "id"
    = AccountCreateUpdateSerializerMixin.fields alice_request !! "id"
  ∧ AccountCreateUpdateSerializerMixin.fields alice_merged !! "asset"
    = AccountCreateUpdateSerializerMixin.fields alice_request !! "asset".
Proof.
  assert (Hcall :
    AccountCreateUpdateSerializerMixin.from_template_if_need w_with_template
      None (AccountCreateUpdateSerializerMixin.PDict alice_request)
    = Ok (AccountCreateUpdateSerializerMixin.PDict alice_merged,
          Some root_template)) by (vm_compute; reflexivity).
  pose proof (from_template_overrides_request w_with_template alice_request
                alice_merged root_template Hcall) as H.
  split_and!.
  - apply (H "username"); [done| | |vm_compute; discriminate];
      unfold AccountCreateUpdateSerializerMixin.ignore_fields; set_solver.
  - apply (H "id"); [done|]. right. left.
    unfold AccountCreateUpdateSerializerMixin.ignore_fields. set_solver.
  - apply (H "asset"); [done|]. left. cbn. set_solver.
Defined.

(** C2, as stated, fails: the caller asks for the username [alice], the
    template holds [root], and the merged data holds [root]. *)
Lemma template_username_replaces_explicit_username :
  AccountCreateUpdateSerializerMixin.from_template_if_need w_with_template None
    (AccountCreateUpdateSerializerMixin.PDict alice_request)
    = Ok (AccountCreateUpdateSerializerMixin.PDict alice_merged,
          Some root_template)
  ∧ AccountCreateUpdateSerializerMixin.fields alice_request !! "username"
    = Some (VStr "alice")
  ∧ AccountCreateUpdateSerializerMixin.template_attrs root_template !! "username"
    = Some (VStr "root")
  ∧ AccountCreateUpdateSerializerMixin.fields alice_merged !! "username"
    = Some (VStr "root")
  ∧ AccountCreateUpdateSerializerMixin.fields alice_merged !! "username"
    ≠ AccountCreateUpdateSerializerMixin.fields alice_request !! "username".
Proof. split_and!; try (vm_compute; reflexivity). vm_compute. discriminate. Qed.

(** ** Unique names *)

Lemma string_append_length (s1 s2 : string) :
  String.length (s1 +:+ s2) = (String.length s1 + String.length s2)%nat.
Proof.
  induction s1 as [|c s1 IH]; [done|].
  change (S (String.length (s1 +:+ s2))
          = S (String.length s1 + String.length s2)). by rewrite IH.
Qed.

Lemma first4_length (s : string) :
  (4 ≤ String.length s)%nat → String.length (first4 s) = 4%nat.
Proof.
  unfold first4.
  destruct s as [|c1 [|c2 [|c3 [|c4 s]]]]; cbn; try lia.
  intros _. by destruct s.
Qed.

Lemma suffixed_name_ne (s sep hex : string) :
  sep ≠ "" → VStr ((s +:+ sep) +:+ hex) ≠ VStr s.
Proof.
  intros Hsep [= Heq].
  apply (f_equal String.length) in Heq.
  rewrite !string_append_length in Heq.
  destruct sep; [done|]. cbn in Heq. lia.
Qed.

(** C3, as the code has it. A name that is set is kept, without any look
    at the store. Without a name the username is the fallback; when the
    serializer updates an instance of that name nothing is assigned;
    otherwise the fallback becomes the name, extended, when an account of
    the asset bears it, by an underscore and the first four characters of
    a fresh uuid, which differs from the name of every such account. *)
Theorem set_uniq_name_if_need_spec
    (instance : option dict)
    (d : AccountCreateUpdateSerializerMixin.InitialData)
    (asset : pyval) (w : world) :
  let name := dict_get (AccountCreateUpdateSerializerMixin.fields d) "name" in
  let fallback :=
    dict_get (AccountCreateUpdateSerializerMixin.fields d) "username" in
  let call :=
    AccountCreateUpdateSerializerMixin.set_uniq_name_if_need instance d asset w in
  (name ≠ VNone → call = (Ok d, w))
  ∧ (name = VNone →
     ((∃ inst, instance = Some inst ∧ dict_get inst "name" = fallback) →
      call = (Ok d, w))
     ∧ ((∀ inst, instance = Some inst → dict_get inst "name" ≠ fallback) →
        (accounts_named w fallback asset = [] →
         call = (Ok (with_name fallback d), w))
        ∧ (accounts_named w fallback asset ≠ [] →
           ∀ s, fallback = VStr s →
             let hex := entropy w (drawn w) in
             let new := VStr ((s +:+ "_") +:+ first4 hex) in
             call = (Ok (with_name new d), set_drawn (S (drawn w)) w)
             ∧ ((4 ≤ String.length hex)%nat →
                String.length ((s +:+ "_") +:+ first4 hex)
                = (String.length s + 5)%nat)
             ∧ new ≠ fallback
             ∧ ∀ row, row ∈ accounts_named w fallback asset →
                 dict_get row "name" ≠ new))).
Proof.
  intros name fallback call. unfold call, name, fallback.
  unfold AccountCreateUpdateSerializerMixin.set_uniq_name_if_need.
  split.
  - intros Hname. by destruct (dict_get _ "name").
  - intros ->. split.
    + intros (inst & -> & Hinst). by rewrite bool_decide_eq_true_2.
    + intros Hinst.
      assert (Hsame : match instance with
                      | Some inst =>
                          bool_decide (dict_get inst "name"
                            = dict_get (AccountCreateUpdateSerializerMixin.fields d)
                                "username")
                      | None => false
                      end = false).
      { destruct instance as [inst|]; [|done].
        apply bool_decide_eq_false_2. by apply Hinst. }
      rewrite Hsame.
      unfold Account.objects_filter. rewrite bind_unfold.
      fold (accounts_named w
              (dict_get (AccountCreateUpdateSerializerMixin.fields d) "username")
              asset).
      split.
      * intros ->. done.
      * intros Hne s Hs.
        destruct (accounts_named w _ asset) as [|row rows] eqn:Hrows; [done|].
        rewrite Hs. cbn zeta. split_and!.
        -- done.
        -- intros Hlen. rewrite !string_append_length, first4_length by done.
           cbn. lia.
        -- by apply suffixed_name_ne.
        -- intros r Hr. rewrite <- Hrows in Hr.
           unfold accounts_named in Hr.
           apply list_elem_of_filter in Hr as [Hr _].
           apply row_matches_pair in Hr as [Hr _]; [|done].
           rewrite Hr, Hs. apply not_eq_sym. by apply suffixed_name_ne.
Qed.

Lemma set_uniq_name_if_need_spec_witness :
  AccountCreateUpdateSerializerMixin.set_uniq_name_if_need
    None root_request (VStr "A") w_root_on_A
  = (Ok (with_name (VStr "root_c0ff") root_request),
     set_drawn 1 w_root_on_A)
  ∧ VStr "root_c0ff" ≠ VStr "root".
Proof.
  destruct (set_uniq_name_if_need_spec None root_request (VStr "A")
              w_root_on_A) as [_ Hnone].
  destruct (Hnone eq_refl) as [_ Hcreate].
  destruct Hcreate as [_ Htaken]; [intros inst; discriminate|].
  destruct (Htaken ltac:(vm_compute; discriminate) "root" eq_refl)
    as (Hcall & _ & Hne & _).
  split; [exact Hcall|exact Hne].
Defined.

(** C3, as stated, fails when the serializer updates an account: the
    request has no name, the account [root] exists on the asset, and the
    request is left without a name (nothing is appended, no uuid is
    drawn). *)
Lemma update_of_account_named_as_fallback_is_not_suffixed :
  let inst := account_on "A" "root" "root" "old" in
  dict_get (AccountCreateUpdateSerializerMixin.fields root_request) "name" = VNone
  ∧ accounts_named w_root_on_A (VStr "root") (VStr "A") = [inst]
  ∧ AccountCreateUpdateSerializerMixin.set_uniq_name_if_need
      (Some inst) root_request (VStr "A") w_root_on_A
    = (Ok root_request, w_root_on_A)
  ∧ AccountCreateUpdateSerializerMixin.fields root_request !! "name" = None.
Proof. split_and!; vm_compute; reflexivity. Qed.


Lemma string_append_assoc (s1 s2 s3 : string) :
  (s1 +:+ s2) +:+ s3 = s1 +:+ (s2 +:+ s3).
Proof.
  induction s1 as [|c s1 IH]; [done|].
  change (String c ((s1 +:+ s2) +:+ s3) = String c (s1 +:+ (s2 +:+ s3))).
  by rewrite IH.
Qed.

Section asset_validator_facts.
Import AssetSerializer.

Lemma check_ports_one_Ok p : check_ports [p] = Ok () ↔ port_in_range p.
Proof.
  unfold port_in_range, port_value. cbn [check_ports].
  unfold dict_get_default. destruct (p !! "port") as [[|b|z|s|a]|];
    cbn [from_option id py_lt py_gt mbind result_bind].
  - split; [done|]. by intros (z & ? & _).
  - destruct b; cbn.
    + split; [|done]. intros _. exists 1. split; [done|lia].
    + destruct (py_add_str _ _); cbn; (split; [done|]);
        intros (z & [= <-] & ?); lia.
  - destruct (z <? 1) eqn:Hlo; cbn [mbind result_bind].
    + destruct (py_add_str _ _); cbn; (split; [done|]);
        intros (z' & [= <-] & ?); lia.
    + destruct (z >? 65535) eqn:Hhi; cbn [mbind result_bind].
      * destruct (py_add_str _ _); cbn; (split; [done|]);
          intros (z' & [= <-] & ?); lia.
      * split; [|done]. intros _. exists z. split; [done|lia].
  - split; [done|]. by intros (z & ? & _).
  - split; [done|]. by intros (z & ? & _).
  - destruct (py_add_str _ _); cbn; (split; [done|]);
      intros (z' & [= <-] & ?); lia.
Qed.

Lemma check_ports_in_range X :
  check_ports X = Ok () ↔ Forall port_in_range X.
Proof.
  rewrite check_ports_Forall. apply Forall_proper; [|done].
  intros p. apply check_ports_one_Ok.
Qed.

Lemma protocols_data_map_total X : ∀ m,
  Forall (λ p, is_Some (p !! "name")) X →
  ∃ m', protocols_data_map X m = Ok m'.
Proof.
  induction X as [|p X IH]; intros m HX; cbn [protocols_data_map].
  - by eexists.
  - apply Forall_cons in HX as [[n Hn] HX]. unfold dict_getitem.
    rewrite Hn. cbn [mbind result_bind]. by apply IH.
Qed.

Lemma protocols_data_map_KeyError X : ∀ m,
  Exists (λ p, p !! "name" = None) X →
  protocols_data_map X m = Raise (KeyError "name").
Proof.
  induction X as [|p X IH]; intros m HX; cbn [protocols_data_map].
  - by apply Exists_nil in HX.
  - unfold dict_getitem. destruct (p !! "name") as [n|] eqn:Hn; [|done].
    cbn [mbind result_bind]. apply IH.
    apply Exists_cons in HX as [HX|HX]; [congruence|done].
Qed.

Lemma check_ports_first_bad good p rest n z :
  Forall port_in_range good →
  p !! "name" = Some (VStr n) →
  port_value p = Some z → (z < 1 ∨ 65535 < z) →
  check_ports (good ++ p :: rest)
  = Raise (ValidationError [n +:+ ": " +:+ port_out_of_range]).
Proof.
  intros Hgood Hn Hz Hbad.
  induction good as [|q good IH].
  - cbn [app check_ports]. unfold port_value, dict_get_default, dict_get in *.
    rewrite Hn. cbn [from_option id py_add_str].
    destruct (p !! "port") as [[|b|z'|s|a]|]; simplify_eq;
      cbn [from_option id py_lt py_gt mbind result_bind].
    + destruct b; cbn in *; [lia|]. by rewrite string_append_assoc.
    + destruct (z <? 1) eqn:Hlo; cbn [mbind result_bind].
      * by rewrite string_append_assoc.
      * destruct (z >? 65535) eqn:Hhi; cbn [mbind result_bind]; [|lia].
        by rewrite string_append_assoc.
    + cbn. by rewrite string_append_assoc.
  - apply Forall_cons in Hgood as [Hq Hgood].
    rewrite <- app_comm_cons, check_ports_cons.
    apply check_ports_one_Ok in Hq. rewrite Hq. cbn [mbind result_bind].
    by apply IH.
Qed.

Lemma od_mem_names X m n :
  protocols_data_map X [] = Ok m →
  od_mem (VStr n) m = false ↔ VStr n ∉ entry_names X.
Proof.
  intros (_ & _ & Hkeys & _)%protocols_data_map_dedup.
  by rewrite od_mem_false, Hkeys, first_seen_elem_of.
Qed.

Lemma validate_protocols_unfold ps X m :
  protocols_data_map X [] = Ok m →
  check_ports X = Ok () →
  validate_protocols (Some ps) X =
    match filter (λ n, VStr n ∉ entry_names X) (required_names ps) with
    | [] => Ok (od_values m)
    | missing =>
        Raise (ValidationErrorDict "protocols"
                 ("Protocol is required: " +:+ String.concat ", " missing))
    end.
Proof.
  intros Hm Hports. unfold validate_protocols.
  rewrite Hm, Hports. cbn [mbind result_bind _get_protocols_required_default].
  assert (Heq :
    pp_name <$> filter (λ p, od_mem (VStr (pp_name p)) m = false)
                  (filter (λ p, (pp_required p || pp_primary p) = true) ps)
    = filter (λ n, VStr n ∉ entry_names X) (required_names ps)).
  { unfold required_names. clear Hports.
    induction ps as [|p ps IH]; [done|].
    rewrite !filter_cons.
    destruct (decide ((pp_required p || pp_primary p) = true)) as [Hr|Hr].
    - rewrite decide_True by (by apply orb_true_iff).
      rewrite filter_cons, fmap_cons, filter_cons.
      destruct (decide (od_mem (VStr (pp_name p)) m = false)) as [Hmem|Hmem].
      + rewrite decide_True by (by apply (od_mem_names X m)).
        rewrite fmap_cons. by f_equal.
      + rewrite decide_False; [done|]. by rewrite <- (od_mem_names X m).
    - rewrite decide_False; [done|]. by rewrite <- orb_true_iff. }
  rewrite Heq. by destruct (filter _ (required_names ps)).
Qed.

End asset_validator_facts.

(** X1: a successful validation means that every input entry, also one
    that a later entry of the same name replaces, has an integer port
    between 1 and 65535; an entry without port does not pass. *)
Theorem validate_protocols_checks_every_port
    (asset_platform : option (list PlatformProtocol)) (X Y : list dict) :
  AssetSerializer.validate_protocols asset_platform X = Ok Y →
  Forall port_in_range X ∧ Forall (λ p, is_Some (p !! "port")) X.
Proof.
  intros (m & _ & Hports & _)%validate_protocols_Ok.
  apply check_ports_in_range in Hports. split; [done|].
  eapply Forall_impl; [exact Hports|]. intros p (z & Hz & Hrange).
  unfold port_value in Hz. destruct (p !! "port"); [done|].
  simplify_eq. lia.
Qed.

Lemma validate_protocols_checks_every_port_witness :
  Forall port_in_range [rdp_3389; rdp_3390; ssh_22]
  ∧ Forall (λ p : dict, is_Some (p !! "port")) [rdp_3389; rdp_3390; ssh_22].
Proof.
  apply (validate_protocols_checks_every_port (Some [ssh_required])
           [rdp_3389; rdp_3390; ssh_22] [rdp_3390; ssh_22]).
  vm_compute. reflexivity.
Defined.

(** X2: when every entry has a name, the first entry in input order whose
    port is out of range is the one the error names, whatever the platform
    is and also when no platform is found. *)
Theorem validate_protocols_reports_first_bad_port
    (asset_platform : option (list PlatformProtocol))
    (good rest : list dict) (p : dict) (n : string) (z : Z) :
  Forall (λ q, is_Some (q !! "name")) (good ++ p :: rest) →
  Forall port_in_range good →
  p !! "name" = Some (VStr n) →
  port_value p = Some z → (z < 1 ∨ 65535 < z) →
  AssetSerializer.validate_protocols asset_platform (good ++ p :: rest)
  = Raise (ValidationError [n +:+ ": port out of range (1-65535)"]).
Proof.
  intros Hnames Hgood Hn Hz Hbad.
  unfold AssetSerializer.validate_protocols.
  destruct (protocols_data_map_total _ [] Hnames) as [m ->].
  cbn [mbind result_bind].
  by rewrite (check_ports_first_bad good p rest n z).
Qed.

Lemma validate_protocols_reports_first_bad_port_witness :
  AssetSerializer.validate_protocols None
    ([ssh_22] ++ {[ "name" := VStr "rdp" ]} :: [<["port" := VInt 70000]> ssh_22])
  = Raise (ValidationError ["rdp" +:+ ": port out of range (1-65535)"]).
Proof.
  apply (validate_protocols_reports_first_bad_port None
           [ssh_22] [<["port" := VInt 70000]> ssh_22]
           {[ "name" := VStr "rdp" ]} "rdp" 0).
  - repeat constructor; vm_compute; eauto.
  - repeat constructor. exists 22. split; [reflexivity|lia].
  - reflexivity.
  - reflexivity.
  - lia.
Defined.

(** X3: an entry without the key [name] makes the validation raise
    [KeyError('name')], before any port or the platform is looked at. *)
Theorem validate_protocols_missing_name
    (asset_platform : option (list PlatformProtocol)) (X : list dict) :
  Exists (λ p, p !! "name" = None) X →
  AssetSerializer.validate_protocols asset_platform X = Raise (KeyError "name").
Proof.
  intros HX. unfold AssetSerializer.validate_protocols.
  by rewrite protocols_data_map_KeyError.
Qed.

Lemma validate_protocols_missing_name_witness :
  AssetSerializer.validate_protocols None
    [ssh_22; {[ "port" := VInt 0 ]}] = Raise (KeyError "name").
Proof.
  apply (validate_protocols_missing_name None [ssh_22; {[ "port" := VInt 0 ]}]).
  apply Exists_cons_tl, Exists_cons_hd. reflexivity.
Defined.

(** X4: with named entries whose ports are in range and a platform, the
    validation succeeds exactly when every required or primary protocol of
    the platform is among the entry names; otherwise the error lists all
    the missing names at once, in the order of the platform. *)
Theorem validate_protocols_required
    (platform_protocols : list PlatformProtocol) (X : list dict) :
  Forall (λ p, is_Some (p !! "name")) X →
  Forall port_in_range X →
  let missing :=
    filter (λ n, VStr n ∉ entry_names X) (required_names platform_protocols) in
  match AssetSerializer.validate_protocols (Some platform_protocols) X with
  | Ok Y => missing = [] ∧ entry_names Y = first_seen (entry_names X)
  | Raise e =>
      missing ≠ []
      ∧ e = ValidationErrorDict "protocols"
              ("Protocol is required: " +:+ String.concat ", " missing)
  end.
Proof.
  intros Hnames Hports missing.
  destruct (protocols_data_map_total _ [] Hnames) as [m Hm].
  apply check_ports_in_range in Hports.
  rewrite (validate_protocols_unfold _ _ m Hm Hports). fold missing.
  destruct missing as [|n missing]; [|done].
  split; [done|].
  apply protocols_data_map_dedup in Hm as (_ & Htag & Hkeys & _).
  rewrite <- Hkeys. unfold entry_names. apply (inj (fmap Some)).
  rewrite <- list_fmap_compose.
  rewrite <- (tagged_values_keys (λ p, p !! "name") m Htag).
  apply list_fmap_ext. intros i p Hp. cbn. unfold dict_get.
  apply list_elem_of_lookup_2, od_values_elem_of in Hp as [k Hk].
  by rewrite (Htag k p Hk).
Qed.

Lemma validate_protocols_required_witness :
  match AssetSerializer.validate_protocols (Some [ssh_required]) [rdp_3389] with
  | Ok Y => filter (λ n, VStr n ∉ entry_names [rdp_3389])
              (required_names [ssh_required]) = []
            ∧ entry_names Y = first_seen (entry_names [rdp_3389])
  | Raise e =>
      filter (λ n, VStr n ∉ entry_names [rdp_3389])
        (required_names [ssh_required]) ≠ []
      ∧ e = ValidationErrorDict "protocols"
              ("Protocol is required: " +:+ String.concat ", "
                 (filter (λ n, VStr n ∉ entry_names [rdp_3389])
                    (required_names [ssh_required])))
  end.
Proof.
  apply (validate_protocols_required [ssh_required] [rdp_3389]).
  - repeat constructor; vm_compute; eauto.
  - repeat constructor. exists 3389. split; [reflexivity|lia].
Defined.

Lemma od_values_entry_names X m :
  AssetSerializer.protocols_data_map X [] = Ok m →
  entry_names (od_values m) = first_seen (entry_names X).
Proof.
  intros (_ & Htag & Hkeys & _)%protocols_data_map_dedup.
  rewrite <- Hkeys. unfold entry_names. apply (inj (fmap Some)).
  rewrite <- list_fmap_compose.
  rewrite <- (tagged_values_keys (λ p, p !! "name") m Htag).
  apply list_fmap_ext. intros i p Hp. cbn. unfold dict_get.
  apply list_elem_of_lookup_2, od_values_elem_of in Hp as [k Hk].
  by rewrite (Htag k p Hk).
Qed.

(** X5: the entries that [_set_protocols_default] writes when the request
    names no protocols are accepted by [validate_protocols] whenever the
    ports of the platform's required, primary and default protocols are in
    range: the required-protocol check cannot fail on them, and the
    validated list holds each of these protocols once, the required ones
    first. *)
Theorem set_protocols_default_validates
    (platform_protocols : list PlatformProtocol) :
  Forall (λ p, (pp_required p || pp_primary p || pp_default p) = true →
               1 ≤ pp_port p ≤ 65535) platform_protocols →
  ∃ protocols_data Y,
    AssetSerializer._set_protocols_default (Some platform_protocols) None
    = Ok (Some protocols_data)
    ∧ AssetSerializer.validate_protocols (Some platform_protocols) protocols_data
      = Ok Y
    ∧ entry_names Y =
        first_seen
          ((λ p, VStr (pp_name p)) <$>
             (filter (λ p, pp_required p = true ∨ pp_primary p = true)
                platform_protocols
              ++ filter (λ p, pp_default p = true) platform_protocols)).
Proof.
  intros Hports.
  set (req := filter (λ p, pp_required p = true ∨ pp_primary p = true)
                platform_protocols).
  set (dfl := filter (λ p, pp_default p = true) platform_protocols).
  assert (Hreq : filter (λ p, (pp_required p || pp_primary p) = true)
                   platform_protocols = req).
  { apply list_filter_iff. intros p. by rewrite orb_true_iff. }
  set (D := default_entry <$> (req ++ dfl)).
  assert (Hnames : entry_names D = (λ p, VStr (pp_name p)) <$> (req ++ dfl)).
  { unfold D, entry_names. rewrite <- list_fmap_compose.
    apply list_fmap_ext. intros i p _. done. }
  assert (Hnamed : Forall (λ p : dict, is_Some (p !! "name")) D).
  { apply Forall_fmap, Forall_forall. intros p _. by eexists. }
  assert (Hrange : Forall port_in_range D).
  { apply Forall_fmap, Forall_forall. intros p Hp.
    exists (pp_port p). split; [done|].
    rewrite Forall_forall in Hports. apply Hports.
    - apply elem_of_app in Hp as [Hp|Hp]; apply list_elem_of_filter in Hp; apply Hp.
    - apply elem_of_app in Hp as [Hp|Hp];
        apply list_elem_of_filter in Hp as [Hp _].
      + destruct Hp as [-> | ->]; [done|]. by rewrite orb_true_r.
      + rewrite Hp. by rewrite orb_true_r. }
  destruct (protocols_data_map_total _ [] Hnamed) as [m Hm].
  exists D, (od_values m). split_and!.
  - unfold AssetSerializer._set_protocols_default.
    cbn [mbind result_bind AssetSerializer._get_protocols_required_default].
    by rewrite Hreq.
  - apply check_ports_in_range in Hrange.
    rewrite (validate_protocols_unfold _ _ m Hm Hrange).
    assert (Hnone : filter (λ n, VStr n ∉ entry_names D)
                      (required_names platform_protocols) = []).
    { apply elem_of_nil_inv. intros n [Hn Hin]%list_elem_of_filter.
      apply Hn. rewrite Hnames. unfold required_names in Hin. fold req in Hin.
      apply list_elem_of_fmap in Hin as (p & -> & Hp).
      apply list_elem_of_fmap. exists p. split; [done|].
      apply elem_of_app. by left. }
    by rewrite Hnone.
  - by rewrite (od_values_entry_names _ _ Hm), Hnames.
Qed.

Lemma set_protocols_default_validates_witness :
  ∃ protocols_data Y,
    AssetSerializer._set_protocols_default (Some [ssh_required]) None
    = Ok (Some protocols_data)
    ∧ AssetSerializer.validate_protocols (Some [ssh_required]) protocols_data
      = Ok Y
    ∧ entry_names Y =
        first_seen
          ((λ p, VStr (pp_name p)) <$>
             (filter (λ p, pp_required p = true ∨ pp_primary p = true)
                [ssh_required]
              ++ filter (λ p, pp_default p = true) [ssh_required])).
Proof.
  apply (set_protocols_default_validates [ssh_required]).
  repeat constructor; cbn; lia.
Defined.

(** X6: the platform validator rejects the empty list only; what it
    returns passes it again unchanged, and differs from the input in
    nothing but the key [primary]. *)
Theorem platform_validate_protocols_idempotent (protocols : list dict) :
  match PlatformSerializer.validate_protocols protocols with
  | Raise e => protocols = [] ∧ e = ValidationError ["Protocols is required"]
  | Ok out =>
      protocols ≠ []
      ∧ PlatformSerializer.validate_protocols out = Ok out
      ∧ Forall2 (λ p q : dict, ∀ k, k ≠ "primary" → q !! k = p !! k)
          protocols out
  end.
Proof.
  unfold PlatformSerializer.validate_protocols.
  destruct protocols as [|first rest]; [done|].
  destruct (filter _ (first :: rest)) as [|q qs] eqn:Hf.
  - split_and!; [done| |].
    + rewrite filter_cons_True; [done|].
      unfold dict_get. by rewrite lookup_insert_eq.
    + constructor.
      * intros k Hk. by rewrite lookup_insert_ne.
      * apply Forall_Forall2_diag, Forall_forall; by intros.
  - split_and!; [done| |].
    + by rewrite Hf.
    + apply Forall_Forall2_diag, Forall_forall; by intros.
Qed.


Section platform_validate_facts.
Import PlatformSerializer.

Lemma truthy_default d flag :
  truthy (dict_get_default d flag (VBool false)) = truthy (dict_get d flag).
Proof. unfold dict_get_default, dict_get. by destruct (d !! flag). Qed.

(** One flag: Python's [requested and allowed]. *)
Lemma gated_flag (constraints : result Attrs) (get : Attrs → result pyval)
    (requested v : pyval) :
  (if truthy requested then c ← constraints; get c else Ok requested) = Ok v →
  truthy v = true →
  truthy requested = true ∧ ∃ c, constraints = Ok c ∧ get c = Ok v.
Proof.
  destruct (truthy requested) eqn:Hreq.
  - destruct constraints as [c|]; [|done]. cbn [mbind result_bind].
    intros Hget _. eauto.
  - intros [= <-]. congruence.
Qed.

End platform_validate_facts.

(** X7: a platform flag that [validate] returns set was requested and is
    allowed by the constraints of the platform type, for the domain, the
    switch of user and Ansible alike; every other key of the attributes
    and of the automation is returned as it came. *)
Theorem platform_validate_flags_within_constraints
    (constraints : result PlatformSerializer.Attrs)
    (attrs out : PlatformSerializer.Attrs) :
  PlatformSerializer.validate constraints attrs = Ok out →
  (∀ flag, flag ∈ ["domain_enabled"; "su_enabled"] →
     flag_on (PlatformSerializer.fields out) flag →
     flag_on (PlatformSerializer.fields attrs) flag
     ∧ ∃ c, constraints = Ok c ∧ flag_on (PlatformSerializer.fields c) flag)
  ∧ (flag_on (automation_of out) "ansible_enabled" →
     flag_on (automation_of attrs) "ansible_enabled"
     ∧ ∃ c a, constraints = Ok c ∧ PlatformSerializer.automation c = Some a
              ∧ flag_on a "ansible_enabled")
  ∧ (∀ k, k ∉ ["domain_enabled"; "su_enabled"] →
       PlatformSerializer.fields out !! k = PlatformSerializer.fields attrs !! k)
  ∧ is_Some (PlatformSerializer.automation out)
  ∧ (∀ k, k ≠ "ansible_enabled" →
       automation_of out !! k = automation_of attrs !! k).
Proof.
  unfold PlatformSerializer.validate, flag_on, automation_of.
  destruct (if truthy (dict_get_default _ "domain_enabled" _) then _ else _)
    as [domain_enabled|] eqn:Hdomain; [|done].
  cbn [mbind result_bind].
  destruct (if truthy (dict_get_default _ "su_enabled" _) then _ else _)
    as [su_enabled|] eqn:Hsu; [|done].
  cbn [mbind result_bind].
  destruct (if truthy (dict_get_default _ "ansible_enabled" _) then _ else _)
    as [ansible_enabled|] eqn:Hansible; [|done].
  cbn [mbind result_bind]. intros [= <-].
  cbn [PlatformSerializer.fields PlatformSerializer.automation default from_option id].
  split_and!.
  - intros flag Hflag Hon.
    apply elem_of_cons in Hflag as [->|Hflag];
      [|apply list_elem_of_singleton in Hflag as ->];
      unfold dict_get in Hon.
    + rewrite lookup_insert_ne, lookup_insert_eq in Hon by done.
      cbn in Hon.
      apply (gated_flag constraints
               (λ c, Ok (dict_get_default (PlatformSerializer.fields c)
                           "domain_enabled" (VBool false)))) in Hdomain
        as (Hreq & c & -> & [= <-]); [|done].
      rewrite truthy_default in Hreq, Hon. eauto.
    + rewrite lookup_insert_eq in Hon. cbn in Hon.
      apply (gated_flag constraints
               (λ c, Ok (dict_get_default (PlatformSerializer.fields c)
                           "su_enabled" (VBool false)))) in Hsu
        as (Hreq & c & -> & [= <-]); [|done].
      rewrite truthy_default in Hreq, Hon. eauto.
  - unfold dict_get. rewrite lookup_insert_eq. cbn. intros Hon.
    apply (gated_flag constraints
             (λ c, match PlatformSerializer.automation c with
                   | Some a => Ok (dict_get_default a "ansible_enabled" (VBool false))
                   | None => Raise (KeyError "automation")
                   end)) in Hansible as (Hreq & c & -> & Hget); [|done].
    rewrite truthy_default in Hreq. split; [done|].
    destruct (PlatformSerializer.automation c) as [a|] eqn:Ha; [|done].
    injection Hget as <-. rewrite truthy_default in Hon. eauto.
  - intros k Hk. rewrite !lookup_insert_ne; [done| |].
    + intros <-. apply Hk. apply elem_of_cons. by left.
    + intros <-. apply Hk. apply elem_of_cons. right. apply elem_of_cons. by left.
  - by eexists.
  - intros k Hk. by rewrite lookup_insert_ne.
Qed.

Lemma platform_validate_flags_within_constraints_witness :
  let out :=
    {| PlatformSerializer.fields :=
         {[ "name" := VStr "Linux"; "domain_enabled" := VBool true;
            "su_enabled" := VBool false ]};
       PlatformSerializer.automation :=
         Some {[ "ansible_enabled" := VBool false;
                 "ping_enabled" := VBool true ]} |} in
  PlatformSerializer.validate (Ok sample_constraints) sample_attrs = Ok out
  ∧ ¬ flag_on (automation_of out) "ansible_enabled"
  ∧ (∀ flag, flag ∈ ["domain_enabled"; "su_enabled"] →
       flag_on (PlatformSerializer.fields out) flag →
       flag_on (PlatformSerializer.fields sample_attrs) flag
       ∧ ∃ c, Ok sample_constraints = Ok c
              ∧ flag_on (PlatformSerializer.fields c) flag).
Proof.
  intros out.
  assert (Hout : PlatformSerializer.validate (Ok sample_constraints) sample_attrs
                 = Ok out) by (vm_compute; reflexivity).
  split; [exact Hout|]. split; [by vm_compute|].
  apply (platform_validate_flags_within_constraints
           (Ok sample_constraints) sample_attrs out Hout).
Defined.

(** X8: when the request sets none of the three flags, [validate] succeeds
    without reading the constraints at all: also when reading them would
    raise, and with the same result whatever they are. *)
Theorem platform_validate_without_flags (attrs : PlatformSerializer.Attrs) :
  ¬ flag_on (PlatformSerializer.fields attrs) "domain_enabled" →
  ¬ flag_on (PlatformSerializer.fields attrs) "su_enabled" →
  ¬ flag_on (automation_of attrs) "ansible_enabled" →
  ∃ out, ∀ constraints, PlatformSerializer.validate constraints attrs = Ok out.
Proof.
  unfold flag_on, automation_of, PlatformSerializer.validate.
  rewrite <- !truthy_default. intros Hd Hs Ha.
  apply not_true_is_false in Hd, Hs, Ha.
  eexists. intros constraints. rewrite Hd, Hs, Ha.
  cbn [mbind result_bind]. reflexivity.
Qed.

Lemma platform_validate_without_flags_witness :
  ∃ out, ∀ constraints,
    PlatformSerializer.validate constraints plain_attrs = Ok out.
Proof.
  apply (platform_validate_without_flags plain_attrs); by vm_compute.
Defined.

(** X9: [validate] fails only on a requested flag: with the exception that
    reading the constraints raises, or with [KeyError('automation')] when
    Ansible is requested and the constraints have no automation part. *)
Theorem platform_validate_failure
    (constraints : result PlatformSerializer.Attrs)
    (attrs : PlatformSerializer.Attrs) (e : exn) :
  PlatformSerializer.validate constraints attrs = Raise e →
  (constraints = Raise e
   ∧ (flag_on (PlatformSerializer.fields attrs) "domain_enabled"
      ∨ flag_on (PlatformSerializer.fields attrs) "su_enabled"
      ∨ flag_on (automation_of attrs) "ansible_enabled"))
  ∨ (e = KeyError "automation"
     ∧ flag_on (automation_of attrs) "ansible_enabled"
     ∧ ∃ c, constraints = Ok c ∧ PlatformSerializer.automation c = None).
Proof.
  unfold flag_on, automation_of, PlatformSerializer.validate.
  rewrite <- !truthy_default.
  destruct (truthy (dict_get_default _ "domain_enabled" _)) eqn:Hd.
  { destruct constraints as [c|e']; cbn [mbind result_bind].
    - destruct (truthy (dict_get_default _ "su_enabled" _)) eqn:Hs;
        cbn [mbind result_bind];
        (destruct (truthy (dict_get_default _ "ansible_enabled" _)) eqn:Ha;
         cbn [mbind result_bind]; [|done]);
        (destruct (PlatformSerializer.automation c) eqn:Hc;
         cbn [mbind result_bind]; [done|]);
        intros [= <-]; right; eauto.
    - intros [= <-]. left. eauto. }
  cbn [mbind result_bind].
  destruct (truthy (dict_get_default _ "su_enabled" _)) eqn:Hs.
  { destruct constraints as [c|e']; cbn [mbind result_bind].
    - destruct (truthy (dict_get_default _ "ansible_enabled" _)) eqn:Ha;
        cbn [mbind result_bind]; [|done].
      destruct (PlatformSerializer.automation c) eqn:Hc;
        cbn [mbind result_bind]; [done|].
      intros [= <-]; right; eauto.
    - intros [= <-]. left. eauto. }
  cbn [mbind result_bind].
  destruct (truthy (dict_get_default _ "ansible_enabled" _)) eqn:Ha;
    cbn [mbind result_bind]; [|done].
  destruct constraints as [c|e']; cbn [mbind result_bind].
  - destruct (PlatformSerializer.automation c) eqn:Hc;
      cbn [mbind result_bind]; [done|].
    intros [= <-]; right; eauto.
  - intros [= <-]. left. eauto.
Qed.

Lemma platform_validate_failure_witness :
  let constraints :=
    Ok {| PlatformSerializer.fields := ∅;
          PlatformSerializer.automation := None |} in
  PlatformSerializer.validate constraints sample_attrs
  = Raise (KeyError "automation")
  ∧ ((constraints = Raise (KeyError "automation")
      ∧ (flag_on (PlatformSerializer.fields sample_attrs) "domain_enabled"
         ∨ flag_on (PlatformSerializer.fields sample_attrs) "su_enabled"
         ∨ flag_on (automation_of sample_attrs) "ansible_enabled"))
     ∨ (KeyError "automation" = KeyError "automation"
        ∧ flag_on (automation_of sample_attrs) "ansible_enabled"
        ∧ ∃ c, constraints = Ok c ∧ PlatformSerializer.automation c = None)).
Proof.
  intros constraints.
  assert (Hfail : PlatformSerializer.validate constraints sample_attrs
                  = Raise (KeyError "automation")) by (vm_compute; reflexivity).
  split; [exact Hfail|].
  apply (platform_validate_failure constraints sample_attrs _ Hfail).
Defined.


Section split_facts.
Context (sep : Ascii.ascii).

Lemma split_nonempty s : split sep s ≠ [].
Proof.
  destruct s as [|c s]; cbn [split]; [done|].
  case_decide; [done|]. by destruct (split sep s).
Qed.

Lemma split_app_sep a b :
  split sep (a +:+ String sep b) = split sep a ++ split sep b.
Proof.
  induction a as [|c a IH].
  - change ("" +:+ String sep b) with (String sep b).
    cbn [split app]. by rewrite decide_True.
  - change (String c a +:+ String sep b) with (String c (a +:+ String sep b)).
    cbn [split]. rewrite IH. case_decide; [done|].
    pose proof (split_nonempty a). by destruct (split sep a).
Qed.

Lemma split_without_sep s : str_contains sep s = false → split sep s = [s].
Proof.
  induction s as [|c s IH]; [done|]. cbn [str_contains split].
  intros [Hc Hs]%orb_false_iff. apply bool_decide_eq_false in Hc.
  rewrite decide_False by done. by rewrite IH.
Qed.

Lemma split_with_sep s :
  str_contains sep s = true → ∃ x y r, split sep s = x :: y :: r.
Proof.
  induction s as [|c s IH]; [done|]. cbn [str_contains split].
  intros Hs. case_decide as Hc.
  - pose proof (split_nonempty s). destruct (split sep s) as [|y r]; [done|].
    eauto.
  - apply orb_true_iff in Hs as [Hs|Hs]; [by apply bool_decide_eq_true in Hs|].
    destruct (IH Hs) as (x & y & r & ->). eauto.
Qed.

End split_facts.

Lemma pretty_N_go_no_char (c : Ascii.ascii) x s :
  (∀ d, pretty_N_char d ≠ c) →
  str_contains c s = false → str_contains c (pretty_N_go x s) = false.
Proof.
  intros Hc. revert s. induction (N.lt_wf_0 x) as [x _ IH]; intros s Hs.
  assert (x = 0 ∨ 0 < x)%N as [->|?] by lia.
  - by rewrite pretty_N_go_0.
  - rewrite pretty_N_go_step by done. apply IH.
    { by apply N.div_lt. }
    cbn [str_contains]. rewrite Hs, orb_false_r.
    apply bool_decide_eq_false. apply Hc.
Qed.

Lemma pretty_Z_no_slash (z : Z) : str_contains "/" (pretty z) = false.
Proof.
  assert (Hc : ∀ d, pretty_N_char d ≠ "/"%char).
  { intros d. unfold pretty_N_char. by repeat case_match. }
  assert (HN : ∀ p, str_contains "/" (pretty (N.pos p)) = false).
  { intros p. unfold pretty, pretty_N. rewrite decide_False by done.
    by apply pretty_N_go_no_char. }
  destruct z as [|p|p]; [done|apply HN|].
  change (pretty (Z.neg p)) with ("-" +:+ pretty (N.pos p)).
  change ("-" +:+ pretty (N.pos p)) with (String "-" (pretty (N.pos p))).
  cbn [str_contains]. by rewrite HN.
Qed.

(** X10: reading back the file representation of a protocol entry gives
    the name and the port as text when neither contains a slash, which is
    so for every integer port, and fails on the unpacking otherwise. *)
Theorem file_representation_round_trip (data : dict) (name port : pyval) :
  data !! "name" = Some name → data !! "port" = Some port →
  ∃ s,
    AssetProtocolsSerializer.to_file_representation data = Ok s
    ∧ AssetProtocolsSerializer.to_file_internal_value s =
        (if str_contains "/" (py_str name) || str_contains "/" (py_str port)
         then inr AssetProtocolsSerializer.too_many_values
         else inl ({[ "name" := VStr (py_str name);
                      "port" := VStr (py_str port) ]} : dict))
    ∧ ∀ z, port = VInt z → str_contains "/" (py_str port) = false.
Proof.
  intros Hname Hport. eexists. split_and!.
  - unfold AssetProtocolsSerializer.to_file_representation, dict_getitem.
    rewrite Hname, Hport. reflexivity.
  - unfold AssetProtocolsSerializer.to_file_internal_value.
    change (py_str name +:+ "/" +:+ py_str port)
      with (py_str name +:+ String "/" (py_str port)).
    rewrite split_app_sep.
    destruct (str_contains "/" (py_str name)) eqn:Hn.
    + destruct (split_with_sep _ _ Hn) as (x & y & r & ->).
      pose proof (split_nonempty "/" (py_str port)).
      cbn [orb app]. destruct r; [|done].
      by destruct (split "/" (py_str port)).
    + rewrite (split_without_sep _ _ Hn). cbn [orb app].
      destruct (str_contains "/" (py_str port)) eqn:Hp.
      * by destruct (split_with_sep _ _ Hp) as (x & y & r & ->).
      * by rewrite (split_without_sep _ _ Hp).
  - intros z ->. apply pretty_Z_no_slash.
Qed.

Lemma file_representation_round_trip_witness :
  ∃ s,
    AssetProtocolsSerializer.to_file_representation rdp_3389 = Ok s
    ∧ AssetProtocolsSerializer.to_file_internal_value s =
        (if str_contains "/" (py_str (VStr "rdp"))
            || str_contains "/" (py_str (VInt 3389))
         then inr AssetProtocolsSerializer.too_many_values
         else inl ({[ "name" := VStr (py_str (VStr "rdp"));
                      "port" := VStr (py_str (VInt 3389)) ]} : dict))
    ∧ ∀ z, VInt 3389 = VInt z → str_contains "/" (py_str (VInt 3389)) = false.
Proof.
  apply (file_representation_round_trip rdp_3389 (VStr "rdp") (VInt 3389));
    reflexivity.
Defined.

Section filter_protocols_facts.
Import AccountTemplateFilterSet.
Context (protocol_secret_type_map : gmap string (list pyval)).

Lemma secret_types_elem_of (protocols : list string) : ∀ acc st,
  st ∈ foldl (λ secret_types p,
                match protocol_secret_type_map !! p with
                | None => secret_types
                | Some _st => secret_types ++ _st
                end) acc protocols
  ↔ st ∈ acc
    ∨ ∃ p _st, p ∈ protocols ∧ protocol_secret_type_map !! p = Some _st
               ∧ st ∈ _st.
Proof.
  induction protocols as [|p protocols IH]; intros acc st; cbn [foldl].
  - split; [by left|]. intros [?|(p & _st & Hp & _)]; [done|].
    by apply elem_of_nil in Hp.
  - rewrite IH. destruct (protocol_secret_type_map !! p) as [_st|] eqn:Hp.
    + rewrite elem_of_app. split.
      * intros [[?|?]|(q & _st' & Hq & ? & ?)]; [by left| |].
        -- right. exists p, _st. split_and!; [|done..]. apply elem_of_cons. by left.
        -- right. exists q, _st'. split_and!; [|done..]. apply elem_of_cons. by right.
      * intros [?|(q & _st' & Hq & Hmap & ?)]; [by left; left|].
        apply elem_of_cons in Hq as [->|Hq].
        -- left. right. congruence.
        -- right. eauto.
    + split.
      * intros [?|(q & _st' & Hq & ? & ?)]; [by left|].
        right. exists q, _st'. split_and!; [|done..]. apply elem_of_cons. by right.
      * intros [?|(q & _st' & Hq & Hmap & ?)]; [by left|].
        apply elem_of_cons in Hq as [->|Hq]; [congruence|].
        right. eauto.
Qed.

Lemma filter_protocols_elem_of queryset value t :
  t ∈ filter_protocols protocol_secret_type_map queryset value
  ↔ t ∈ queryset
    ∧ ((∃ p _st, p ∈ split "," value
                 ∧ protocol_secret_type_map !! p = Some _st
                 ∧ secret_type_of t ∈ _st)
       ∨ ((∀ p _st, p ∈ split "," value →
                    protocol_secret_type_map !! p = Some _st → _st = [])
          ∧ secret_type_of t = VStr "password")).
Proof.
  unfold filter_protocols, secret_type_of.
  rewrite list_elem_of_filter.
  set (secret_types := foldl _ [] (split "," value)).
  assert (Hin : ∀ st, st ∈ secret_types
                ↔ ∃ p _st, p ∈ split "," value
                           ∧ protocol_secret_type_map !! p = Some _st
                           ∧ st ∈ _st).
  { intros st. unfold secret_types. rewrite secret_types_elem_of.
    split; [|by right]. intros [Hnil|?]; [|done]. by apply elem_of_nil in Hnil. }
  destruct secret_types as [|st0 sts] eqn:Hsts.
  - rewrite list_elem_of_singleton. split.
    + intros [Hst Ht]. split; [done|]. right. split; [|done].
      intros p _st Hp Hmap. apply elem_of_nil_inv. intros st Hst'.
      apply (elem_of_nil st). apply Hin. eauto.
    + intros [Ht [(p & _st & Hp & Hmap & Hst)|[_ Hst]]]; [|done].
      exfalso. apply (elem_of_nil (dict_get (tpl_attrs t) "secret_type")).
      apply Hin. eauto.
  - rewrite Hin. split.
    + intros [Hst Ht]. split; [done|]. by left.
    + intros [Ht [Hst|[Hnone Hst]]]; [done|].
      exfalso. assert (Hst0 : st0 ∈ st0 :: sts) by (apply elem_of_cons; by left).
      apply Hin in Hst0 as (p & _st & Hp & Hmap & Hst0).
      rewrite (Hnone p _st Hp Hmap) in Hst0. by apply elem_of_nil in Hst0.
Qed.

End filter_protocols_facts.

(** X11: the templates that [filter_protocols] keeps, in query order, are
    those whose secret type is a secret type of one of the listed protocols
    that the settings know; when the listed protocols bring no secret type
    at all (unknown names, an empty value), the templates of secret type
    [password] are kept instead. *)
Theorem filter_protocols_spec
    (protocol_secret_type_map : gmap string (list pyval))
    (queryset : list AccountTemplate) (value : string) :
  AccountTemplateFilterSet.filter_protocols protocol_secret_type_map queryset value
    `sublist_of` queryset
  ∧ ∀ t,
      t ∈ AccountTemplateFilterSet.filter_protocols
            protocol_secret_type_map queryset value
      ↔ t ∈ queryset
        ∧ ((∃ p _st, p ∈ split "," value
                     ∧ protocol_secret_type_map !! p = Some _st
                     ∧ secret_type_of t ∈ _st)
           ∨ ((∀ p _st, p ∈ split "," value →
                        protocol_secret_type_map !! p = Some _st → _st = [])
              ∧ secret_type_of t = VStr "password")).
Proof.
  split; [apply sublist_filter|]. intros t. apply filter_protocols_elem_of.
Qed.

(** X12: the result of [filter_protocols] depends only on which known
    protocols the value lists: their order, repetitions and unknown names
    make no difference. *)
Theorem filter_protocols_order_irrelevant
    (protocol_secret_type_map : gmap string (list pyval))
    (queryset : list AccountTemplate) (value value' : string) :
  (∀ p, is_Some (protocol_secret_type_map !! p) →
        p ∈ split "," value ↔ p ∈ split "," value') →
  AccountTemplateFilterSet.filter_protocols protocol_secret_type_map queryset value
  = AccountTemplateFilterSet.filter_protocols protocol_secret_type_map queryset value'.
Proof.
  intros Hsame.
  assert (Hext : ∀ t,
    t ∈ AccountTemplateFilterSet.filter_protocols
          protocol_secret_type_map [t] value
    ↔ t ∈ AccountTemplateFilterSet.filter_protocols
            protocol_secret_type_map [t] value').
  { intros t. rewrite !filter_protocols_elem_of.
    split; intros [Ht Hcase]; (split; [done|]);
      destruct Hcase as [(p & _st & Hp & Hmap & Hst)|[Hnone Hst]].
    - left. exists p, _st. split_and!; [|done..]. by apply Hsame.
    - right. split; [|done]. intros p _st Hp Hmap.
      apply (Hnone p _st); [|done]. by apply Hsame.
    - left. exists p, _st. split_and!; [|done..]. by apply Hsame.
    - right. split; [|done]. intros p _st Hp Hmap.
      apply (Hnone p _st); [|done]. by apply Hsame. }
  induction queryset as [|t queryset IH]; [done|].
  specialize (Hext t). unfold AccountTemplateFilterSet.filter_protocols in *.
  rewrite !filter_cons, IH. rewrite !filter_cons, !filter_nil in Hext.
  repeat case_decide; try done.
  - exfalso. apply (elem_of_nil t). apply Hext. apply elem_of_cons. by left.
  - exfalso. apply (elem_of_nil t). apply Hext. apply elem_of_cons. by left.
Qed.

Lemma filter_protocols_order_irrelevant_witness :
  AccountTemplateFilterSet.filter_protocols sample_settings [root_template]
    "ssh,telnet,rdp"
  = AccountTemplateFilterSet.filter_protocols sample_settings [root_template]
      "rdp,ssh,ssh".
Proof.
  apply (filter_protocols_order_irrelevant sample_settings [root_template]
           "ssh,telnet,rdp" "rdp,ssh,ssh").
  intros p [_st Hp]. vm_compute split.
  rewrite !elem_of_cons, !elem_of_nil.
  unfold sample_settings in Hp.
  destruct (decide (p = "ssh")) as [->|]; [naive_solver|].
  destruct (decide (p = "rdp")) as [->|]; [naive_solver|].
  destruct (decide (p = "http")) as [->|]; [naive_solver|].
  by rewrite !lookup_insert_ne, lookup_singleton_ne in Hp.
Defined.


Section initial_value_facts.
Import AccountCreateUpdateSerializerMixin.

Lemma only_uuids_drawn_refl w : only_uuids_drawn w w.
Proof. by unfold only_uuids_drawn. Qed.

Lemma only_uuids_drawn_trans w1 w2 w3 :
  only_uuids_drawn w1 w2 → only_uuids_drawn w2 w3 → only_uuids_drawn w1 w3.
Proof.
  unfold only_uuids_drawn.
  intros (-> & -> & -> & -> & -> & ?) (-> & -> & -> & -> & -> & ?).
  split_and!; try done. lia.
Qed.

Lemma set_uniq_name_if_need_create d asset w d' w' :
  set_uniq_name_if_need None d asset w = (Ok d', w') →
  is_Some (fields d' !! "name") ∧ only_uuids_drawn w w'
  ∧ ∀ k, k ≠ "name" → fields d' !! k = fields d !! k.
Proof.
  unfold set_uniq_name_if_need, dict_get.
  destruct (fields d !! "name") as [name|] eqn:Hname; cbn [default from_option id].
  - assert (Hd : ∀ X : M InitialData,
              match name with VNone => X | _ => ret d end w = (Ok d', w') →
              name ≠ VNone → d' = d ∧ w' = w).
    { intros X. destruct name; try done; by intros [= <- <-]. }
    destruct (decide (name = VNone)) as [->|Hne].
    + rewrite bind_unfold. unfold Account.objects_filter.
      destruct (filter _ (accounts w)) as [|row rows].
      * unfold ret. rewrite !bind_unfold. intros [= <- <-].
        cbn [fields]. split_and!.
        -- by rewrite lookup_insert_eq.
        -- apply only_uuids_drawn_refl.
        -- intros k Hk. by rewrite lookup_insert_ne.
      * rewrite !bind_unfold. unfold lift.
        destruct (py_add_str _ _) as [prefix|]; [|done].
        unfold uuid4_hex, ret. intros [= <- <-]. cbn [fields]. split_and!.
        -- by rewrite lookup_insert_eq.
        -- unfold only_uuids_drawn. cbn. split_and!; try done. lia.
        -- intros k Hk. by rewrite lookup_insert_ne.
    + intros Hcall. apply Hd in Hcall as [-> ->]; [|done].
      split_and!; [by rewrite Hname|apply only_uuids_drawn_refl|done].
  - rewrite bind_unfold. unfold Account.objects_filter.
    destruct (filter _ (accounts w)) as [|row rows].
    + unfold ret. rewrite !bind_unfold. intros [= <- <-].
      cbn [fields]. split_and!.
      * by rewrite lookup_insert_eq.
      * apply only_uuids_drawn_refl.
      * intros k Hk. by rewrite lookup_insert_ne.
    + rewrite !bind_unfold. unfold lift.
      destruct (py_add_str _ _) as [prefix|]; [|done].
      unfold uuid4_hex, ret. intros [= <- <-]. cbn [fields]. split_and!.
      * by rewrite lookup_insert_eq.
      * unfold only_uuids_drawn. cbn. split_and!; try done. lia.
      * intros k Hk. by rewrite lookup_insert_ne.
Qed.

Lemma set_initial_value_loop_create initial_data :
  ∀ self_template w out self_template' w',
    set_initial_value_loop None self_template initial_data w
      = (Ok (out, self_template'), w') →
    only_uuids_drawn w w'
    ∧ Forall2 (λ p p', ∃ d d',
                 payload_fields p = Some d ∧ payload_fields p' = Some d'
                 ∧ truthy (dict_get d "asset") = true
                 ∧ is_Some (d' !! "name")) initial_data out.
Proof.
  induction initial_data as [|data rest IH];
    intros st w out st' w'; cbn [set_initial_value_loop].
  - intros [= <- <- <-]. split; [apply only_uuids_drawn_refl|constructor].
  - destruct data as [s|d]; [done|].
    destruct (truthy (dict_get (fields d) "asset")) eqn:Hasset;
      cbn [negb andb]; [|done].
    rewrite bind_unfold.
    destruct (from_template_if_need w st (PDict d)) as [[data st1]|] eqn:Htpl;
      [|done].
    destruct data as [s|d1]; [done|].
    rewrite bind_unfold.
    destruct (set_uniq_name_if_need None d1 _ w) as [[d2|] w1] eqn:Huniq; [|done].
    rewrite bind_unfold.
    destruct (set_initial_value_loop None st1 rest w1) as [[[rest' st2]|] w2]
      eqn:Hrest; [|done].
    unfold ret. intros [= <- <- <-].
    apply set_uniq_name_if_need_create in Huniq as (Hname & Hw1 & _).
    apply IH in Hrest as [Hw2 Hrest].
    split; [by eapply only_uuids_drawn_trans|].
    constructor; [|done]. exists (fields d), (fields d2). by cbn.
Qed.

End initial_value_facts.

(** X13: when a creation request passes [set_initial_value], every entry
    of the request is a dictionary that names its asset, every entry is
    left with a [name] key, and nothing happened to the world but the
    drawing of uuids: no account is read into or written to the store. *)
Theorem set_initial_value_on_create
    (self_template self_template' : option AccountTemplate)
    (initial_data out : list AccountCreateUpdateSerializerMixin.payload)
    (w w' : world) :
  AccountCreateUpdateSerializerMixin.set_initial_value
    None self_template (Some initial_data) w = (Ok (out, self_template'), w') →
  only_uuids_drawn w w'
  ∧ Forall2 (λ p p', ∃ d d',
               payload_fields p = Some d ∧ payload_fields p' = Some d'
               ∧ truthy (dict_get d "asset") = true
               ∧ is_Some (d' !! "name")) initial_data out.
Proof.
  unfold AccountCreateUpdateSerializerMixin.set_initial_value.
  destruct initial_data as [|data rest].
  - intros [= <- <- <-]. split; [apply only_uuids_drawn_refl|constructor].
  - apply set_initial_value_loop_create.
Qed.

Lemma set_initial_value_on_create_witness :
  let initial_data := [AccountCreateUpdateSerializerMixin.PDict root_request] in
  let out := [AccountCreateUpdateSerializerMixin.PDict
                (with_name (VStr "root_c0ff") root_request)] in
  let w' := set_drawn 1 w_root_on_A in
  AccountCreateUpdateSerializerMixin.set_initial_value
    None None (Some initial_data) w_root_on_A = (Ok (out, None), w')
  ∧ only_uuids_drawn w_root_on_A w'
  ∧ Forall2 (λ p p', ∃ d d',
               payload_fields p = Some d ∧ payload_fields p' = Some d'
               ∧ truthy (dict_get d "asset") = true
               ∧ is_Some (d' !! "name")) initial_data out.
Proof.
  intros initial_data out w'.
  assert (Hrun : AccountCreateUpdateSerializerMixin.set_initial_value
                   None None (Some initial_data) w_root_on_A
                 = (Ok (out, None), w')) by (vm_compute; reflexivity).
  split; [exact Hrun|].
  apply (set_initial_value_on_create None None initial_data out
           w_root_on_A w' Hrun).
Defined.

(** X14: [from_template_if_need] raises exactly when the request names a
    truthy template that is not a loaded instance: [Template not found]
    for an identifier that no template bears, and an attribute error for a
    value that is no string. A request without template, or with a falsy
    one, never fails. *)
Theorem from_template_if_need_failure
    (w : world) (self_template : option AccountTemplate)
    (d : AccountCreateUpdateSerializerMixin.InitialData) (e : exn) :
  AccountCreateUpdateSerializerMixin.from_template_if_need w self_template
    (AccountCreateUpdateSerializerMixin.PDict d) = Raise e
  ↔ ∃ v, AccountCreateUpdateSerializerMixin.template d
           = Some (AccountCreateUpdateSerializerMixin.TplValue v)
         ∧ truthy v = true
         ∧ match v with
           | VStr _ =>
               AccountCreateUpdateSerializerMixin.template_by_id w v = None
               ∧ e = ValidationErrorDict "template" "Template not found"
           | _ => e = AttributeError "object has no attribute '_meta'"
           end.
Proof.
  unfold AccountCreateUpdateSerializerMixin.from_template_if_need.
  destruct (AccountCreateUpdateSerializerMixin.template d) as [[v|t]|];
    cbn [AccountCreateUpdateSerializerMixin.ref_truthy negb].
  - destruct (truthy v) eqn:Hv; cbn [negb].
    + destruct v as [|b|z|s|a]; cbn [mbind result_bind];
        try (split; [intros [= <-]; eauto|by intros (v & [= <-] & _ & ->)]).
      destruct (AccountCreateUpdateSerializerMixin.template_by_id w (VStr s))
        as [t|] eqn:Ht; cbn [mbind result_bind].
      * split; [done|]. intros (v & [= <-] & _ & ? & _). congruence.
      * split; [intros [= <-]; eauto|].
        by intros (v & [= <-] & _ & _ & ->).
    + split; [done|]. intros (v' & [= <-] & ? & _). congruence.
  - split; [done|]. by intros (v & ? & _).
  - split; [done|]. by intros (v & ? & _).
Qed.

(** X15: [from_template_if_need] is applied twice to the same request
    data, by [set_initial_value] and by [to_internal_value]; on what the
    first call returned, the second call changes nothing, provided the
    template model has no field called [template]. *)
Theorem from_template_if_need_idempotent
    (w : world) (self_template self_template' : option AccountTemplate)
    (p p' : AccountCreateUpdateSerializerMixin.payload) :
  AccountCreateUpdateSerializerMixin.from_template_if_need w self_template p
    = Ok (p', self_template') →
  (∀ t, self_template' = Some t → "template" ∉ tpl_meta_fields t) →
  AccountCreateUpdateSerializerMixin.from_template_if_need w self_template' p'
    = Ok (p', self_template').
Proof.
  unfold AccountCreateUpdateSerializerMixin.from_template_if_need.
  destruct p as [s|d]; [by intros [= <- <-]|].
  destruct (negb _); [by intros [= <- <-]|].
  destruct (match AccountCreateUpdateSerializerMixin.template d with
            | Some _ => _ | None => _ end) as [t|]; [|done].
  cbn [mbind result_bind]. intros [= <- <-] Hfield.
  assert (Hnone : AccountCreateUpdateSerializerMixin.template_attrs t
                    !! "template" = None).
  { rewrite template_attrs_lookup. rewrite decide_False; [done|].
    intros [Hin _]. apply (Hfield t eq_refl).
    unfold AccountCreateUpdateSerializerMixin.field_names in Hin.
    by apply list_elem_of_filter in Hin as [_ Hin]. }
  by rewrite Hnone.
Qed.

Lemma from_template_if_need_idempotent_witness :
  AccountCreateUpdateSerializerMixin.from_template_if_need w_with_template
    (Some root_template) (AccountCreateUpdateSerializerMixin.PDict alice_merged)
  = Ok (AccountCreateUpdateSerializerMixin.PDict alice_merged, Some root_template).
Proof.
  apply (from_template_if_need_idempotent w_with_template None
           (Some root_template)
           (AccountCreateUpdateSerializerMixin.PDict alice_request)
           (AccountCreateUpdateSerializerMixin.PDict alice_merged)).
  - vm_compute. reflexivity.
  - intros t [= <-]. vm_compute. intros Hin.
    repeat (apply elem_of_cons in Hin as [Hin|Hin]; [discriminate Hin|]).
    by apply elem_of_nil in Hin.
Defined.

Lemma filter_filter_same {A} (P : A → Prop) `{!∀ x, Decision (P x)} (l : list A) :
  filter P (filter P l) = filter P l.
Proof.
  rewrite list_filter_filter. apply list_filter_iff. naive_solver.
Qed.

(** X16: [get_validators] only ever drops unique-together validators; it
    keeps every other validator in place, and it drops the unique-together
    ones whenever the request data do not say [on_invalid = error]
    themselves, the key being absent included, or the serializer is
    nested. *)
Theorem get_validators_spec
    (_validators : list AccountCreateUpdateSerializerMixin.validator)
    (initial_data : option dict) (parent : bool) :
  let out := AccountCreateUpdateSerializerMixin.get_validators
               _validators initial_data parent in
  out `sublist_of` _validators
  ∧ filter (λ v, AccountCreateUpdateSerializerMixin.is_unique_together v = false) out
    = filter (λ v, AccountCreateUpdateSerializerMixin.is_unique_together v = false)
        _validators
  ∧ (∀ d, initial_data = Some d →
       d !! "on_invalid" ≠ Some AccountInvalidPolicy.ERROR ∨ parent = true →
       Forall (λ v, AccountCreateUpdateSerializerMixin.is_unique_together v = false)
         out)
  ∧ (initial_data = None
     ∨ (∃ d, initial_data = Some d
             ∧ d !! "on_invalid" = Some AccountInvalidPolicy.ERROR)
       ∧ parent = false →
     out = _validators).
Proof.
  intros out. unfold out, AccountCreateUpdateSerializerMixin.get_validators.
  destruct initial_data as [d|].
  - destruct (bool_decide (dict_get d "on_invalid" = AccountInvalidPolicy.ERROR))
      eqn:Hpol; destruct parent; cbn [negb andb].
    + split_and!; [apply sublist_filter|apply filter_filter_same| |].
      * intros d' _ _. apply Forall_forall. intros v Hv.
        by apply list_elem_of_filter in Hv as [Hv _].
      * intros [?|[_ ?]]; done.
    + apply bool_decide_eq_true in Hpol. split_and!; [done..| |done].
      intros d' [= <-] [Hne|?]; [|done]. exfalso. apply Hne.
      unfold dict_get in Hpol.
      destruct (d !! "on_invalid") as [v|]; cbn in Hpol; [by subst|done].
    + split_and!; [apply sublist_filter|apply filter_filter_same| |].
      * intros d' _ _. apply Forall_forall. intros v Hv.
        by apply list_elem_of_filter in Hv as [Hv _].
      * intros [?|[_ ?]]; done.
    + apply bool_decide_eq_false in Hpol.
      split_and!; [apply sublist_filter|apply filter_filter_same| |].
      * intros d' _ _. apply Forall_forall. intros v Hv.
        by apply list_elem_of_filter in Hv as [Hv _].
      * intros [?|[(d' & [= <-] & Hd) _]]; [done|]. exfalso. apply Hpol.
        unfold dict_get. by rewrite Hd.
  - split_and!; [done..| |done]. by intros d.
Qed.


Section frame_facts.

Lemma only_accounts_changed_refl w : only_accounts_changed w w.
Proof. by unfold only_accounts_changed. Qed.

Lemma only_accounts_changed_trans w1 w2 w3 :
  only_accounts_changed w1 w2 → only_accounts_changed w2 w3 →
  only_accounts_changed w1 w3.
Proof.
  unfold only_accounts_changed.
  by intros (-> & -> & -> & ->) (-> & -> & -> & ->).
Qed.

Lemma create_frame params w r w' :
  Account.create params w = (r, w') → only_accounts_changed w w'.
Proof.
  unfold Account.create, Account.insert_row, uuid4_hex, ret.
  rewrite bind_unfold. destruct (params !! "id").
  - case_match; by intros [= <- <-].
  - rewrite bind_unfold. cbn beta iota. case_match; by intros [= <- <-].
Qed.

Lemma save_frame row w r w' :
  Account.save row w = (r, w') → only_accounts_changed w w'.
Proof.
  unfold Account.save. repeat case_match; by intros [= <- <-].
Qed.

Lemma get_or_create_frame defaults lookup w r w' :
  Account.get_or_create defaults lookup w = (r, w') →
  only_accounts_changed w w'.
Proof.
  unfold Account.get_or_create, Account.objects_filter, raise, ret.
  rewrite bind_unfold.
  destruct (filter _ (accounts w)) as [|row [|row' rows]].
  - rewrite bind_unfold.
    destruct (Account.create _ w) as [[]] eqn:Hc; intros [= <- <-];
      by eapply create_frame.
  - by intros [= <- <-].
  - by intros [= <- <-].
Qed.

Lemma update_or_create_frame defaults lookup w r w' :
  Account.update_or_create defaults lookup w = (r, w') →
  only_accounts_changed w w'.
Proof.
  unfold Account.update_or_create, Account.objects_filter, raise, ret.
  rewrite bind_unfold.
  destruct (filter _ (accounts w)) as [|row [|row' rows]].
  - rewrite bind_unfold.
    destruct (Account.create _ w) as [[]] eqn:Hc; intros [= <- <-];
      by eapply create_frame.
  - rewrite bind_unfold.
    destruct (Account.save _ w) as [[]] eqn:Hs; intros [= <- <-];
      by eapply save_frame.
  - by intros [= <- <-].
Qed.

End frame_facts.

Section create_facts.
Import AccountCreateUpdateSerializerMixin.

Lemma do_create_unfold vd w :
  let candidate := delete "on_invalid" vd in
  do_create vd w =
    match candidate !! "asset" with
    | None => (Raise (KeyError "asset"), w)
    | Some _ =>
        match head (do_create_matches candidate w) with
        | None =>
            match Account.create candidate w with
            | (Ok instance, w') => (Ok (instance, "created"), w')
            | (Raise e, w') => (Raise e, w')
            end
        | Some instance =>
            if bool_decide (dict_get vd "on_invalid" = AccountInvalidPolicy.SKIP)
            then (Ok (instance, "skipped"), w)
            else if bool_decide
                      (dict_get vd "on_invalid" = AccountInvalidPolicy.UPDATE)
            then
              match Account.save (candidate ∪ instance) w with
              | (Ok _, w') => (Ok (candidate ∪ instance, "updated"), w')
              | (Raise e, w') => (Raise e, w')
              end
            else (Raise (ValidationError ["Account already exists"]), w)
        end
    end.
Proof.
  intros candidate. unfold do_create. fold candidate.
  unfold lift, dict_getitem. rewrite bind_unfold.
  destruct (candidate !! "asset") as [asset|] eqn:Hasset; [|done].
  unfold Account.objects_filter. rewrite bind_unfold.
  assert (Hm : do_create_matches candidate w =
    filter (λ row, Account.q_matches (do_create_q candidate) row = true)
      (filter (λ row, Account.row_matches ({[ "asset" := asset ]} : dict) row = true)
         (accounts w))).
  { unfold do_create_matches, dict_get. by rewrite Hasset. }
  rewrite <- Hm. destruct (head (do_create_matches candidate w)) as [instance|].
  - repeat case_match; try done; rewrite bind_unfold;
      match goal with H : Account.save _ _ = _ |- _ => by rewrite H end.
  - rewrite bind_unfold. by destruct (Account.create candidate w) as [[|]].
Qed.

Lemma create_Ok_row params w row w' :
  Account.create params w = (Ok row, w') →
  accounts w' = accounts w ++ [row]
  ∧ ∀ k, k ≠ "id" → row !! k = params !! k.
Proof.
  intros Hc. pose proof Hc as Ha.
  apply create_accounts in Ha as [(row' & [= <-] & Ha)|[[e ?] _]]; [|done].
  split; [done|]. revert Hc.
  unfold Account.create, Account.insert_row, uuid4_hex, ret.
  rewrite bind_unfold. destruct (params !! "id").
  - case_match; [done|]. by intros [= <- _].
  - rewrite bind_unfold. cbn beta iota. case_match; [done|].
    intros [= <- _] k Hk. by rewrite lookup_insert_ne.
Qed.

(** The row that a creation stores is selected by the lookup of
    [do_create] for the candidate it was created from. *)
Lemma created_row_matches candidate row asset (rows : list dict) :
  candidate !! "asset" = Some asset →
  (∀ k, k ≠ "id" → row !! k = candidate !! k) →
  Account.row_matches ({[ "asset" := asset ]} : dict) row = true
  ∧ Account.q_matches (do_create_q candidate) row = true.
Proof.
  intros Hasset Hrow.
  assert (Hget : ∀ k, k ≠ "id" → dict_get row k = dict_get candidate k).
  { intros k Hk. unfold dict_get. by rewrite Hrow. }
  split.
  - apply row_matches_singleton. rewrite Hget by done.
    unfold dict_get. by rewrite Hasset.
  - unfold do_create_q.
    destruct (truthy (dict_get candidate "name")) eqn:Hn;
      destruct (truthy (dict_get candidate "username")) eqn:Hu;
      cbn [app Account.q_matches existsb]; [| | |done];
      rewrite ?orb_false_r, ?orb_true_iff.
    + left. apply row_matches_singleton. by apply Hget.
    + apply row_matches_singleton. by apply Hget.
    + apply row_matches_pair; [done|]. by rewrite !Hget.
Qed.

Lemma do_create_matches_app candidate w w' rows :
  accounts w' = accounts w ++ rows →
  do_create_matches candidate w' =
    do_create_matches candidate w
    ++ filter (λ row, Account.q_matches (do_create_q candidate) row = true)
         (filter (λ row, Account.row_matches
                           ({[ "asset" := dict_get candidate "asset" ]} : dict)
                           row = true) rows).
Proof.
  intros Ha. unfold do_create_matches. by rewrite Ha, !filter_app.
Qed.

Lemma do_create_frame vd w r w' :
  do_create vd w = (r, w') → only_accounts_changed w w'.
Proof.
  rewrite do_create_unfold. cbn zeta.
  destruct (delete "on_invalid" vd !! "asset"); [|by intros [= <- <-]].
  destruct (head _) as [instance|].
  - repeat case_match; try (by intros [= <- <-]);
      intros [= <- <-]; by eapply save_frame.
  - destruct (Account.create _ w) as [[|] w1] eqn:Hc; intros [= <- <-];
      by eapply create_frame.
Qed.

(** What a successful [do_create] returns. *)
Lemma do_create_Ok vd w instance stat w' :
  do_create vd w = (Ok (instance, stat), w') →
  (stat = "skipped" ∧ dict_get vd "on_invalid" = AccountInvalidPolicy.SKIP
   ∧ w' = w ∧ instance ∈ accounts w)
  ∨ (stat = "created" ∧ accounts w' = accounts w ++ [instance]
     ∧ ∀ k, k ≠ "id" → instance !! k = delete "on_invalid" vd !! k)
  ∨ (stat = "updated" ∧ dict_get vd "on_invalid" = AccountInvalidPolicy.UPDATE
     ∧ instance ∈ accounts w'
     ∧ ∀ k v, delete "on_invalid" vd !! k = Some v → instance !! k = Some v).
Proof.
  rewrite do_create_unfold. cbn zeta.
  destruct (delete "on_invalid" vd !! "asset"); [|done].
  destruct (head _) as [inst|] eqn:Hhead.
  - case_bool_decide as Hskip.
    + intros [= <- <- <-]. left. split_and!; try done.
      apply head_Some_elem_of in Hhead. unfold do_create_matches in Hhead.
      rewrite !list_elem_of_filter in Hhead. apply Hhead.
    + case_bool_decide as Hupd; [|done].
      destruct (Account.save _ w) as [[[]|] w1] eqn:Hs; [|done].
      intros [= <- <- <-]. right. right. split_and!; try done.
      * by eapply save_Ok_elem_of.
      * intros k v Hk. by apply lookup_union_Some_l.
  - destruct (Account.create _ w) as [[row|] w1] eqn:Hc; [|done].
    intros [= <- <- <-]. right. left.
    apply create_Ok_row in Hc as [Ha Hrow]. done.
Qed.

End create_facts.

(** X17: under the policy [skip], [do_create] settles: called again with
    the same data on the world it left, it returns the same account with
    the outcome [skipped] and writes nothing, whether the first call
    created the account or found it. *)
Theorem do_create_skip_settles
    (vd instance : dict) (stat : string) (w w' : world) :
  dict_get vd "on_invalid" = AccountInvalidPolicy.SKIP →
  AccountCreateUpdateSerializerMixin.do_create vd w
    = (Ok (instance, stat), w') →
  AccountCreateUpdateSerializerMixin.do_create vd w'
    = (Ok (instance, "skipped"), w').
Proof.
  intros Hskip. rewrite !do_create_unfold. cbn zeta.
  destruct (delete "on_invalid" vd !! "asset") as [asset|] eqn:Hasset; [|done].
  rewrite Hskip, bool_decide_eq_true_2 by done.
  destruct (head (do_create_matches _ w)) as [inst|] eqn:Hhead.
  - intros [= <- <- <-]. by rewrite Hhead.
  - destruct (Account.create _ w) as [[row|] w1] eqn:Hc; [|done].
    intros [= <- <- <-].
    apply create_Ok_row in Hc as [Ha Hrow].
    rewrite (do_create_matches_app _ w w1 [row] Ha).
    apply head_None in Hhead. rewrite Hhead. cbn [app].
    destruct (created_row_matches _ row asset [] Hasset Hrow) as [H1 H2].
    assert (Hget : dict_get (delete "on_invalid" vd) "asset" = asset)
      by (unfold dict_get; by rewrite Hasset).
    rewrite Hget, filter_cons, filter_nil, decide_True by done.
    by rewrite filter_cons, filter_nil, decide_True by done.
Qed.

Lemma do_create_skip_settles_witness :
  let vd := payload_on_A (Some "deploy") (Some "deploy") "skip" in
  ∃ instance w',
    AccountCreateUpdateSerializerMixin.do_create vd w_root_on_A
      = (Ok (instance, "created"), w')
    ∧ AccountCreateUpdateSerializerMixin.do_create vd w'
      = (Ok (instance, "skipped"), w').
Proof.
  intros vd. eexists _, _.
  assert (Hfirst : ∀ r, r = AccountCreateUpdateSerializerMixin.do_create vd w_root_on_A →
                        AccountCreateUpdateSerializerMixin.do_create vd w_root_on_A = r)
    by (by intros r ->).
  split.
  - apply Hfirst. vm_compute. reflexivity.
  - apply (do_create_skip_settles vd _ "created" w_root_on_A _).
    + reflexivity.
    + vm_compute. reflexivity.
Defined.

(** X18: an account that [create] stores or overwrites while a template is
    in use records the template as its source: under every policy but
    [skip], the account returned is stored and carries [source = template]
    and the template's id as [source_id]. *)
Theorem create_records_template_source
    (t : AccountTemplate) (validated_data instance : dict) (w w' : world) :
  dict_get validated_data "on_invalid" ≠ AccountInvalidPolicy.SKIP →
  AccountCreateUpdateSerializerMixin.create (Some t) validated_data w
    = (Ok instance, w') →
  instance ∈ accounts w'
  ∧ instance !! "source" = Some Source.TEMPLATE
  ∧ instance !! "source_id"
    = Some (VStr (py_str (dict_get (tpl_attrs t) "id"))).
Proof.
  intros Hpolicy. unfold AccountCreateUpdateSerializerMixin.create.
  rewrite bind_unfold.
  set (vd := AccountCreateUpdateSerializerMixin.generate_source_data _ _).
  assert (Hpol : dict_get vd "on_invalid" = dict_get validated_data "on_invalid").
  { unfold vd, AccountCreateUpdateSerializerMixin.generate_source_data, dict_get.
    by rewrite !lookup_insert_ne, !lookup_delete_ne by done. }
  assert (Hsrc : delete "on_invalid" vd !! "source" = Some Source.TEMPLATE).
  { unfold vd, AccountCreateUpdateSerializerMixin.generate_source_data.
    rewrite lookup_delete_ne, lookup_insert_ne by done.
    by rewrite lookup_insert_eq. }
  assert (Hsid : delete "on_invalid" vd !! "source_id"
                 = Some (VStr (py_str (dict_get (tpl_attrs t) "id")))).
  { unfold vd, AccountCreateUpdateSerializerMixin.generate_source_data.
    rewrite lookup_delete_ne by done. by rewrite lookup_insert_eq. }
  destruct (AccountCreateUpdateSerializerMixin.do_create vd w)
    as [[[inst stat]|] w1] eqn:Hdo; [|done].
  rewrite bind_unfold.
  destruct (AccountCreateUpdateSerializerMixin.push_account_if_need _ _ _ _ w1)
    as [r w2] eqn:Hpush.
  apply push_account_if_need_accounts in Hpush as [-> Hacc].
  unfold ret. intros [= <- <-]. rewrite Hacc.
  apply do_create_Ok in Hdo
    as [(_ & Hs & _)|[(_ & Ha & Hrow)|(_ & _ & Hin & Hrow)]].
  - by rewrite Hpol in Hs.
  - split_and!.
    + rewrite Ha. apply elem_of_app. right. by apply list_elem_of_singleton.
    + by rewrite Hrow.
    + by rewrite Hrow.
  - split_and!; [done|by apply Hrow..].
Qed.

Lemma create_records_template_source_witness :
  let vd := payload_on_A None (Some "root") "update" in
  ∃ instance w',
    AccountCreateUpdateSerializerMixin.create (Some root_template) vd w_root_on_A
      = (Ok instance, w')
    ∧ instance ∈ accounts w'
    ∧ instance !! "source" = Some Source.TEMPLATE
    ∧ instance !! "source_id"
      = Some (VStr (py_str (dict_get (tpl_attrs root_template) "id"))).
Proof.
  intros vd. eexists _, _.
  assert (Hrun : ∀ r,
    r = AccountCreateUpdateSerializerMixin.create (Some root_template) vd w_root_on_A →
    AccountCreateUpdateSerializerMixin.create (Some root_template) vd w_root_on_A = r)
    by (by intros r ->).
  split.
  - apply Hrun. vm_compute. reflexivity.
  - apply (create_records_template_source root_template vd _ w_root_on_A _).
    + by vm_compute.
    + vm_compute. reflexivity.
Defined.

(** X19: [create] queues at most one push, for the account it returns and
    with the request's [params]; it queues none unless [push_now] is set,
    and none for an account that the policy [skip] returns without writing
    the store; it queues one whenever [push_now] is set and the account was
    written. *)
Theorem create_pushes_written_accounts
    (self_template : option AccountTemplate)
    (validated_data instance : dict) (w w' : world) :
  AccountCreateUpdateSerializerMixin.create self_template validated_data w
    = (Ok instance, w') →
  let pushed :=
    push_queue w' = push_queue w
                    ++ [push_of instance (dict_get validated_data "params")] in
  (push_queue w' = push_queue w ∨ pushed)
  ∧ (truthy (dict_get validated_data "push_now") = false →
     push_queue w' = push_queue w)
  ∧ (dict_get validated_data "on_invalid" = AccountInvalidPolicy.SKIP →
     accounts w' = accounts w → push_queue w' = push_queue w)
  ∧ (truthy (dict_get validated_data "push_now") = true →
     accounts w' ≠ accounts w
     ∨ dict_get validated_data "on_invalid" = AccountInvalidPolicy.UPDATE →
     pushed).
Proof.
  unfold AccountCreateUpdateSerializerMixin.create.
  rewrite bind_unfold.
  set (vd := AccountCreateUpdateSerializerMixin.generate_source_data _ _).
  assert (Hpol : dict_get vd "on_invalid" = dict_get validated_data "on_invalid").
  { unfold vd, AccountCreateUpdateSerializerMixin.generate_source_data, dict_get.
    destruct self_template;
      by rewrite ?lookup_insert_ne, !lookup_delete_ne by done. }
  assert (Hparams : dict_get (delete "push_now" validated_data) "params"
                    = dict_get validated_data "params").
  { unfold dict_get. by rewrite lookup_delete_ne. }
  rewrite Hparams.
  destruct (AccountCreateUpdateSerializerMixin.do_create vd w)
    as [[[inst stat]|] w1] eqn:Hdo; [|done].
  rewrite bind_unfold.
  pose proof (do_create_frame _ _ _ _ Hdo) as (_ & _ & _ & Hq).
  unfold AccountCreateUpdateSerializerMixin.push_account_if_need.
  destruct (truthy (dict_get validated_data "push_now")) eqn:Hnow; cbn [negb orb].
  - apply do_create_Ok in Hdo
      as [(-> & Hs & -> & _)|[(-> & Ha & _)|(-> & Hu & _)]].
    + rewrite bool_decide_eq_false_2.
      2: { rewrite !elem_of_cons, elem_of_nil. naive_solver. }
      cbn [negb]. unfold ret. intros [= <- <-]. split_and!; try done; [by left|].
      intros _ [Hne|Hu]; [done|]. rewrite Hpol, Hu in Hs.
      unfold AccountInvalidPolicy.UPDATE, AccountInvalidPolicy.SKIP in Hs.
      discriminate Hs.
    + rewrite bool_decide_eq_true_2 by (apply elem_of_cons; by left).
      cbn [negb]. unfold push_accounts_to_assets_task_delay, ret.
      intros [= <- <-]. unfold push_of.
      cbn [push_queue set_push_queue accounts]. rewrite Hq.
      split_and!; try done; [by right|].
      intros _ Hsame. rewrite Ha in Hsame.
      apply (f_equal length) in Hsame. rewrite length_app in Hsame.
      cbn in Hsame. lia.
    + rewrite bool_decide_eq_true_2
        by (apply elem_of_cons; right; apply elem_of_cons; by left).
      cbn [negb]. unfold push_accounts_to_assets_task_delay, ret.
      intros [= <- <-]. unfold push_of.
      cbn [push_queue set_push_queue accounts]. rewrite Hq.
      split_and!; try done; [by right|].
      rewrite Hpol in Hu. intros Hs. rewrite Hs in Hu.
      unfold AccountInvalidPolicy.UPDATE, AccountInvalidPolicy.SKIP in Hu.
      discriminate Hu.
  - unfold ret. intros [= <- <-].
    split_and!; try done. by left.
Qed.

Lemma create_pushes_written_accounts_witness :
  let vd := <["push_now" := VBool true]>
              (payload_on_A None (Some "root") "update") in
  ∃ instance w',
    AccountCreateUpdateSerializerMixin.create None vd w_root_on_A
      = (Ok instance, w')
    ∧ push_queue w' = push_queue w_root_on_A
                      ++ [push_of instance (dict_get vd "params")].
Proof.
  intros vd. eexists _, _.
  assert (Hrun : ∀ r,
    r = AccountCreateUpdateSerializerMixin.create None vd w_root_on_A →
    AccountCreateUpdateSerializerMixin.create None vd w_root_on_A = r)
    by (by intros r ->).
  split.
  - apply Hrun. vm_compute. reflexivity.
  - apply (create_pushes_written_accounts None vd _ w_root_on_A _).
    + vm_compute. reflexivity.
    + reflexivity.
    + right. reflexivity.
Defined.


Section bulk_edge_facts.
Import AssetAccountBulkSerializer.

Lemma get_filter_lookup_missing vd :
  vd !! "username" = None ∨ vd !! "secret_type" = None →
  get_filter_lookup vd =
    Raise (KeyError (if decide (vd !! "username" = None)
                     then "username" else "secret_type")).
Proof.
  intros Hmiss. unfold get_filter_lookup, dict_getitem.
  destruct (vd !! "username") as [u|] eqn:Hu.
  - rewrite decide_False by done. destruct Hmiss as [Hmiss|Hmiss]; [done|by rewrite Hmiss].
  - by rewrite decide_True.
Qed.

Lemma perform_create_no_lookup vd handle w e :
  get_filter_lookup vd = Raise e →
  perform_create vd handle w = ((Raise e, vd), w).
Proof. unfold perform_create. by intros ->. Qed.

Lemma bulk_loop_missing_key (P : dict → Prop) handle secret_type supports
    key assets :
  P ({[ "error" := VStr (unsupported_secret_type secret_type);
        "state" := VStr "error" ]} : dict) →
  P (error_entry ("'" +:+ key +:+ "'")) →
  ∀ vd _results w,
    (vd !! "username" = None ∨ vd !! "secret_type" = None) →
    key = (if decide (vd !! "username" = None)
           then "username" else "secret_type") →
    Forall P (od_values _results) →
    ∃ _results',
      bulk_loop handle secret_type supports assets vd _results w
        = (Ok _results', w)
      ∧ Forall P (od_values _results').
Proof.
  intros Hunsup Hkey.
  induction assets as [|asset rest IH]; intros vd _results w Hmiss Hk Hres;
    cbn [bulk_loop].
  - by exists _results.
  - case_bool_decide.
    + apply IH; [done..|]. by apply od_values_set_Forall.
    + set (vd1 := <["asset" := VAsset asset]> vd).
      assert (Hu : vd1 !! "username" = vd !! "username")
        by (unfold vd1; by rewrite lookup_insert_ne).
      assert (Hs : vd1 !! "secret_type" = vd !! "secret_type")
        by (unfold vd1; by rewrite lookup_insert_ne).
      assert (Hmiss1 : vd1 !! "username" = None ∨ vd1 !! "secret_type" = None)
        by (by rewrite Hu, Hs).
      rewrite (perform_create_no_lookup vd1 handle w _
                 (get_filter_lookup_missing vd1 Hmiss1)).
      rewrite Hu, <- Hk. cbn [result_entry exn_str].
      apply IH; [done|by rewrite Hu| ].
      apply od_values_set_Forall; [|done]. exact Hkey.
Qed.

Lemma results_of_Forall (P : dict → Prop) (rs : odict dict) :
  (∀ k r, P r → P (r ∪ {[ "asset" := k ]})) →
  Forall P (od_values rs) → Forall P (results_of rs).
Proof.
  intros HP. unfold results_of, od_values.
  rewrite !Forall_fmap. intros H. eapply Forall_impl; [exact H|].
  intros [k r]. cbn. apply HP.
Qed.

Lemma strict_errors_all_error w results :
  Forall (λ r, state_of r = VStr "error") results →
  strict_errors w results = results.
Proof.
  intros Hall. rewrite strict_errors_eq.
  rewrite filter_id by (by apply Forall_forall).
  assert (Hnone : filter (λ r, state_of r = VStr "skipped") results = []).
  { apply elem_of_nil_inv. intros r [Hs Hr]%list_elem_of_filter.
    rewrite Forall_forall in Hall. rewrite (Hall r Hr) in Hs. done. }
  rewrite Hnone. cbn. by rewrite app_nil_r.
Qed.

Lemma bulk_loop_unsupported handle secret_type supports assets :
  ∀ vd _results w _results' w',
    bulk_loop handle secret_type supports assets vd _results w
      = (Ok _results', w') →
    ∀ a, a ∉ supports →
      a ∈ assets
      ∨ od_get (VAsset a) _results
        = Some (error_entry (unsupported_secret_type secret_type)) →
      od_get (VAsset a) _results'
      = Some (error_entry (unsupported_secret_type secret_type)).
Proof.
  induction assets as [|asset rest IH]; intros vd _results w _results' w';
    cbn [bulk_loop].
  - intros [= <- <-] a _ [Ha|Ha]; [by apply elem_of_nil in Ha|done].
  - case_bool_decide as Hsup.
    + intros Hloop a Ha Hin. apply (IH _ _ _ _ _ Hloop a Ha).
      rewrite od_get_set. case_decide as Heq.
      * by right.
      * destruct Hin as [Hin|Hin]; [|by right].
        apply elem_of_cons in Hin as [->|Hin]; [done|by left].
    + destruct (perform_create _ handle w) as [[outcome vd1] w1].
      destruct (result_entry outcome) as [entry|]; [|done].
      intros Hloop a Ha Hin. apply (IH _ _ _ _ _ Hloop a Ha).
      rewrite od_get_set. rewrite decide_False.
      2: { intros [= ->]. apply Ha. by apply dec_stable. }
      destruct Hin as [Hin|Hin]; [|by right].
      apply elem_of_cons in Hin as [->|Hin]; [|by left].
      exfalso. apply Ha. by apply dec_stable.
Qed.

End bulk_edge_facts.

(** X20: a bulk candidate without [username] or without [secret_type]
    creates nothing: the world is left as it was, and every target ends
    with an error entry, either for the missing key or for an asset that
    does not support the default secret type that the capability check
    assumed. *)
Theorem perform_bulk_create_missing_key
    (assets : list string) (vd : dict) (w : world) :
  vd !! "username" = None ∨ vd !! "secret_type" = None →
  let key := if decide (vd !! "username" = None)
             then "username" else "secret_type" in
  ∃ outcome,
    AssetAccountBulkSerializer.perform_bulk_create assets vd w = (outcome, w)
    ∧ (∀ e, outcome ≠ AssetAccountBulkSerializer.BulkRaise e)
    ∧ Forall (λ r, state_of r = VStr "error"
                   ∧ dict_get r "error" ∈
                       [VStr ("'" +:+ key +:+ "'");
                        VStr (AssetAccountBulkSerializer.unsupported_secret_type
                                (bulk_secret_type vd))])
        (outcome_entries outcome).
Proof.
  intros Hmiss key.
  unfold AssetAccountBulkSerializer.perform_bulk_create.
  set (on_invalid := dict_get_default vd "on_invalid" (VStr "skip")).
  set (vd0 := delete "on_invalid" vd).
  set (secret_type := dict_get_default vd0 "secret_type" (VStr "password")).
  set (vd1 := if negb (truthy (dict_get vd0 "name"))
              then <["name" := dict_get vd0 "username"]> vd0 else vd0).
  assert (Hst : secret_type = bulk_secret_type vd).
  { unfold secret_type, bulk_secret_type, vd0, dict_get_default.
    by rewrite lookup_delete_ne. }
  assert (Hu : vd1 !! "username" = vd !! "username").
  { unfold vd1, vd0. destruct (negb _);
      by rewrite ?lookup_insert_ne, lookup_delete_ne by done. }
  assert (Hs : vd1 !! "secret_type" = vd !! "secret_type").
  { unfold vd1, vd0. destruct (negb _);
      by rewrite ?lookup_insert_ne, lookup_delete_ne by done. }
  set (P := λ r : dict,
         state_of r = VStr "error"
         ∧ dict_get r "error" ∈
             [VStr ("'" +:+ key +:+ "'");
              VStr (AssetAccountBulkSerializer.unsupported_secret_type
                      (bulk_secret_type vd))]).
  assert (HP1 : P ({[ "error" :=
                        VStr (AssetAccountBulkSerializer.unsupported_secret_type
                                secret_type);
                      "state" := VStr "error" ]} : dict)).
  { unfold P. rewrite Hst. split; [done|].
    apply elem_of_cons. right. apply elem_of_cons. by left. }
  assert (HP2 : P (error_entry ("'" +:+ key +:+ "'"))).
  { unfold P. split; [done|]. apply elem_of_cons. by left. }
  destruct (bulk_loop_missing_key P
              (AssetAccountBulkSerializer.get_create_handler on_invalid)
              secret_type
              (AssetAccountBulkSerializer.get_secret_type_assets w assets secret_type)
              key assets HP1 HP2 vd1 [] w) as (_results & Hloop & Hall).
  - by rewrite Hu, Hs.
  - unfold key. by rewrite Hu.
  - constructor.
  - rewrite Hloop.
    assert (Hres : Forall P (AssetAccountBulkSerializer.sorted
                     AssetAccountBulkSerializer.score
                     (AssetAccountBulkSerializer.results_of _results))).
    { rewrite sorted_Permutation. apply results_of_Forall; [|done].
      intros k r [Hstate Herr]. unfold P, state_of, dict_get in *.
      destruct (r !! "state") eqn:Hrs; [|done].
      destruct (r !! "error") eqn:Hre.
      - by rewrite !(lookup_union_Some_l _ _ _ _ Hrs), !(lookup_union_Some_l _ _ _ _ Hre).
      - cbn in Herr. rewrite !elem_of_cons, elem_of_nil in Herr. naive_solver. }
    case_bool_decide.
    + eexists. split_and!; [done|done|done].
    + rewrite strict_errors_all_error.
      2: { eapply Forall_impl; [exact Hres|]. by intros r [? _]. }
      destruct (AssetAccountBulkSerializer.sorted _ _) eqn:Hsorted;
        eexists; (split_and!; [done|done|done]).
Qed.

Lemma perform_bulk_create_missing_key_witness :
  ∃ outcome,
    AssetAccountBulkSerializer.perform_bulk_create ["A"; "B"]
      candidate_without_secret_type w_root_on_A = (outcome, w_root_on_A)
    ∧ (∀ e, outcome ≠ AssetAccountBulkSerializer.BulkRaise e)
    ∧ Forall (λ r, state_of r = VStr "error"
                   ∧ dict_get r "error" ∈
                       [VStr ("'" +:+ "secret_type" +:+ "'");
                        VStr (AssetAccountBulkSerializer.unsupported_secret_type
                                (bulk_secret_type candidate_without_secret_type))])
        (outcome_entries outcome).
Proof.
  apply (perform_bulk_create_missing_key ["A"; "B"]
           candidate_without_secret_type w_root_on_A).
  right. reflexivity.
Defined.

(** X21: a target whose asset does not support the secret type always
    ends with the entry that says so, whatever the policy, the store and
    the other targets, also when the asset is listed more than once. *)
Theorem perform_bulk_create_unsupported_target
    (assets : list string) (vd : dict) (w w' : world)
    (outcome : AssetAccountBulkSerializer.bulk_outcome) (a : string) :
  AssetAccountBulkSerializer.perform_bulk_create assets vd w = (outcome, w') →
  a ∈ assets →
  AssetAccountBulkSerializer.supports_secret_type w (bulk_secret_type vd) a
    = false →
  unsupported_entry (bulk_secret_type vd) a ∈ outcome_entries outcome.
Proof.
  unfold AssetAccountBulkSerializer.perform_bulk_create.
  set (on_invalid := dict_get_default vd "on_invalid" (VStr "skip")).
  set (vd0 := delete "on_invalid" vd).
  set (secret_type := dict_get_default vd0 "secret_type" (VStr "password")).
  assert (Hst : secret_type = bulk_secret_type vd).
  { unfold secret_type, bulk_secret_type, vd0, dict_get_default.
    by rewrite lookup_delete_ne. }
  rewrite <- Hst.
  destruct (AssetAccountBulkSerializer.bulk_loop _ _ _ _ _ _ w)
    as [[_results|e] w1] eqn:Hloop.
  2: { destruct (bulk_loop_spec _ secret_type
                   (AssetAccountBulkSerializer.get_secret_type_assets
                      w assets secret_type) assets
                   (get_create_handler_sound on_invalid)
                   (if negb (truthy (dict_get vd0 "name"))
                    then <["name" := dict_get vd0 "username"]> vd0 else vd0)
                   [] w)
         as (? & ? & Hok & _); [constructor|].
       rewrite Hloop in Hok. done. }
  intros Hout Ha Hsup.
  assert (Hget : od_get (VAsset a) _results
                 = Some (error_entry
                           (AssetAccountBulkSerializer.unsupported_secret_type
                              secret_type))).
  { apply (bulk_loop_unsupported _ _ _ _ _ _ _ _ _ Hloop); [|by left].
    unfold AssetAccountBulkSerializer.get_secret_type_assets.
    rewrite list_elem_of_filter. intros [Hs _]. congruence. }
  assert (Hin : unsupported_entry secret_type a
                ∈ AssetAccountBulkSerializer.sorted
                    AssetAccountBulkSerializer.score
                    (AssetAccountBulkSerializer.results_of _results)).
  { rewrite sorted_Permutation.
    unfold AssetAccountBulkSerializer.results_of.
    apply list_elem_of_fmap. exists (VAsset a, error_entry
      (AssetAccountBulkSerializer.unsupported_secret_type secret_type)).
    split; [done|]. by apply od_get_elem_of. }
  revert Hout. case_bool_decide.
  - by intros [= <- <-].
  - assert (Herr : unsupported_entry secret_type a
                   ∈ AssetAccountBulkSerializer.strict_errors w1
                       (AssetAccountBulkSerializer.sorted
                          AssetAccountBulkSerializer.score
                          (AssetAccountBulkSerializer.results_of _results))).
    { rewrite strict_errors_eq. apply elem_of_app. left.
      apply list_elem_of_filter. split; [|done]. done. }
    destruct (AssetAccountBulkSerializer.strict_errors _ _) eqn:Herrors.
    + by apply elem_of_nil in Herr.
    + by intros [= <- <-].
Qed.

Lemma perform_bulk_create_unsupported_target_witness :
  let vd := <["secret_type" := VStr "token"]> (candidate "update") in
  unsupported_entry (VStr "token") "B"
  ∈ outcome_entries
      (AssetAccountBulkSerializer.perform_bulk_create ["A"; "B"; "B"] vd
         w_root_on_A).1.
Proof.
  intros vd.
  apply (perform_bulk_create_unsupported_target ["A"; "B"; "B"] vd w_root_on_A
           (AssetAccountBulkSerializer.perform_bulk_create ["A"; "B"; "B"] vd
              w_root_on_A).2 _ "B").
  - by destruct (AssetAccountBulkSerializer.perform_bulk_create _ _ _).
  - apply elem_of_cons. right. apply elem_of_cons. by left.
  - vm_compute. reflexivity.
Defined.


Section bulk_append_facts.
Import AssetAccountBulkSerializer.

Lemma get_or_create_appends defaults lookup w r w' :
  Account.get_or_create defaults lookup w = (r, w') →
  ∃ new, accounts w' = accounts w ++ new
         ∧ Forall (λ row, ∀ k, k ≠ "id" → row !! k = (defaults ∪ lookup) !! k) new.
Proof.
  unfold Account.get_or_create, Account.objects_filter, raise, ret.
  rewrite bind_unfold.
  destruct (filter _ (accounts w)) as [|row [|row' rows]].
  - rewrite bind_unfold.
    destruct (Account.create _ w) as [[row|e] w1] eqn:Hc; intros [= <- <-].
    + apply create_Ok_row in Hc as [Ha Hrow]. exists [row].
      split; [done|]. by repeat constructor.
    + apply create_accounts in Hc as [(? & ? & _)|[_ Ha]]; [done|].
      exists []. by rewrite app_nil_r.
  - intros [= <- <-]. exists []. by rewrite app_nil_r.
  - intros [= <- <-]. exists []. by rewrite app_nil_r.
Qed.

Lemma _handle_skip_create_appends : handler_appends _handle_skip_create.
Proof.
  intros vd lookup w r w'. unfold _handle_skip_create. rewrite bind_unfold.
  destruct (Account.get_or_create vd lookup w) as [[[row value]|e] w1] eqn:Hg;
    unfold ret; intros [= <- <-]; by eapply get_or_create_appends.
Qed.

Lemma _handle_err_create_appends : handler_appends _handle_err_create.
Proof.
  intros vd lookup w r w'. unfold _handle_err_create. rewrite bind_unfold.
  destruct (Account.get_or_create vd lookup w) as [[[row value]|e] w1] eqn:Hg.
  - destruct value; unfold raise, ret; cbn [negb]; intros [= <- <-];
      by eapply get_or_create_appends.
  - intros [= <- <-]. by eapply get_or_create_appends.
Qed.

Lemma get_create_handler_appends on_invalid :
  on_invalid ≠ VStr "update" → handler_appends (get_create_handler on_invalid).
Proof.
  intros Hne. unfold get_create_handler.
  rewrite bool_decide_eq_false_2 by done.
  case_bool_decide;
    [apply _handle_skip_create_appends|apply _handle_err_create_appends].
Qed.

Lemma get_filter_lookup_Ok vd lookup :
  get_filter_lookup vd = Ok lookup →
  ∀ k v, lookup !! k = Some v → vd !! k = Some v.
Proof.
  unfold get_filter_lookup, dict_getitem.
  destruct (vd !! "username") as [u|] eqn:Hu; [|done].
  destruct (vd !! "secret_type") as [s|] eqn:Hs; [|done].
  destruct (vd !! "asset") as [a|] eqn:Ha; [|done].
  cbn [mbind result_bind]. intros [= <-] k v.
  rewrite !lookup_insert_Some, lookup_singleton_Some. naive_solver.
Qed.

Lemma perform_create_appends handle vd w r vd' w' v :
  handler_appends handle →
  perform_create vd handle w = ((r, vd'), w') →
  vd !! "asset" = Some v →
  vd' !! "asset" = Some v
  ∧ ∃ new, accounts w' = accounts w ++ new
           ∧ Forall (λ row, dict_get row "asset" = v) new.
Proof.
  intros Hh Hp Hasset. revert Hp. unfold perform_create.
  destruct (get_filter_lookup vd) as [lookup|e] eqn:Hl.
  2: { intros [= <- <- <-]. split; [done|]. exists []. by rewrite app_nil_r. }
  assert (Hrows : ∀ vd0 new,
    vd0 !! "asset" = Some v →
    Forall (λ row : dict, ∀ k, k ≠ "id" → row !! k = (vd0 ∪ lookup) !! k) new →
    Forall (λ row, dict_get row "asset" = v) new).
  { intros vd0 new Hv Hf. eapply Forall_impl; [exact Hf|]. intros row Hrow.
    unfold dict_get. rewrite Hrow by done.
    by rewrite (lookup_union_Some_l _ _ _ _ Hv). }
  destruct (handle vd lookup w) as [r1 w1] eqn:H1.
  destruct (Hh _ _ _ _ _ H1) as (new1 & Ha1 & Hnew1).
  assert (Hdirect : (r1, vd, w1) = (r, vd', w') →
    vd' !! "asset" = Some v
    ∧ ∃ new, accounts w' = accounts w ++ new
             ∧ Forall (λ row, dict_get row "asset" = v) new).
  { intros [= <- <- <-]. split; [done|]. exists new1. split; [done|].
    by apply (Hrows vd). }
  destruct r1 as [x|e]; [done|]. destruct e; try done.
  destruct (get_uniq_name vd w1) as [[name|e] w2] eqn:Hn.
  - pose proof (get_uniq_name_accounts _ _ _ _ Hn) as Ha2.
    destruct (handle (<["name" := name]> vd) lookup w2) as [r3 w3] eqn:H3.
    destruct (Hh _ _ _ _ _ H3) as (new3 & Ha3 & Hnew3).
    intros [= <- <- <-].
    assert (Hv : <["name" := name]> vd !! "asset" = Some v)
      by (by rewrite lookup_insert_ne).
    split; [done|]. exists (new1 ++ new3). split.
    + by rewrite Ha3, Ha2, Ha1, app_assoc.
    + apply Forall_app. split; [by apply (Hrows vd)|by eapply Hrows].
  - pose proof (get_uniq_name_accounts _ _ _ _ Hn) as Ha2.
    intros [= <- <- <-]. split; [done|]. exists new1. split.
    + by rewrite Ha2.
    + by apply (Hrows vd).
Qed.

Lemma bulk_loop_appends handle secret_type supports assets :
  handler_appends handle →
  ∀ vd _results w r w',
    bulk_loop handle secret_type supports assets vd _results w = (r, w') →
    ∃ new, accounts w' = accounts w ++ new
           ∧ Forall (λ row, ∃ a, a ∈ assets ∧ a ∈ supports
                                 ∧ dict_get row "asset" = VAsset a) new.
Proof.
  intros Hh. induction assets as [|asset rest IH];
    intros vd _results w r w'; cbn [bulk_loop].
  - intros [= <- <-]. exists []. by rewrite app_nil_r.
  - case_bool_decide as Hsup.
    + intros Hloop. apply IH in Hloop as (new & Ha & Hnew).
      exists new. split; [done|]. eapply Forall_impl; [exact Hnew|].
      intros row (a & Hin & ? & ?). exists a. split_and!; try done.
      apply elem_of_cons. by right.
    + destruct (perform_create _ handle w) as [[outcome vd1] w1] eqn:Hp.
      apply (perform_create_appends _ _ _ _ _ _ (VAsset asset) Hh) in Hp
        as [_ (new1 & Ha1 & Hnew1)]; [|by rewrite lookup_insert_eq].
      assert (Hhere : Forall (λ row, ∃ a, a ∈ asset :: rest ∧ a ∈ supports
                                      ∧ dict_get row "asset" = VAsset a) new1).
      { eapply Forall_impl; [exact Hnew1|]. intros row Hrow.
        exists asset. split_and!; [by apply elem_of_cons; left|done|done]. }
      destruct (result_entry outcome) as [entry|e].
      * intros Hloop. apply IH in Hloop as (new & Ha & Hnew).
        exists (new1 ++ new). split; [by rewrite Ha, Ha1, app_assoc|].
        apply Forall_app. split; [done|].
        eapply Forall_impl; [exact Hnew|].
        intros row (a & Hin & ? & ?). exists a. split_and!; try done.
        apply elem_of_cons. by right.
      * intros [= <- <-]. by exists new1.
Qed.

Lemma perform_bulk_create_loop assets vd w outcome w' :
  perform_bulk_create assets vd w = (outcome, w') →
  let on_invalid := dict_get_default vd "on_invalid" (VStr "skip") in
  let vd0 := delete "on_invalid" vd in
  ∃ r,
    bulk_loop (get_create_handler on_invalid) (bulk_secret_type vd)
      (get_secret_type_assets w assets (bulk_secret_type vd)) assets
      (if negb (truthy (dict_get vd0 "name"))
       then <["name" := dict_get vd0 "username"]> vd0 else vd0) [] w = (r, w').
Proof.
  unfold perform_bulk_create. cbn zeta.
  assert (Hst : dict_get_default (delete "on_invalid" vd) "secret_type"
                  (VStr "password") = bulk_secret_type vd).
  { unfold bulk_secret_type, dict_get_default. by rewrite lookup_delete_ne. }
  rewrite Hst.
  destruct (bulk_loop _ _ _ _ _ _ w) as [[_results|e] w1].
  - case_bool_decide; [intros [= _ <-]; eauto|].
    destruct (strict_errors _ _); intros [= _ <-]; eauto.
  - intros [= _ <-]. eauto.
Qed.

End bulk_append_facts.

(** X22: under every policy but [update] a bulk creation only appends to
    the store: the accounts that were there stay as they are and in place,
    and every account added belongs to a target asset that supports the
    secret type. *)
Theorem perform_bulk_create_appends
    (assets : list string) (vd : dict) (w w' : world)
    (outcome : AssetAccountBulkSerializer.bulk_outcome) :
  dict_get_default vd "on_invalid" (VStr "skip") ≠ VStr "update" →
  AssetAccountBulkSerializer.perform_bulk_create assets vd w = (outcome, w') →
  ∃ new,
    accounts w' = accounts w ++ new
    ∧ Forall (λ row, ∃ a,
                a ∈ assets
                ∧ AssetAccountBulkSerializer.supports_secret_type
                    w (bulk_secret_type vd) a = true
                ∧ dict_get row "asset" = VAsset a) new.
Proof.
  intros Hpolicy Hrun.
  apply perform_bulk_create_loop in Hrun as [r Hloop].
  apply bulk_loop_appends in Hloop as (new & Ha & Hnew);
    [|by apply get_create_handler_appends].
  exists new. split; [done|]. eapply Forall_impl; [exact Hnew|].
  intros row (a & Hin & Hsup & Hrow). exists a. split_and!; try done.
  unfold AssetAccountBulkSerializer.get_secret_type_assets in Hsup.
  by apply list_elem_of_filter in Hsup as [Hsup _].
Qed.

Lemma perform_bulk_create_appends_witness :
  let run := AssetAccountBulkSerializer.perform_bulk_create
               ["A"; "B"] (candidate "skip") w_root_on_A in
  ∃ new,
    accounts run.2 = accounts w_root_on_A ++ new
    ∧ Forall (λ row, ∃ a,
                a ∈ ["A"; "B"]
                ∧ AssetAccountBulkSerializer.supports_secret_type
                    w_root_on_A (bulk_secret_type (candidate "skip")) a = true
                ∧ dict_get row "asset" = VAsset a) new.
Proof.
  intros run.
  apply (perform_bulk_create_appends ["A"; "B"] (candidate "skip")
           w_root_on_A run.2 run.1).
  - intros Hne. vm_compute in Hne. discriminate Hne.
  - subst run. by destruct (AssetAccountBulkSerializer.perform_bulk_create _ _ _).
Defined.

Section settle_facts.
Import AssetAccountBulkSerializer.

Lemma row_matches_lookup_of lookup vd (row : dict) :
  (∀ k v, lookup !! k = Some v → vd !! k = Some v) →
  lookup !! "id" = None →
  (∀ k, k ≠ "id" → row !! k = (vd ∪ lookup) !! k) →
  Account.row_matches lookup row = true.
Proof.
  intros Hsub Hid Hrow. unfold Account.row_matches.
  apply bool_decide_eq_true. intros k v Hk. cbn beta.
  assert (k ≠ "id") by (intros ->; congruence).
  unfold dict_get. rewrite Hrow by done.
  by rewrite (lookup_union_Some_l _ _ _ _ (Hsub k v Hk)).
Qed.

Lemma filter_lookup_created lookup w w' row :
  filter (λ r, Account.row_matches lookup r = true) (accounts w) = [] →
  accounts w' = accounts w ++ [row] →
  Account.row_matches lookup row = true →
  filter (λ r, Account.row_matches lookup r = true) (accounts w') = [row].
Proof.
  intros Hnone -> Hrow. rewrite filter_app, Hnone.
  by rewrite filter_cons, filter_nil, decide_True.
Qed.

Lemma get_or_create_settles vd lookup w row value w' :
  (∀ k v, lookup !! k = Some v → vd !! k = Some v) →
  lookup !! "id" = None →
  Account.get_or_create vd lookup w = (Ok (row, value), w') →
  Account.get_or_create vd lookup w' = (Ok (row, false), w').
Proof.
  intros Hsub Hid.
  unfold Account.get_or_create, Account.objects_filter, raise, ret.
  rewrite !bind_unfold.
  destruct (filter _ (accounts w)) as [|row0 [|row1 rows]] eqn:Hrows.
  - rewrite bind_unfold.
    destruct (Account.create _ w) as [[row2|e] w1] eqn:Hc; [|done].
    intros [= <- <- <-]. apply create_Ok_row in Hc as [Ha Hrow].
    rewrite (filter_lookup_created lookup w w1 row2 Hrows Ha); [done|].
    by apply (row_matches_lookup_of lookup vd).
  - intros [= <- <- <-]. by rewrite Hrows.
  - done.
Qed.

Lemma _handle_skip_create_settles vd lookup w inst ch st w' :
  (∀ k v, lookup !! k = Some v → vd !! k = Some v) →
  lookup !! "id" = None →
  _handle_skip_create vd lookup w = (Ok (inst, ch, st), w') →
  _handle_skip_create vd lookup w' = (Ok (inst, false, "skipped"), w').
Proof.
  intros Hsub Hid. unfold _handle_skip_create. rewrite !bind_unfold.
  destruct (Account.get_or_create vd lookup w) as [[[row value]|e] w1] eqn:Hg;
    [|done].
  unfold ret. intros [= <- <- <- <-].
  by rewrite (get_or_create_settles _ _ _ _ _ _ Hsub Hid Hg).
Qed.

Lemma save_replaces row' w w' row :
  Account.save row' w = (Ok (), w') →
  row ∈ accounts w → dict_get row "id" = dict_get row' "id" →
  accounts w' =
    (λ r, if bool_decide (dict_get r "id" = dict_get row' "id")
          then row' else r) <$> accounts w.
Proof.
  unfold Account.save. intros Hs Hin Hid. revert Hs.
  case_match; [done|].
  assert (Hex : existsb (λ r, bool_decide (dict_get r "id" = dict_get row' "id"))
                  (accounts w) = true).
  { apply existsb_exists. exists row. split; [by apply list_elem_of_In|].
    by apply bool_decide_eq_true. }
  rewrite Hex. by intros [= <-].
Qed.

Lemma head_all_equal {A} (x : A) (l : list A) :
  x ∈ l → (∀ y, y ∈ l → y = x) → head l = Some x.
Proof.
  destruct l as [|y l]; [by intros ?%elem_of_nil|].
  intros _ Hall. cbn. f_equal. apply Hall. apply elem_of_cons. by left.
Qed.

Lemma _handle_update_create_settles vd lookup w inst ch st w' :
  (∀ k v, lookup !! k = Some v → vd !! k = Some v) →
  lookup !! "id" = None →
  vd !! "id" = None → is_Some (vd !! "secret") →
  _handle_update_create vd lookup w = (Ok (inst, ch, st), w') →
  _handle_update_create vd lookup w' = (Ok (inst, false, "skipped"), w').
Proof.
  intros Hsub Hid Hvid [secret Hsecret].
  assert (Hskip : ∀ w0 row,
    head (filter (λ r, Account.row_matches lookup r = true) (accounts w0))
      = Some row →
    dict_get row "secret" = dict_get vd "secret" →
    _handle_update_create vd lookup w0 = (Ok (row, false, "skipped"), w0)).
  { intros w0 row Hhead Hsec. unfold _handle_update_create.
    rewrite bind_unfold. unfold Account.objects_filter.
    rewrite Hhead. by rewrite bool_decide_eq_true_2. }
  assert (Hvsec : dict_get vd "secret" = secret)
    by (unfold dict_get; by rewrite Hsecret).
  unfold _handle_update_create at 1. rewrite bind_unfold.
  unfold Account.objects_filter at 1.
  destruct (match head (filter _ (accounts w)) with
            | Some ori => _ | None => None end) as [ori|] eqn:Hunch.
  { unfold ret. intros [= <- <- <- <-].
    destruct (head (filter _ (accounts w))) as [ori'|] eqn:Hhead; [|done].
    case_bool_decide as Hsec; [|done]. injection Hunch as <-.
    by apply Hskip. }
  rewrite bind_unfold.
  destruct (Account.update_or_create vd lookup w) as [[[row value]|e] w1]
    eqn:Hu; [|done].
  unfold ret. intros [= <- <- <- <-]. revert Hu.
  unfold Account.update_or_create, Account.objects_filter, raise, ret.
  rewrite bind_unfold.
  destruct (filter _ (accounts w)) as [|row0 [|row1 rows]] eqn:Hrows.
  - rewrite bind_unfold.
    destruct (Account.create _ w) as [[row2|e] w2] eqn:Hc; [|done].
    intros [= <- <- <-]. apply create_Ok_row in Hc as [Ha Hrow].
    apply Hskip.
    + rewrite (filter_lookup_created lookup w w2 row2 Hrows Ha); [done|].
      by apply (row_matches_lookup_of lookup vd).
    + unfold dict_get. rewrite Hrow by done.
      by rewrite (lookup_union_Some_l _ _ _ _ Hsecret), Hsecret.
  - rewrite bind_unfold.
    destruct (Account.save (vd ∪ row0) w) as [[[]|e] w2] eqn:Hs; [|done].
    intros [= <- <- <-].
    assert (Hin0 : row0 ∈ accounts w ∧ Account.row_matches lookup row0 = true).
    { assert (Hin : row0 ∈ [row0]) by (by apply list_elem_of_singleton).
      rewrite <- Hrows in Hin. apply list_elem_of_filter in Hin. naive_solver. }
    destruct Hin0 as [Hin0 Hm0].
    assert (Hpk : dict_get row0 "id" = dict_get (vd ∪ row0) "id").
    { unfold dict_get. by rewrite lookup_union_r. }
    assert (Hnew : Account.row_matches lookup (vd ∪ row0) = true).
    { unfold Account.row_matches. apply bool_decide_eq_true.
      intros k v Hk. cbn beta. unfold dict_get.
      by rewrite (lookup_union_Some_l _ _ _ _ (Hsub k v Hk)). }
    pose proof (save_replaces _ _ _ row0 Hs Hin0 Hpk) as Ha.
    apply Hskip.
    + apply head_all_equal.
      * apply list_elem_of_filter. split; [done|]. rewrite Ha.
        apply list_elem_of_fmap. exists row0. split; [|done].
        by rewrite bool_decide_eq_true_2.
      * intros y [Hy Hiny]%list_elem_of_filter. rewrite Ha in Hiny.
        apply list_elem_of_fmap in Hiny as (r & -> & Hr).
        case_bool_decide as Hsame; [done|]. exfalso.
        assert (Hr' : r ∈ [row0]).
        { rewrite <- Hrows. by apply list_elem_of_filter. }
        apply list_elem_of_singleton in Hr' as ->. done.
    + unfold dict_get.
      by rewrite (lookup_union_Some_l _ _ _ _ Hsecret), Hsecret.
  - done.
Qed.

Lemma get_filter_lookup_rename vd name :
  get_filter_lookup (<["name" := name]> vd) = get_filter_lookup vd.
Proof.
  unfold get_filter_lookup, dict_getitem. by rewrite !lookup_insert_ne.
Qed.

Lemma get_filter_lookup_keys vd lookup :
  get_filter_lookup vd = Ok lookup → lookup !! "id" = None.
Proof.
  unfold get_filter_lookup, dict_getitem.
  destruct (vd !! "username"); [|done].
  destruct (vd !! "secret_type"); [|done].
  destruct (vd !! "asset"); [|done].
  cbn [mbind result_bind]. by intros [= <-].
Qed.

Lemma perform_create_settle handle (Q : dict → Prop) :
  (∀ vd name, Q vd → Q (<["name" := name]> vd)) →
  (∀ vd lookup w inst ch st w',
     Q vd → (∀ k v, lookup !! k = Some v → vd !! k = Some v) →
     lookup !! "id" = None →
     handle vd lookup w = (Ok (inst, ch, st), w') →
     handle vd lookup w' = (Ok (inst, false, "skipped"), w')) →
  ∀ vd vd' inst ch st w w',
    Q vd →
    perform_create vd handle w = ((Ok (inst, ch, st), vd'), w') →
    perform_create vd' handle w' = ((Ok (inst, false, "skipped"), vd'), w').
Proof.
  intros HQ Hsettle vd vd' inst ch st w w' Hvd.
  unfold perform_create at 1.
  destruct (get_filter_lookup vd) as [lookup|e] eqn:Hl; [|done].
  pose proof (get_filter_lookup_Ok _ _ Hl) as Hsub.
  pose proof (get_filter_lookup_keys _ _ Hl) as Hid.
  destruct (handle vd lookup w) as [r1 w1] eqn:H1.
  assert (Hdirect : (r1, vd, w1) = (Ok (inst, ch, st), vd', w') →
    perform_create vd' handle w' = ((Ok (inst, false, "skipped"), vd'), w')).
  { intros [= -> <- ->].
    apply (perform_create_no_retry _ _ lookup); [done| |done].
    by apply (Hsettle _ _ w _ ch st). }
  destruct r1 as [x|e]; [done|]. destruct e; try done.
  destruct (get_uniq_name vd w1) as [[name|e] w2]; [|done].
  destruct (handle (<["name" := name]> vd) lookup w2) as [r3 w3] eqn:H3.
  intros [= -> <- ->].
  apply (perform_create_no_retry _ _ lookup);
    [by rewrite get_filter_lookup_rename| |done].
  apply (Hsettle _ _ w2 _ ch st); [by apply HQ| |done|done].
  intros k v Hk.
  assert (k ≠ "name").
  { intros ->. revert Hl Hk. unfold get_filter_lookup, dict_getitem.
    destruct (vd !! "username"); [|done].
    destruct (vd !! "secret_type"); [|done].
    destruct (vd !! "asset"); [|done].
    cbn [mbind result_bind]. by intros [= <-]. }
  rewrite lookup_insert_ne by done. by apply Hsub.
Qed.

End settle_facts.

(** X23: a target of a bulk creation settles under the policies [skip] and
    [update]: once [perform_create] has returned an account, the same call
    on the data and the world it left returns that account with the outcome
    [skipped] and writes nothing. For [update] this needs a candidate that
    carries a secret and no id. *)
Theorem perform_create_settles
    (on_invalid : pyval) (vd vd' instance : dict) (changed : bool)
    (state : string) (w w' : world) :
  on_invalid = VStr "skip"
  ∨ (on_invalid = VStr "update"
     ∧ vd !! "id" = None ∧ is_Some (vd !! "secret")) →
  AssetAccountBulkSerializer.perform_create vd
    (AssetAccountBulkSerializer.get_create_handler on_invalid) w
    = ((Ok (instance, changed, state), vd'), w') →
  AssetAccountBulkSerializer.perform_create vd'
    (AssetAccountBulkSerializer.get_create_handler on_invalid) w'
    = ((Ok (instance, false, "skipped"), vd'), w').
Proof.
  intros [->|(-> & Hid & Hsecret)].
  - apply (perform_create_settle _ (λ _, True)); [done| |done].
    intros vd0 lookup w0 inst ch st w0' _.
    apply _handle_skip_create_settles.
  - apply (perform_create_settle _
             (λ vd, vd !! "id" = None ∧ is_Some (vd !! "secret")));
      [| |done].
    + intros vd0 name [? ?]. by rewrite !lookup_insert_ne.
    + intros vd0 lookup w0 inst ch st w0' [? ?] Hsub Hlid.
      by apply _handle_update_create_settles.
Qed.

Lemma perform_create_settles_witness :
  let vd := <["asset" := VAsset "A"]> (<["name" := VStr "root"]>
              (delete "on_invalid" (candidate "update"))) in
  let handle := AssetAccountBulkSerializer.get_create_handler (VStr "update") in
  let first := AssetAccountBulkSerializer.perform_create vd handle w_root_on_A in
  ∃ instance,
    first.1 = (Ok (instance, true, "updated"), vd)
    ∧ AssetAccountBulkSerializer.perform_create vd handle first.2
      = ((Ok (instance, false, "skipped"), vd), first.2).
Proof.
  intros vd handle first. eexists.
  assert (Hfirst : ∀ r, r = first.1 → first.1 = r) by (by intros r ->).
  split.
  - apply Hfirst. vm_compute. reflexivity.
  - apply (perform_create_settles (VStr "update") vd vd _ true "updated"
             w_root_on_A first.2).
    + right. split_and!; [done|by vm_compute|vm_compute; eauto].
    + vm_compute. reflexivity.
Defined.

Section bulk_create_facts.
Import AssetAccountBulkSerializer.

Lemma _handle_skip_create_frame : handler_frame _handle_skip_create.
Proof.
  intros vd lookup w r w'. unfold _handle_skip_create. rewrite bind_unfold.
  destruct (Account.get_or_create vd lookup w) as [[[row value]|e] w1] eqn:Hg;
    unfold ret; intros [= <- <-]; by eapply get_or_create_frame.
Qed.

Lemma _handle_err_create_frame : handler_frame _handle_err_create.
Proof.
  intros vd lookup w r w'. unfold _handle_err_create. rewrite bind_unfold.
  destruct (Account.get_or_create vd lookup w) as [[[row value]|e] w1] eqn:Hg.
  - destruct value; unfold raise, ret; cbn [negb]; intros [= <- <-];
      by eapply get_or_create_frame.
  - intros [= <- <-]. by eapply get_or_create_frame.
Qed.

Lemma _handle_update_create_frame : handler_frame _handle_update_create.
Proof.
  intros vd lookup w r w'. unfold _handle_update_create. rewrite bind_unfold.
  unfold Account.objects_filter.
  destruct (match head (filter _ (accounts w)) with
            | Some ori => _ | None => None end) as [ori|].
  - unfold ret. intros [= <- <-]. apply only_accounts_changed_refl.
  - rewrite bind_unfold.
    destruct (Account.update_or_create vd lookup w) as [[[row value]|e] w1]
      eqn:Hu; unfold ret; intros [= <- <-]; by eapply update_or_create_frame.
Qed.

Lemma get_create_handler_frame on_invalid :
  handler_frame (get_create_handler on_invalid).
Proof.
  unfold get_create_handler. repeat case_bool_decide;
    auto using _handle_skip_create_frame, _handle_err_create_frame,
               _handle_update_create_frame.
Qed.

Lemma get_uniq_name_frame vd w r w' :
  get_uniq_name vd w = (r, w') → only_accounts_changed w w'.
Proof.
  unfold get_uniq_name, lift, uuid4_hex, ret. rewrite bind_unfold.
  destruct (dict_getitem vd "name") as [name|]; [|by intros [= <- <-]].
  rewrite bind_unfold.
  destruct (py_add_str name "-") as [prefix|]; [|by intros [= <- <-]].
  rewrite bind_unfold. by intros [= <- <-].
Qed.

Lemma perform_create_frame handle vd w r vd' w' :
  handler_frame handle →
  perform_create vd handle w = ((r, vd'), w') → only_accounts_changed w w'.
Proof.
  intros Hh. unfold perform_create.
  destruct (get_filter_lookup vd) as [lookup|e].
  2: { intros [= <- <- <-]. apply only_accounts_changed_refl. }
  destruct (handle vd lookup w) as [r1 w1] eqn:H1.
  pose proof (Hh _ _ _ _ _ H1) as Hw1.
  assert (Hdirect : (r1, vd, w1) = (r, vd', w') → only_accounts_changed w w')
    by (by intros [= <- <- <-]).
  destruct r1 as [x|e]; [done|]. destruct e; try done.
  destruct (get_uniq_name vd w1) as [[name|e] w2] eqn:Hn;
    pose proof (get_uniq_name_frame _ _ _ _ Hn) as Hw2.
  - destruct (handle (<["name" := name]> vd) lookup w2) as [r3 w3] eqn:H3.
    pose proof (Hh _ _ _ _ _ H3) as Hw3. intros [= <- <- <-].
    eauto using only_accounts_changed_trans.
  - intros [= <- <- <-]. eauto using only_accounts_changed_trans.
Qed.

Lemma bulk_loop_frame handle secret_type supports assets :
  handler_frame handle →
  ∀ vd _results w r w',
    bulk_loop handle secret_type supports assets vd _results w = (r, w') →
    only_accounts_changed w w'.
Proof.
  intros Hh. induction assets as [|asset rest IH];
    intros vd _results w r w'; cbn [bulk_loop].
  - intros [= <- <-]. apply only_accounts_changed_refl.
  - case_bool_decide; [by apply IH|].
    destruct (perform_create _ handle w) as [[outcome vd1] w1] eqn:Hp.
    apply perform_create_frame in Hp; [|done].
    destruct (result_entry outcome) as [entry|e].
    + intros Hloop. apply IH in Hloop.
      by eapply only_accounts_changed_trans.
    + by intros [= <- <-].
Qed.

Lemma perform_bulk_create_frame assets vd w outcome w' :
  perform_bulk_create assets vd w = (outcome, w') → only_accounts_changed w w'.
Proof.
  intros [r Hloop]%perform_bulk_create_loop.
  eapply bulk_loop_frame; [|exact Hloop]. apply get_create_handler_frame.
Qed.

(** An entry in error holds no account. *)
Lemma result_entry_error_instance on_invalid vd w entry :
  result_entry (perform_create vd (get_create_handler on_invalid) w).1.1
    = Ok entry →
  state_of entry = VStr "error" → entry !! "instance" = None.
Proof.
  destruct (perform_create _ _ w).1.1 as [[[inst ch] st]|e] eqn:Hout.
  - apply perform_create_Ok in Hout as (vd0 & lookup & w0 & Hh).
    pose proof (get_create_handler_sound on_invalid vd0 lookup w0) as Hs.
    destruct (get_create_handler on_invalid vd0 lookup w0) as [[[[i c] s]|] w1];
      [|done]. cbn in Hh. injection Hh as -> -> ->.
    cbn [result_entry]. intros [= <-]. unfold state_of, dict_get.
    rewrite lookup_insert_ne, lookup_insert_ne, lookup_singleton_eq by done.
    cbn. intros [= ->]. rewrite !elem_of_cons, elem_of_nil in Hs.
    naive_solver.
  - intros Hentry _. apply perform_create_recordable in Hout as [msg Hmsg].
    rewrite Hmsg in Hentry. by injection Hentry as <-.
Qed.

Lemma perform_bulk_create_results assets vd w results w' :
  perform_bulk_create assets vd w = (BulkResults results, w') →
  Forall (λ r, is_Some (r !! "asset")
               ∧ (state_of r = VStr "error" → r !! "instance" = None)) results.
Proof.
  unfold perform_bulk_create.
  destruct (bulk_loop _ _ _ _ _ _ w) as [[_results|e] w1] eqn:Hloop; [|done].
  assert (Hall : Forall (λ r, is_Some (r !! "asset")
                   ∧ (state_of r = VStr "error" → r !! "instance" = None))
                   (sorted score (results_of _results))).
  { rewrite sorted_Permutation.
    assert (Hentries : Forall (λ entry, state_of entry = VStr "error" →
                                        entry !! "instance" = None)
                         (od_values _results)).
    { eapply (bulk_loop_Forall _ _ _ _ _); [| |exact Hloop|constructor].
      - done.
      - intros vd0 w0 entry. apply result_entry_error_instance. }
    unfold results_of, od_values in *. rewrite Forall_fmap in Hentries.
    rewrite Forall_fmap. eapply Forall_impl; [exact Hentries|].
    intros [k r] Hr. cbn in *. split.
    - destruct (r !! "asset") eqn:Hra.
      + rewrite (lookup_union_Some_l _ _ _ _ Hra). eauto.
      + rewrite lookup_union_r by done. rewrite lookup_singleton_eq. eauto.
    - unfold state_of, dict_get in *.
      destruct (r !! "state") eqn:Hrs.
      + rewrite (lookup_union_Some_l _ _ _ _ Hrs). intros Hs.
        rewrite lookup_union_r by auto. by rewrite lookup_singleton_ne.
      + rewrite lookup_union_r by done. by rewrite lookup_singleton_ne. }
  case_bool_decide; [by intros [= <- _]|].
  destruct (strict_errors _ _); [by intros [= <- _]|done].
Qed.

Lemma assets_to_str_spec w results :
  Forall (λ r : dict, is_Some (r !! "asset")) results →
  ∃ out,
    assets_to_str w results = Ok out
    ∧ Forall2 (λ r r', (∃ s, r' !! "asset" = Some (VStr s))
                       ∧ ∀ k, k ≠ "asset" → r' !! k = r !! k) results out.
Proof.
  induction 1 as [|r results [asset Hr] _ (out & IH & Hout)];
    cbn [assets_to_str].
  - by exists [].
  - unfold dict_getitem. rewrite Hr, IH. cbn [mbind result_bind].
    eexists. split; [done|]. constructor; [|done]. split.
    + rewrite lookup_insert_eq. eauto.
    + intros k Hk. by rewrite lookup_insert_ne.
Qed.

Lemma pushed_ids_ext (results out : list dict) :
  Forall2 (λ r r' : dict, ∀ k, k ≠ "asset" → r' !! k = r !! k) results out →
  pushed_ids out = pushed_ids results.
Proof.
  unfold pushed_ids. induction 1 as [|r r' results out Hr _ IH]; [done|].
  assert (Hi : dict_get r' "instance" = dict_get r "instance")
    by (unfold dict_get; by rewrite Hr).
  rewrite !filter_cons, Hi. case_decide; [|done].
  by rewrite !fmap_cons, Hi, IH.
Qed.

End bulk_create_facts.

(** X24: the bulk [create] returns its results with every asset as text.
    With [push_now] set it queues one task with the ids of all the accounts
    in the results, those of skipped targets included and none for a target
    in error; without [push_now] it queues nothing. When the strict policy
    raises its errors nothing is queued either, although the accounts
    created before are stored. *)
Theorem bulk_create_pushes_result_accounts
    (self_template : option AccountTemplate) (assets : list string)
    (validated_data : dict) (w w' : world)
    (outcome : AssetAccountBulkSerializer.bulk_outcome) :
  AssetAccountBulkSerializer.create self_template assets validated_data w
    = (outcome, w') →
  match outcome with
  | AssetAccountBulkSerializer.BulkResults results =>
      Forall (λ r, (∃ s, r !! "asset" = Some (VStr s))
                   ∧ (state_of r = VStr "error" → r !! "instance" = None))
        results
      ∧ push_queue w' =
          push_queue w
          ++ (if truthy (dict_get_default validated_data "push_now" (VBool false))
              then [(pushed_ids results, VNone)] else [])
  | AssetAccountBulkSerializer.BulkValidationError _ =>
      push_queue w' = push_queue w
  | AssetAccountBulkSerializer.BulkRaise _ => False
  end.
Proof.
  unfold AssetAccountBulkSerializer.create.
  destruct (AssetAccountBulkSerializer.perform_bulk_create _ _ w)
    as [[results|errors|e] w1] eqn:Hrun.
  - pose proof (perform_bulk_create_frame _ _ _ _ _ Hrun) as (_ & _ & _ & Hq).
    apply perform_bulk_create_results in Hrun.
    destruct (assets_to_str_spec
                (if negb (truthy (dict_get_default validated_data "push_now"
                                    (VBool false)))
                 then w1
                 else set_push_queue
                        (push_queue w1
                         ++ [(pushed_ids results, VNone)]) w1) results)
      as (out & Hout & Hrel).
    { eapply Forall_impl; [exact Hrun|]. by intros r [? _]. }
    unfold AssetAccountBulkSerializer.push_accounts_if_need.
    destruct (truthy (dict_get_default validated_data "push_now" (VBool false)));
      cbn [negb] in *; unfold ret, push_accounts_to_assets_task_delay;
      fold (pushed_ids results); rewrite Hout; intros [= <- <-].
    + split.
      * apply Forall_forall. intros r' Hr'.
        apply list_elem_of_lookup in Hr' as [i Hi].
        destruct (Forall2_lookup_r _ results out i r' Hrel Hi) as (r & Hr & HP).
        cbn beta in HP. destruct HP as [Hs Hk].
        split; [done|].
        rewrite Forall_forall in Hrun.
        destruct (Hrun r (list_elem_of_lookup_2 _ _ _ Hr)) as [_ Herr].
        unfold state_of, dict_get in *. rewrite !Hk by done. done.
      * cbn [push_queue set_push_queue]. rewrite Hq. do 3 f_equal.
        symmetry. apply pushed_ids_ext. eapply Forall2_impl; [exact Hrel|].
        by intros r r' [_ ?].
    + split.
      * apply Forall_forall. intros r' Hr'.
        apply list_elem_of_lookup in Hr' as [i Hi].
        destruct (Forall2_lookup_r _ results out i r' Hrel Hi) as (r & Hr & HP).
        cbn beta in HP. destruct HP as [Hs Hk].
        split; [done|].
        rewrite Forall_forall in Hrun.
        destruct (Hrun r (list_elem_of_lookup_2 _ _ _ Hr)) as [_ Herr].
        unfold state_of, dict_get in *. rewrite !Hk by done. done.
      * by rewrite Hq, app_nil_r.
  - pose proof (perform_bulk_create_frame _ _ _ _ _ Hrun) as (_ & _ & _ & Hq).
    by intros [= <- <-].
  - by destruct (perform_bulk_create_never_raises _ _ _ _ _ Hrun).
Qed.

Lemma bulk_create_pushes_result_accounts_witness :
  let vd := <["push_now" := VBool true]> (candidate "skip") in
  let run := AssetAccountBulkSerializer.create None ["A"; "B"] vd w_root_on_A in
  match run.1 with
  | AssetAccountBulkSerializer.BulkResults results =>
      Forall (λ r, (∃ s, r !! "asset" = Some (VStr s))
                   ∧ (state_of r = VStr "error" → r !! "instance" = None))
        results
      ∧ push_queue run.2 =
          push_queue w_root_on_A
          ++ (if truthy (dict_get_default vd "push_now" (VBool false))
              then [(pushed_ids results, VNone)] else [])
  | AssetAccountBulkSerializer.BulkValidationError _ =>
      push_queue run.2 = push_queue w_root_on_A
  | AssetAccountBulkSerializer.BulkRaise _ => False
  end.
Proof.
  intros vd run.
  apply (bulk_create_pushes_result_accounts None ["A"; "B"] vd w_root_on_A
           run.2 run.1).
  subst run. by destruct (AssetAccountBulkSerializer.create _ _ _ _).
Defined.
